(** * Surgical-simulation core: scenario generator and assessment engine

    A shallow embedding of [backend/simulation_generator.py] and
    [backend/assessment_engine.py], with the properties of the
    natural-language specification stated and settled against it.

    Conventions of the embedding.
    - Python [str] is [string] (one [ascii] per character); [lower] acts on
      the ASCII letters, which is all that Python's does on ASCII text:
      a statement that depends on lower-casing assumes ASCII text
      ([Py.is_ascii]).
    - Python [int] is [Z].
    - A Python [float] is an IEEE binary64 number ([F64], the Standard
      Library's [SpecFloat]) wherever the source multiplies by a float literal
      and truncates, or compares a random draw with a literal: there the
      rounding is visible ([int(90 * 0.7)] is [62]).  The scores of the
      assessment engine and the running total of [_calculate_duration] are
      exact rationals ([Q]) where the code has floats.  A statement about
      them is one that rounding cannot break (a relation between values that
      the code itself compares, a bound that monotone rounding keeps), or it
      bounds its inputs so that every value is a binary64 number
      ([is_binary64]) and the float operations are exact, or it leaves a
      margin that covers the rounding ([near]).  An int too large for a float
      raises [OverflowError] where the engine divides ([py_div]); where it
      multiplies an int of an action by a float, the statements bound the int
      ([within_float]).
    - Dicts with a fixed set of keys are records; a key that the source reads
      with [.get(key, default)] is an [option] field.
    - Step dicts and step lists are mutable objects: they live in a heap of
      objects addressed by location, and the generator runs in a monad that
      threads the heap and the random tape and carries Python exceptions.
    - [random] draws come from an explicit tape. *)

From Stdlib Require Import QArith Qround Qabs Lqa.
From Stdlib Require Import Ascii.
From Stdlib Require Import Floats.SpecFloat DecimalString DecimalN.
From stdpp Require Import gmap strings list.

Set Default Proof Using "Type".

(** ** Python exceptions *)

Inductive exn : Type :=
  | ValueError | IndexError | KeyError | AttributeError | TypeError
  | ZeroDivisionError | OverflowError.

Inductive result (A : Type) : Type :=
  | Ok (a : A)
  | Raise (e : exn).
Arguments Ok {A} a.
Arguments Raise {A} e.

Definition result_bind {A B} (r : result A) (k : A → result B) : result B :=
  match r with Ok a => k a | Raise e => Raise e end.

Definition is_ok {A} (r : result A) : bool :=
  match r with Ok _ => true | Raise _ => false end.

(** ** Python strings *)

Module Py.

Definition is_upper (c : ascii) : bool :=
  let n := N_of_ascii c in ((65 <=? n) && (n <=? 90))%N.

(** [c.lower()] on one ASCII character. *)
Definition lower_ascii (c : ascii) : ascii :=
  if is_upper c then ascii_of_N (N_of_ascii c + 32) else c.

(** [s.lower()] *)
Fixpoint lower (s : string) : string :=
  match s with
  | EmptyString => EmptyString
  | String c s' => String (lower_ascii c) (lower s')
  end.

(** A string of ASCII characters only.  On such a string [lower] is Python's
    [str.lower]; on other characters Python also lower-cases the letters of
    other scripts, which [lower] leaves alone. *)
Fixpoint is_ascii (s : string) : bool :=
  match s with
  | EmptyString => true
  | String c s' => (N_of_ascii c <? 128)%N && is_ascii s'
  end.

(** [needle in hay] *)
Fixpoint contains (needle hay : string) : bool :=
  String.prefix needle hay ||
  match hay with
  | EmptyString => false
  | String _ hay' => contains needle hay'
  end.

(** [s.replace(old, new)] for a non-empty [old]: scan left to right; where
    [old] starts, emit [new] and skip the rest of the occurrence ([skip]
    counts the characters of it still to pass). *)
Fixpoint replace_from (old new s : string) (skip : nat) : string :=
  match s with
  | EmptyString => EmptyString
  | String c s' =>
      match skip with
      | S k => replace_from old new s' k
      | O =>
          if String.prefix old s
          then new +:+ replace_from old new s' (String.length old - 1)
          else String c (replace_from old new s' 0)
      end
  end.

Definition replace (old new s : string) : string := replace_from old new s 0.

(** [s.split(sep)] for a one-character separator: the pieces between the
    separators, in order; always at least one piece. *)
Fixpoint split (sep : ascii) (s : string) : list string :=
  match s with
  | EmptyString => [EmptyString]
  | String c s' =>
      if Ascii.eqb c sep then EmptyString :: split sep s'
      else match split sep s' with
           | p :: ps => String c p :: ps
           | [] => [String c EmptyString]
           end
  end.

(** ASCII white space, as [str.strip] and [int] skip it. *)
Definition is_space (c : ascii) : bool :=
  let n := N_of_ascii c in (((9 <=? n) && (n <=? 13)) || (n =? 32))%N.

Fixpoint lstrip (s : string) : string :=
  match s with
  | EmptyString => EmptyString
  | String c s' => if is_space c then lstrip s' else s
  end.

Fixpoint rstrip (s : string) : string :=
  match s with
  | EmptyString => EmptyString
  | String c s' =>
      match rstrip s' with
      | EmptyString => if is_space c then EmptyString else String c EmptyString
      | r => String c r
      end
  end.

Definition strip (s : string) : string := lstrip (rstrip s).

(** A non-empty string of decimal digits, read as a number. *)
Definition digits_value (s : string) : option N :=
  N.of_uint <$> NilZero.uint_of_string s.

(** [int(s)]: optional surrounding white space, an optional sign, decimal
    digits.  (Python also accepts [_] between digits and non-ASCII digits,
    and refuses more than 4300 digits; the statements are about strings of
    ASCII digits within that limit.) *)
Definition int_of_str (s : string) : result Z :=
  let body :=
    match strip s with
    | String "-"%char r => Z.opp <$> (Z.of_N <$> digits_value r)
    | String "+"%char r => Z.of_N <$> digits_value r
    | t => Z.of_N <$> digits_value t
    end in
  match body with
  | Some z => Ok z
  | None => Raise ValueError
  end.

(** [str(n)] for a natural number, and [str(z)] for an integer. *)
Definition str_of_N (n : N) : string := NilZero.string_of_uint (N.to_uint n).

Definition str_of_int (z : Z) : string :=
  match z with
  | Zneg p => String "-"%char (str_of_N (Npos p))
  | _ => str_of_N (Z.to_N z)
  end.

(** [l[i]] with Python's negative indices: [-1] is the last element. *)
Definition index {A} (l : list A) (i : Z) : result A :=
  let n := Z.of_nat (length l) in
  let j := if (i <? 0)%Z then (n + i)%Z else i in
  if ((0 <=? j) && (j <? n))%Z
  then match l !! Z.to_nat j with
       | Some x => Ok x
       | None => Raise IndexError
       end
  else Raise IndexError.

(** [random.choice(l)] on draw [r]: Python raises [IndexError] on an empty
    sequence and otherwise returns one element of it. *)
Definition choice {A} (l : list A) (r : N) : result A :=
  match l with
  | [] => Raise IndexError
  | _ => match l !! (N.to_nat r `mod` length l) with
         | Some x => Ok x
         | None => Raise IndexError
         end
  end.

End Py.

(** ** IEEE binary64, the format of Python's [float] *)

Module F64.

Definition prec : Z := 53.
Definition emax : Z := 1024.

Definition float := spec_float.

(** [float(n)] for an integer: rounded to nearest, ties to even. *)
Definition of_int (n : Z) : float := binary_normalize prec emax n 0 false.

Definition mul : float → float → float := SFmul prec emax.
Definition div : float → float → float := SFdiv prec emax.
Definition ltb : float → float → bool := SFltb.

(** [m * 2^e] rounded to binary64. *)
Definition ldexp (m e : Z) : float := binary_normalize prec emax m e false.

(** A decimal literal [n/d] denotes the binary64 number nearest to the
    fraction, which is what correctly rounded division returns. *)
Definition lit (n d : Z) : float := div (of_int n) (of_int d).

(** [n * x] for a Python int [n] and a float [x]: the int is converted
    first, and a value too large for a float raises [OverflowError]. *)
Definition int_mul (n : Z) (x : float) : result float :=
  match of_int n with
  | S754_infinity _ => Raise OverflowError
  | f => Ok (mul f x)
  end.

(** [int(x)]: truncation toward zero. *)
Definition to_int (x : float) : result Z :=
  match x with
  | S754_zero _ => Ok 0%Z
  | S754_finite s m e => Ok (cond_Zopp s (Z.shiftl (Z.pos m) e))
  | S754_infinity _ => Raise OverflowError
  | S754_nan => Raise ValueError
  end.

End F64.

(** ** Data model *)

(** One decision point of an intermediate step. *)
Record DecisionPoint := {
  dp_scenario : string;
  dp_options : list string;
  dp_correct_choice : string;
}.

(** A pre-planned complication, as [_generate_complications] builds it. *)
Record Complication := {
  c_type : string;
  c_severity : string;
  c_location : string;
  c_trigger_step : Z;
  c_management_options : list string;
}.

(** A step dict.  The keys of the catalog entry are always there; the keys
    that customization adds are optional, and so is ["duration"], which the
    assessment engine reads with a default. *)
Record Step := {
  step_number : Z;
  title : string;
  description : string;
  duration : option string;
  critical_points : list string;
  instruments : list string;
  guidance_level : option string;
  hints : option (list string);
  decision_points : option (list DecisionPoint);
  variations : option (list string);
  time_pressure : option bool;
  learning_focus : option (list string);
  assessment_weight : option Q;
  complication : option Complication;
}.

(** A step as the catalog literal writes it. *)
Definition catalog_step (n : Z) (t d dur : string) (cps ins : list string) : Step :=
  {| step_number := n; title := t; description := d; duration := Some dur;
     critical_points := cps; instruments := ins;
     guidance_level := None; hints := None; decision_points := None;
     variations := None; time_pressure := None; learning_focus := None;
     assessment_weight := None; complication := None |}.

(** Item assignment [step[key] = v], one function per key that the source
    assigns. *)
Definition set_duration (v : string) (s : Step) : Step :=
  {| step_number := step_number s; title := title s;
     description := description s; duration := Some v;
     critical_points := critical_points s; instruments := instruments s;
     guidance_level := guidance_level s; hints := hints s;
     decision_points := decision_points s; variations := variations s;
     time_pressure := time_pressure s; learning_focus := learning_focus s;
     assessment_weight := assessment_weight s;
     complication := complication s |}.

Definition set_guidance_level (v : string) (s : Step) : Step :=
  {| step_number := step_number s; title := title s;
     description := description s; duration := duration s;
     critical_points := critical_points s; instruments := instruments s;
     guidance_level := Some v; hints := hints s;
     decision_points := decision_points s; variations := variations s;
     time_pressure := time_pressure s; learning_focus := learning_focus s;
     assessment_weight := assessment_weight s;
     complication := complication s |}.

Definition set_hints (v : list string) (s : Step) : Step :=
  {| step_number := step_number s; title := title s;
     description := description s; duration := duration s;
     critical_points := critical_points s; instruments := instruments s;
     guidance_level := guidance_level s; hints := Some v;
     decision_points := decision_points s; variations := variations s;
     time_pressure := time_pressure s; learning_focus := learning_focus s;
     assessment_weight := assessment_weight s;
     complication := complication s |}.

Definition set_decision_points (v : list DecisionPoint) (s : Step) : Step :=
  {| step_number := step_number s; title := title s;
     description := description s; duration := duration s;
     critical_points := critical_points s; instruments := instruments s;
     guidance_level := guidance_level s; hints := hints s;
     decision_points := Some v; variations := variations s;
     time_pressure := time_pressure s; learning_focus := learning_focus s;
     assessment_weight := assessment_weight s;
     complication := complication s |}.

Definition set_variations (v : list string) (s : Step) : Step :=
  {| step_number := step_number s; title := title s;
     description := description s; duration := duration s;
     critical_points := critical_points s; instruments := instruments s;
     guidance_level := guidance_level s; hints := hints s;
     decision_points := decision_points s; variations := Some v;
     time_pressure := time_pressure s; learning_focus := learning_focus s;
     assessment_weight := assessment_weight s;
     complication := complication s |}.

Definition set_time_pressure (v : bool) (s : Step) : Step :=
  {| step_number := step_number s; title := title s;
     description := description s; duration := duration s;
     critical_points := critical_points s; instruments := instruments s;
     guidance_level := guidance_level s; hints := hints s;
     decision_points := decision_points s; variations := variations s;
     time_pressure := Some v; learning_focus := learning_focus s;
     assessment_weight := assessment_weight s;
     complication := complication s |}.

Definition set_learning_focus (v : list string) (s : Step) : Step :=
  {| step_number := step_number s; title := title s;
     description := description s; duration := duration s;
     critical_points := critical_points s; instruments := instruments s;
     guidance_level := guidance_level s; hints := hints s;
     decision_points := decision_points s; variations := variations s;
     time_pressure := time_pressure s; learning_focus := Some v;
     assessment_weight := assessment_weight s;
     complication := complication s |}.

Definition set_assessment_weight (v : Q) (s : Step) : Step :=
  {| step_number := step_number s; title := title s;
     description := description s; duration := duration s;
     critical_points := critical_points s; instruments := instruments s;
     guidance_level := guidance_level s; hints := hints s;
     decision_points := decision_points s; variations := variations s;
     time_pressure := time_pressure s; learning_focus := learning_focus s;
     assessment_weight := Some v;
     complication := complication s |}.

Definition set_complication (v : Complication) (s : Step) : Step :=
  {| step_number := step_number s; title := title s;
     description := description s; duration := duration s;
     critical_points := critical_points s; instruments := instruments s;
     guidance_level := guidance_level s; hints := hints s;
     decision_points := decision_points s; variations := variations s;
     time_pressure := time_pressure s; learning_focus := learning_focus s;
     assessment_weight := assessment_weight s;
     complication := Some v |}.

(** ["procedure_info"] of a scenario. *)
Record ProcedureInfo := {
  name : string;
  category : string;
  estimated_duration : Z;
}.

(** A scenario.  [S] is how the step list is held: a heap location while the
    generator works on it, a list of step values once it is a stored
    document.  (["created_at"], a wall-clock stamp, is left out.) *)
Record Scenario (S : Type) := {
  procedure_info : ProcedureInfo;
  steps : S;
  complications : list Complication;
  learning_objectives : list string;
  difficulty_level : string;
}.
Arguments procedure_info {S} _.
Arguments steps {S} _.
Arguments complications {S} _.
Arguments learning_objectives {S} _.
Arguments difficulty_level {S} _.

(** A catalog entry of [_load_procedure_templates]. *)
Record Template (S : Type) := {
  t_name : string;
  t_category : string;
  t_base_duration : Z;
  t_steps : S;
}.
Arguments t_name {S} _.
Arguments t_category {S} _.
Arguments t_base_duration {S} _.
Arguments t_steps {S} _.

(** An entry of the complication library.  The three entries of the source
    do not have the same keys, so every key is optional. *)
Record LibraryEntry := {
  le_severity : option (list string);
  le_locations : option (list string);
  le_type : option (list string);
  le_management : option (list string);
}.

(** An ad-hoc complication scenario of [generate_dynamic_complication]. *)
Record AdHocScenario := {
  ah_description : string;
  ah_severity : string;
  ah_immediate_actions : list string;
  ah_time_limit : Z;
}.

(** The feedback bundle and the assessment of one step
    (["timestamp"] is left out). *)
Record Feedback := {
  overall_level : string;
  summary : string;
  technical_feedback : string;
  non_technical_feedback : string;
  recommendations : list string;
}.

Record StepAssessment := {
  sa_step_number : Z;
  technical_score : Q;
  non_technical_score : Q;
  overall_score : Q;
  feedback : option Feedback;
  time_taken : Z;
  areas_for_improvement : list string;
}.

(** The simulation state the storage layer hands to the core. *)
Record SimulationData (S : Type) := {
  simulation : Scenario S;
  step_assessments : list StepAssessment;
  simulation_id : option string;
}.
Arguments simulation {S} _.
Arguments step_assessments {S} _.
Arguments simulation_id {S} _.

(** ** The object heap and the generator monad *)

(** Locations are indices into the heap. *)
Abbreviation loc := nat (only parsing).

(** What a location holds: a step dict or a list of steps. *)
Inductive obj : Type :=
  | OStep (s : Step)
  | OList (l : list loc).

(** The state a call runs in: the heap, and the tape of random draws with the
    position of the next one. *)
Record world := {
  heap : list obj;
  tape : nat → N;
  cursor : nat;
}.

Definition with_heap (h : list obj) (w : world) : world :=
  {| heap := h; tape := tape w; cursor := cursor w |}.

(** A computation returns or raises, and leaves a world behind either way:
    an exception does not undo the assignments made before it. *)
Definition M (A : Type) : Type := world → result A * world.

Definition ret {A} (a : A) : M A := λ w, (Ok a, w).

Definition bind {A B} (m : M A) (k : A → M B) : M B :=
  λ w, match m w with
       | (Ok a, w') => k a w'
       | (Raise e, w') => (Raise e, w')
       end.

Definition lift {A} (r : result A) : M A := λ w, (r, w).

Notation "'let*' x ':=' m 'in' k" := (bind m (λ x, k))
  (at level 10, x pattern, m at level 100, k at level 200).
Notation "'let?' x ':=' r 'in' k" := (result_bind r (λ x, k))
  (at level 10, x pattern, r at level 100, k at level 200).

(** A new object. *)
Definition alloc (o : obj) : M loc :=
  λ w, (Ok (length (heap w)), with_heap (heap w ++ [o]) w).

Definition read_step (l : loc) : M Step :=
  λ w, match heap w !! l with
       | Some (OStep s) => (Ok s, w)
       | _ => (Raise TypeError, w)
       end.

Definition read_list (l : loc) : M (list loc) :=
  λ w, match heap w !! l with
       | Some (OList ls) => (Ok ls, w)
       | _ => (Raise TypeError, w)
       end.

(** [step[key] = v] on the dict at [l]. *)
Definition assign (l : loc) (f : Step → Step) : M unit :=
  λ w, match heap w !! l with
       | Some (OStep s) => (Ok tt, with_heap (<[l := OStep (f s)]> (heap w)) w)
       | _ => (Raise TypeError, w)
       end.

(** The next draw of the tape. *)
Definition draw : M N :=
  λ w, (Ok (tape w (cursor w)),
        {| heap := heap w; tape := tape w; cursor := S (cursor w) |}).

(** [random.random()]: a multiple of [2^-53] in [[0, 1)]. *)
Definition random_random : M F64.float :=
  let* r := draw in ret (F64.ldexp (Z.of_N (r mod 2 ^ 53)) (-53)).

(** [random.choice(l)] *)
Definition random_choice {A} (l : list A) : M A :=
  match l with
  | [] => lift (Raise IndexError)
  | _ => let* r := draw in lift (Py.choice l r)
  end.

(** [random.randint(a, b)] for [a <= b]. *)
Definition random_randint (a b : Z) : M Z :=
  let* r := draw in ret (a + Z.of_N r `mod` (b - a + 1))%Z.

(** [for x in l: body(x)] *)
Fixpoint for_each {A} (l : list A) (body : A → M unit) : M unit :=
  match l with
  | [] => ret tt
  | x :: l' => let* _ := body x in for_each l' body
  end.

(** [[f(x) for x in l]] *)
Fixpoint map_m {A B} (f : A → M B) (l : list A) : M (list B) :=
  match l with
  | [] => ret []
  | x :: l' => let* y := f x in let* ys := map_m f l' in ret (y :: ys)
  end.

Fixpoint map_r {A B} (f : A → result B) (l : list A) : result (list B) :=
  match l with
  | [] => Ok []
  | x :: l' => let? y := f x in let? ys := map_r f l' in Ok (y :: ys)
  end.

(** [json.loads(json.dumps(base_steps))]: a new list object holding new step
    dicts with the same contents. *)
Definition deep_copy (base_steps : loc) : M loc :=
  let* ls := read_list base_steps in
  let* copies := map_m (λ l, let* s := read_step l in alloc (OStep s)) ls in
  alloc (OList copies).

(** ** The procedure catalog *)

Module Catalog.

Definition cholecystectomy_steps : list Step := [
  catalog_step 1 "Patient Preparation"
    "Position patient supine, prep and drape surgical site" "10-15 minutes"
    ["Proper patient positioning"; "Sterile field maintenance";
     "Antibiotic prophylaxis"]
    ["surgical drapes"; "prep solution"; "positioning aids"];
  catalog_step 2 "Trocar Placement"
    "Create pneumoperitoneum and insert trocars" "10-15 minutes"
    ["Safe entry technique"; "Proper CO2 insufflation"; "Trocar positioning"]
    ["veress needle"; "trocars"; "CO2 insufflator"];
  catalog_step 3 "Diagnostic Laparoscopy"
    "Inspect abdominal cavity and identify anatomy" "5-10 minutes"
    ["Systematic inspection"; "Adhesion identification";
     "Anatomical orientation"]
    ["laparoscope"; "graspers"];
  catalog_step 4 "Critical View of Safety"
    "Achieve critical view of safety before dissection" "15-20 minutes"
    ["Clear identification of Calot's triangle";
     "Only 2 structures entering gallbladder"; "Clear view of liver bed"]
    ["graspers"; "dissector"; "clip applier"];
  catalog_step 5 "Gallbladder Dissection"
    "Dissect gallbladder from liver bed" "15-25 minutes"
    ["Maintain proper plane"; "Hemostasis control"; "Avoid perforation"]
    ["electrocautery"; "graspers"; "irrigation"];
  catalog_step 6 "Specimen Removal"
    "Remove gallbladder and close incisions" "10-15 minutes"
    ["Secure specimen in bag"; "Inspect for bleeding"; "Remove CO2"]
    ["specimen bag"; "sutures"; "local anesthetic"] ].

Definition appendectomy_steps : list Step := [
  catalog_step 1 "Patient Preparation"
    "Position patient and establish pneumoperitoneum" "10-15 minutes"
    ["Left lateral tilt positioning"; "Safe trocar insertion";
     "Adequate visualization"]
    ["trocars"; "CO2 insufflator"; "laparoscope"];
  catalog_step 2 "Appendix Identification"
    "Locate and mobilize the appendix" "5-10 minutes"
    ["Identify cecum and ileocecal valve"; "Locate appendix base";
     "Assess inflammation extent"]
    ["graspers"; "atraumatic forceps"];
  catalog_step 3 "Mesoappendix Division"
    "Divide mesoappendix and appendiceal artery" "10-15 minutes"
    ["Identify appendiceal artery"; "Sequential clip application";
     "Avoid thermal injury"]
    ["clip applier"; "electrocautery"; "scissors"];
  catalog_step 4 "Appendix Transection"
    "Transect appendix and remove specimen" "5-10 minutes"
    ["Secure base with clips"; "Transect between clips";
     "Remove specimen safely"]
    ["clip applier"; "scissors"; "specimen bag"];
  catalog_step 5 "Closure"
    "Close incisions and apply dressings" "5-10 minutes"
    ["Inspect for bleeding"; "Close fascial defects";
     "Apply sterile dressings"]
    ["sutures"; "dressings"; "local anesthetic"] ].

Definition knee_arthroscopy_steps : list Step := [
  catalog_step 1 "Patient Positioning"
    "Position patient supine with knee flexed at 90 degrees" "10-15 minutes"
    ["Proper knee positioning"; "Tourniquet application";
     "Sterile field preparation"]
    ["positioning aids"; "tourniquet"; "surgical drapes"];
  catalog_step 2 "Portal Placement"
    "Create anterolateral and anteromedial portals" "10-15 minutes"
    ["Proper portal positioning"; "Avoid neurovascular structures";
     "Adequate portal spacing"]
    ["scalpel"; "arthroscope"; "cannulas"];
  catalog_step 3 "Diagnostic Arthroscopy"
    "Systematic examination of knee compartments" "15-20 minutes"
    ["Systematic compartment examination"; "Documentation of findings";
     "Assessment of pathology"]
    ["arthroscope"; "probe"; "camera system"];
  catalog_step 4 "Meniscal Assessment"
    "Evaluate meniscal integrity and pathology" "20-30 minutes"
    ["Meniscal tear identification"; "Stability assessment";
     "Treatment planning"]
    ["probe"; "graspers"; "meniscal instruments"];
  catalog_step 5 "Cartilage Evaluation"
    "Assess articular cartilage surfaces" "15-25 minutes"
    ["Cartilage defect mapping"; "ICRS classification"; "Treatment options"]
    ["probe"; "measuring devices"; "documentation tools"];
  catalog_step 6 "Closure and Post-op"
    "Close portals and apply dressings" "10-15 minutes"
    ["Portal closure"; "Dressing application";
     "Post-operative instructions"]
    ["sutures"; "dressings"; "compression bandage"] ].

End Catalog.

(** A list literal of step dicts: every dict and the list are new objects. *)
Definition new_step_list (ss : list Step) : M loc :=
  let* ls := map_m (λ s, alloc (OStep s)) ss in
  alloc (OList ls).

Definition _load_procedure_templates : M (gmap string (Template loc)) :=
  let* c := new_step_list Catalog.cholecystectomy_steps in
  let* a := new_step_list Catalog.appendectomy_steps in
  let* k := new_step_list Catalog.knee_arthroscopy_steps in
  ret (<["laparoscopic_cholecystectomy" :=
           {| t_name := "Laparoscopic Cholecystectomy";
              t_category := "General Surgery";
              t_base_duration := 60; t_steps := c |}]>
       (<["appendectomy" :=
           {| t_name := "Laparoscopic Appendectomy";
              t_category := "General Surgery";
              t_base_duration := 45; t_steps := a |}]>
       (<["knee_arthroscopy" :=
           {| t_name := "Knee Arthroscopy";
              t_category := "Orthopedic";
              t_base_duration := 90; t_steps := k |}]> ∅))).

Definition _load_complications : gmap string LibraryEntry :=
  <["bleeding" :=
      {| le_severity := Some ["mild"; "moderate"; "severe"];
         le_locations := Some ["trocar site"; "liver bed"; "mesenteric vessel"];
         le_type := None;
         le_management :=
           Some ["pressure"; "electrocautery"; "clip application";
                 "conversion"] |}]>
  (<["bowel_injury" :=
      {| le_severity := Some ["serosal"; "full_thickness"];
         le_locations := Some ["small bowel"; "colon"];
         le_type := None;
         le_management := Some ["primary repair"; "resection"; "conversion"] |}]>
  (<["equipment_failure" :=
      {| le_severity := None;
         le_locations := None;
         le_type := Some ["CO2 insufflator"; "electrocautery"; "camera"];
         le_management :=
           Some ["backup equipment"; "troubleshooting"; "conversion"] |}]> ∅)).

(** A [SimulationGenerator] object: the two tables [__init__] loads. *)
Record SimulationGenerator := {
  procedure_templates : gmap string (Template loc);
  complication_library : gmap string LibraryEntry;
}.

Definition new_SimulationGenerator : M SimulationGenerator :=
  let* ts := _load_procedure_templates in
  ret {| procedure_templates := ts;
         complication_library := _load_complications |}.

(** ** The scenario generator *)

(** [d[key]] on an optional key: [KeyError] when it is absent. *)
Definition subscript {A} (o : option A) : result A :=
  match o with
  | Some a => Ok a
  | None => Raise KeyError
  end.

(** [int(q)] for an exact rational: truncation toward zero. *)
Definition Q_to_int (q : Q) : Z := Z.quot (Qnum q) (Z.pos (Qden q)).

Definition sum_Z (l : list Z) : Z := foldr Z.add 0%Z l.

Section generator.

(** The patient profile and the assessment are passed through unread. *)
Context {Patient Assessment : Type}.

(** [_customize_steps_for_difficulty] calls [self._add_technique_variations],
    a method the class does not define.  The model takes the class's method
    table entry as it finds it: [None] is the class as written (the call
    raises [AttributeError]); [Some f] is the class with such a method. *)
Variable _add_technique_variations : option (Step → list string).

Definition _generate_beginner_hints (step : Step) : list string :=
  [ "Take your time with " +:+ Py.lower (title step);
    "Ensure proper visualization before proceeding";
    "Communicate with your team throughout the step" ].

Definition _add_decision_points (step : Step) : list DecisionPoint :=
  [ {| dp_scenario := "Unusual anatomy encountered";
       dp_options :=
         ["Continue with caution"; "Seek senior help"; "Convert to open"];
       dp_correct_choice := "Seek senior help" |} ].

(** The two bounds of a duration string, as both duration helpers and the
    assessment engine read them: [parts[0]] and [parts[1]] of
    [duration_str.replace(" minutes", "").split("-")]. *)
Definition duration_parts (duration_str : string) : list string :=
  Py.split "-"%char (Py.replace " minutes" "" duration_str).

Definition _extend_duration (duration_str : string) (factor : F64.float)
  : result string :=
  let parts := duration_parts duration_str in
  let? p0 := Py.index parts 0 in
  let? n0 := Py.int_of_str p0 in
  let? min_time := F64.int_mul n0 factor in
  let? p1 := Py.index parts 1 in
  let? n1 := Py.int_of_str p1 in
  let? max_time := F64.int_mul n1 factor in
  let? a := F64.to_int min_time in
  let? b := F64.to_int max_time in
  Ok (Py.str_of_int a +:+ "-" +:+ Py.str_of_int b +:+ " minutes").

(** The source repeats the body of [_extend_duration]. *)
Definition _reduce_duration (duration_str : string) (factor : F64.float)
  : result string :=
  let parts := duration_parts duration_str in
  let? p0 := Py.index parts 0 in
  let? n0 := Py.int_of_str p0 in
  let? min_time := F64.int_mul n0 factor in
  let? p1 := Py.index parts 1 in
  let? n1 := Py.int_of_str p1 in
  let? max_time := F64.int_mul n1 factor in
  let? a := F64.to_int min_time in
  let? b := F64.to_int max_time in
  Ok (Py.str_of_int a +:+ "-" +:+ Py.str_of_int b +:+ " minutes").

(** The body of the loop of [_customize_steps_for_difficulty], on the step
    dict at [l]. *)
Definition customize_step (difficulty : string) (l : loc) : M unit :=
  if (difficulty =? "beginner")%string then
    let* _ := assign l (set_guidance_level "detailed") in
    let* step := read_step l in
    let* _ := assign l (set_hints (_generate_beginner_hints step)) in
    let* step := read_step l in
    let* d := lift (subscript (duration step)) in
    let* d' := lift (_extend_duration d (F64.lit 3 2)) in
    assign l (set_duration d')
  else if (difficulty =? "intermediate")%string then
    let* _ := assign l (set_guidance_level "moderate") in
    let* step := read_step l in
    assign l (set_decision_points (_add_decision_points step))
  else if (difficulty =? "advanced")%string then
    let* _ := assign l (set_guidance_level "minimal") in
    let* step := read_step l in
    let* v := lift (match _add_technique_variations with
                    | Some f => Ok (f step)
                    | None => Raise AttributeError
                    end) in
    let* _ := assign l (set_variations v) in
    let* step := read_step l in
    let* d := lift (subscript (duration step)) in
    let* d' := lift (_reduce_duration d (F64.lit 4 5)) in
    assign l (set_duration d')
  else if (difficulty =? "expert")%string then
    let* _ := assign l (set_guidance_level "none") in
    let* _ := assign l (set_time_pressure true) in
    let* step := read_step l in
    let* d := lift (subscript (duration step)) in
    let* d' := lift (_reduce_duration d (F64.lit 7 10)) in
    assign l (set_duration d')
  else ret tt.

Definition _customize_steps_for_difficulty (base_steps : loc)
    (difficulty : string) : M loc :=
  let* steps := deep_copy base_steps in
  let* ls := read_list steps in
  let* _ := for_each ls (customize_step difficulty) in
  ret steps.

(** [step["learning_focus"].append(objective)] *)
Definition append_learning_focus (objective : string) (s : Step)
  : result Step :=
  let? focus := subscript (learning_focus s) in
  Ok (set_learning_focus (focus ++ [objective]) s).

Definition enhance_step (objectives : list string) (l : loc) : M unit :=
  let* _ := assign l (set_learning_focus []) in
  for_each objectives (λ objective,
    let* step := read_step l in
    if Py.contains (Py.lower objective) (Py.lower (title step)) ||
       Py.contains (Py.lower objective) (Py.lower (description step))
    then
      let* step' := lift (append_learning_focus objective step) in
      let* _ := assign l (λ _, step') in
      assign l (set_assessment_weight 2)
    else ret tt).

Definition _enhance_steps_for_objectives (steps : loc)
    (objectives : list string) : M loc :=
  let* ls := read_list steps in
  let* _ := for_each ls (enhance_step objectives) in
  ret steps.

(** [prob_map.get(difficulty, 0.5)] *)
Definition prob_map (difficulty : string) : F64.float :=
  if (difficulty =? "beginner")%string then F64.lit 3 10
  else if (difficulty =? "intermediate")%string then F64.lit 5 10
  else if (difficulty =? "advanced")%string then F64.lit 7 10
  else if (difficulty =? "expert")%string then F64.lit 8 10
  else F64.lit 5 10.

(** The complication types allowed for a procedure. *)
Definition possible_complications (procedure_type : string) : list string :=
  if (procedure_type =? "laparoscopic_cholecystectomy")%string
  then ["bleeding"; "bowel_injury"; "equipment_failure"]
  else ["bleeding"; "equipment_failure"].

Definition _generate_complications (self : SimulationGenerator)
    (procedure_type difficulty : string) : M (list Complication) :=
  let* r := random_random in
  if F64.ltb r (prob_map difficulty) then
    let* selected_complication :=
      random_choice (possible_complications procedure_type) in
    let* complication_data :=
      lift (subscript (complication_library self !! selected_complication)) in
    let* severities := lift (subscript (le_severity complication_data)) in
    let* severity := random_choice severities in
    let* locations := lift (subscript (le_locations complication_data)) in
    let* location := random_choice locations in
    let* trigger_step := random_randint 2 5 in
    let* management := lift (subscript (le_management complication_data)) in
    ret [ {| c_type := selected_complication;
             c_severity := severity;
             c_location := location;
             c_trigger_step := trigger_step;
             c_management_options := management |} ]
  else ret [].

(** One turn of the loop of [_calculate_duration]: [total + avg].  The total
    is exact here and a float in the code; the two agree as long as the
    bounds add up to less than 2^53, when every midpoint and every total is a
    binary64 number. *)
Definition add_step_average (total : Q) (l : loc) : M Q :=
  let* step := read_step l in
  let* duration_str := lift (subscript (duration step)) in
  let* bounds := lift (map_r Py.int_of_str (duration_parts duration_str)) in
  ret (total + inject_Z (sum_Z bounds) / 2)%Q.

Fixpoint fold_m {A B} (f : B → A → M B) (b : B) (l : list A) : M B :=
  match l with
  | [] => ret b
  | x :: l' => let* b' := f b x in fold_m f b' l'
  end.

Definition _calculate_duration (steps : loc) (difficulty : string) : M Z :=
  let* ls := read_list steps in
  let* total := fold_m add_step_average 0%Q ls in
  ret (Q_to_int total).

Definition generate_scenario (self : SimulationGenerator)
    (procedure_type difficulty_level : string) (patient_profile : Patient)
    (learning_objectives : list string) (complications_enabled : bool)
  : M (Scenario loc) :=
  match procedure_templates self !! procedure_type with
  | None => lift (Raise ValueError)
  | Some template =>
      let* steps :=
        _customize_steps_for_difficulty (t_steps template) difficulty_level in
      let* steps := _enhance_steps_for_objectives steps learning_objectives in
      let* complications :=
        if complications_enabled
        then _generate_complications self procedure_type difficulty_level
        else ret [] in
      let* total := _calculate_duration steps difficulty_level in
      ret {| procedure_info :=
               {| name := t_name template;
                  category := t_category template;
                  estimated_duration := total |};
             steps := steps;
             complications := complications;
             learning_objectives := learning_objectives;
             difficulty_level := difficulty_level |}
  end.

(** What [get_next_step] returns: the completion marker, or the step dict
    (the object itself, not a copy). *)
Inductive NextStep : Type :=
  | Completed (message : string)
  | NextStepAt (l : loc).

(** The body of the loop of [get_next_step]: a complication triggered at
    the next step is attached to the step dict at [next_step]. *)
Definition attach (next_step : loc) (current_step : Z) (comp : Complication)
  : M unit :=
  if (c_trigger_step comp =? current_step + 1)%Z
  then assign next_step (set_complication comp)
  else ret tt.

Definition get_next_step (simulation_data : SimulationData loc)
    (current_step : Z) (assessment : Assessment) : M NextStep :=
  let* steps := read_list (steps (simulation simulation_data)) in
  if (Z.of_nat (length steps) <=? current_step)%Z
  then ret (Completed "Simulation completed successfully")
  else
    let* next_step := lift (Py.index steps current_step) in
    let complications := complications (simulation simulation_data) in
    let* _ := for_each complications (attach next_step current_step) in
    ret (NextStepAt next_step).

(** The table [complication_scenarios] of [generate_dynamic_complication]. *)
Definition complication_scenarios : gmap string AdHocScenario :=
  <["unexpected_bleeding" :=
      {| ah_description := "Unexpected bleeding from hepatic artery branch";
         ah_severity := "moderate";
         ah_immediate_actions :=
           ["Apply direct pressure"; "Identify bleeding source";
            "Consider clip application"];
         ah_time_limit := 300 |}]>
  (<["adhesions" :=
      {| ah_description := "Dense adhesions obscuring critical view";
         ah_severity := "mild";
         ah_immediate_actions :=
           ["Careful adhesiolysis"; "Maintain visualization";
            "Consider alternative approach"];
         ah_time_limit := 600 |}]> ∅).

(** The result is a dict: [Some] of a scenario of the table, or [None] for
    the empty dict [{}] that [.get(selected, {})] falls back to. *)
Definition generate_dynamic_complication
    (simulation_data : SimulationData loc) (current_step : Z)
  : M (option AdHocScenario) :=
  let procedure_type := name (procedure_info (simulation simulation_data)) in
  let complications :=
    ["unexpected_bleeding"; "adhesions"; "equipment_malfunction"] in
  let* selected := random_choice complications in
  ret (complication_scenarios !! selected).

End generator.

(** The class as the repository has it: no [_add_technique_variations]. *)
Definition as_written : option (Step → list string) := None.

(** ** Stored documents *)

(** The step values a list object holds ([json.dumps] of the step list). *)
Definition dump_steps (h : list obj) (l : loc) : option (list Step) :=
  match h !! l with
  | Some (OList ls) =>
      mapM (λ l', match h !! l' with
                  | Some (OStep s) => Some s
                  | _ => None
                  end) ls
  | _ => None
  end.

(** The scenario as a document. *)
Definition dump_scenario (h : list obj) (sc : Scenario loc)
  : option (Scenario (list Step)) :=
  ss ← dump_steps h (steps sc);
  Some {| procedure_info := procedure_info sc;
          steps := ss;
          complications := complications sc;
          learning_objectives := learning_objectives sc;
          difficulty_level := difficulty_level sc |}.

(** A world to start from: an empty heap and the given draws, then zeros. *)
Definition start (draws : list N) : world :=
  {| heap := []; tape := λ i, default 0%N (draws !! i); cursor := 0 |}.

(** ** The assessment engine *)

Section engine.

Local Open Scope Q_scope.

(** One trainee action.  Every key is read with [.get], so every key is
    optional. *)
Record Action := {
  a_type : option string;
  skill_category : option string;
  accuracy : option Q;
  clarity : option Q;
  timing : option Q;
  professionalism : option Q;
  outcome : option string;
  hesitation_time : option Q;
  expected_time : option Q;
}.

Record Criterion := {
  max_score : Z;
  weight : Q;
}.

(** The criteria of one procedure; the skills are kept in the order of the
    dict literal, which is the order the scoring loop visits them in. *)
Record Criteria := {
  technical_skills : list (string * Criterion);
  non_technical_skills : list (string * Criterion);
}.

(** [x < y] and [x > y] on numbers. *)
Definition Qltb (x y : Q) : bool := negb (Qle_bool y x).
Definition Qgtb (x y : Q) : bool := Qltb y x.

(** Python's [min(a, b)] and [max(a, b)]: the first argument unless the second
    is strictly smaller (larger). *)
Definition py_min (a b : Q) : Q := if Qltb b a then b else a.
Definition py_max (a b : Q) : Q := if Qgtb b a then b else a.

Definition sum_Q (l : list Q) : Q := foldl Qplus 0%Q l.

(** [a.get('type') == v] *)
Definition has_type (v : string) (a : Action) : bool :=
  match a_type a with
  | Some t => (t =? v)%string
  | None => false
  end.

Definition _load_scoring_criteria : gmap string Criteria :=
  <["laparoscopic_cholecystectomy" :=
      {| technical_skills :=
           [ ("trocar_placement", {| max_score := 20; weight := 0.15 |});
             ("camera_navigation", {| max_score := 15; weight := 0.10 |});
             ("tissue_handling", {| max_score := 25; weight := 0.20 |});
             ("critical_view_achievement",
               {| max_score := 30; weight := 0.25 |});
             ("dissection_technique", {| max_score := 25; weight := 0.20 |});
             ("hemostasis", {| max_score := 15; weight := 0.10 |}) ];
         non_technical_skills :=
           [ ("communication", {| max_score := 20; weight := 0.30 |});
             ("decision_making", {| max_score := 25; weight := 0.35 |});
             ("time_management", {| max_score := 20; weight := 0.20 |});
             ("team_leadership", {| max_score := 15; weight := 0.15 |}) ] |}]>
  (<["appendectomy" :=
      {| technical_skills :=
           [ ("appendix_identification",
               {| max_score := 25; weight := 0.25 |});
             ("mesoappendix_division", {| max_score := 30; weight := 0.30 |});
             ("base_division", {| max_score := 25; weight := 0.25 |});
             ("specimen_removal", {| max_score := 20; weight := 0.20 |}) ];
         non_technical_skills :=
           [ ("communication", {| max_score := 20; weight := 0.30 |});
             ("decision_making", {| max_score := 25; weight := 0.35 |});
             ("situational_awareness",
               {| max_score := 20; weight := 0.35 |}) ] |}]> ∅).

(** [self.feedback_templates[level]] for the four levels the engine uses. *)
Definition feedback_templates (level : string) : list string :=
  if (level =? "excellent")%string then
    [ "Outstanding technique demonstrated";
      "Perfect execution of critical steps";
      "Excellent decision-making under pressure" ]
  else if (level =? "good")%string then
    [ "Good technique with minor areas for improvement";
      "Solid understanding of procedure demonstrated";
      "Appropriate response to complications" ]
  else if (level =? "needs_improvement")%string then
    [ "Technique needs refinement in key areas";
      "Consider additional practice on critical steps";
      "Review anatomical landmarks and approach" ]
  else
    [ "Significant technical errors identified";
      "Safety concerns with current approach";
      "Requires substantial additional training" ].

(** One turn of the loop of [_score_technical_skill].  [expected_time] is a
    float or an int within the range of a float ([within_float]); the product
    [expected_time * 1.5] is exact here. *)
Definition score_action (skill : string) (time_taken : Z) (score : Q)
    (action : Action) : Q :=
  if Py.contains skill (Py.lower (default "" (skill_category action))) then
    let score :=
      if Qgtb (default 0 (accuracy action)) 0.8 then score + 20
      else if Qgtb (default 0 (accuracy action)) 0.6 then score + 15
      else score + 5 in
    let expected_time := default 300 (expected_time action) in
    if Qgtb (inject_Z time_taken) (expected_time * 1.5)
    then score * 0.8
    else score
  else score.

Definition _score_technical_skill (skill : string) (actions : list Action)
    (time_taken : Z) : Q :=
  py_min (foldl (score_action skill time_taken) 0 actions) 100.

(** One turn of the loop of [_assess_communication]. *)
Definition score_communication (score : Q) (comm : Action) : Q :=
  let score := if Qgtb (default 0 (clarity comm)) 0.8
               then score + 25 else score in
  let score := if Qgtb (default 0 (timing comm)) 0.8
               then score + 25 else score in
  if Qgtb (default 0 (professionalism comm)) 0.8
  then score + 25 else score.

Definition _assess_communication (actions : list Action) : Q :=
  let communication_actions := List.filter (has_type "communication") actions in
  match communication_actions with
  | [] => 50
  | _ => py_min (foldl score_communication 0 communication_actions) 100
  end.

(** One turn of the loop of [_assess_decision_making]; [0.7] is the decimal
    here and the nearest float in the code. *)
Definition count_decision (correct_decisions : Q) (decision : Action) : Q :=
  match outcome decision with
  | Some o =>
      if (o =? "correct")%string then correct_decisions + 1
      else if (o =? "safe_alternative")%string then correct_decisions + 0.7
      else correct_decisions
  | None => correct_decisions
  end.

Definition _assess_decision_making (actions : list Action) (step : Step) : Q :=
  let decision_actions := List.filter (has_type "decision") actions in
  match decision_actions with
  | [] => 70
  | _ =>
      let total_decisions := length decision_actions in
      let correct_decisions := foldl count_decision 0 decision_actions in
      if (0 <? total_decisions)%nat
      then correct_decisions / inject_Z (Z.of_nat total_decisions) * 100
      else 70
  end.

(** From [2^1024 - 2^970] on, a magnitude rounds to [2^1024], which is not a
    float any more. *)
Definition float_overflow : Q := inject_Z (2 ^ 1024 - 2 ^ 970).

(** [a / b] on two ints: [ZeroDivisionError] for a zero divisor,
    [OverflowError] for a quotient too large for a float. *)
Definition py_div (a b : Q) : result Q :=
  if Qeq_bool b 0 then Raise ZeroDivisionError
  else if Qle_bool float_overflow (Qabs (a / b)) then Raise OverflowError
  else Ok (a / b).

(** A magnitude far inside the range of a float: no quotient of the engine
    overflows on a time of at most [10^300] seconds. *)
Definition time_limit : Z := 10 ^ 300.

Definition _assess_time_management (time_taken : Z) (step : Step) : result Q :=
  let duration_str := default "10-15 minutes" (duration step) in
  let duration_parts := duration_parts duration_str in
  let? p0 := Py.index duration_parts 0 in
  let? n0 := Py.int_of_str p0 in
  let expected_min := (n0 * 60)%Z in
  let? p1 := Py.index duration_parts 1 in
  let? n1 := Py.int_of_str p1 in
  let expected_max := (n1 * 60)%Z in
  if ((expected_min <=? time_taken) && (time_taken <=? expected_max))%Z then
    Ok 100
  else if (time_taken <? expected_min)%Z then
    let? ratio := py_div (inject_Z (expected_min - time_taken))
                         (inject_Z expected_min) in
    Ok (py_max 70 (100 - ratio * 30))
  else
    let? ratio := py_div (inject_Z (time_taken - expected_max))
                         (inject_Z expected_max) in
    Ok (py_max 30 (100 - ratio * 50)).

Definition awareness_indicators : list string :=
  [ "monitors_vitals"; "checks_equipment"; "communicates_status";
    "identifies_complications"; "requests_assistance" ].

Definition _assess_situational_awareness (actions : list Action) : Q :=
  py_min
    (foldl (λ score action,
              let action_type := default "" (a_type action) in
              if existsb (λ indicator, Py.contains indicator action_type)
                         awareness_indicators
              then score + 10 else score)
           70 actions)
    100.

Definition skill_keywords : list (string * list string) :=
  [ ("trocar_placement", ["trocar"; "insertion"; "pneumoperitoneum"]);
    ("camera_navigation", ["laparoscopy"; "visualization"; "camera"]);
    ("tissue_handling", ["dissection"; "grasping"; "manipulation"]);
    ("critical_view_achievement", ["critical view"; "safety"; "triangle"]);
    ("dissection_technique", ["dissect"; "separate"; "divide"]);
    ("hemostasis", ["bleeding"; "clip"; "cautery"; "hemostasis"]) ].

(** [d[key]] on a dict kept as an association list. *)
Fixpoint assoc {A} (key : string) (d : list (string * A)) : option A :=
  match d with
  | [] => None
  | (k, v) :: d' => if (k =? key)%string then Some v else assoc key d'
  end.

Definition _is_skill_relevant_to_step (skill : string) (step : Step) : bool :=
  let step_title := Py.lower (title step) in
  let step_desc := Py.lower (description step) in
  match assoc skill skill_keywords with
  | Some keywords =>
      existsb (λ keyword, Py.contains keyword step_title ||
                          Py.contains keyword step_desc) keywords
  | None => false
  end.

(** One turn of the loop of [_assess_technical_skills]; the state is
    [(total_score, total_weight)]. *)
Definition add_skill (step : Step) (actions : list Action) (time_taken : Z)
    (totals : Q * Q) (entry : string * Criterion) : Q * Q :=
  let '(total_score, total_weight) := totals in
  let '(skill, scoring) := entry in
  if _is_skill_relevant_to_step skill step then
    let skill_score := _score_technical_skill skill actions time_taken in
    let weighted_score := skill_score * weight scoring in
    (total_score + weighted_score, total_weight + weight scoring)
  else totals.

(** The weighted mean is exact here; the float of the code can differ from it
    in the last digits (three skills at their cap give
    [10000.000000000002]). *)
Definition _assess_technical_skills (procedure_type : string) (step : Step)
    (actions : list Action) (time_taken : Z) : Q :=
  match _load_scoring_criteria !! procedure_type with
  | None => 0
  | Some c =>
      let criteria := technical_skills c in
      let '(total_score, total_weight) :=
        foldl (add_skill step actions time_taken) (0, 0) criteria in
      if Qgtb total_weight 0 then total_score / total_weight * 100 else 0
  end.

Definition _assess_non_technical_skills (step : Step) (actions : list Action)
    (time_taken : Z) : result Q :=
  let communication_score := _assess_communication actions in
  let decision_score := _assess_decision_making actions step in
  let? time_score := _assess_time_management time_taken step in
  let awareness_score := _assess_situational_awareness actions in
  Ok (sum_Q [ communication_score * 0.30; decision_score * 0.35;
              time_score * 0.20; awareness_score * 0.15 ]).

Definition Qgeb (x y : Q) : bool := Qle_bool y x.

Definition _generate_technical_feedback (score : Q) (actions : list Action)
  : string :=
  if Qgeb score 85 then
    "Excellent technical execution with proper instrument handling and surgical technique."
  else if Qgeb score 70 then
    "Good technical skills demonstrated with room for refinement in precision."
  else if Qgeb score 55 then
    "Technical skills need improvement. Focus on instrument control and anatomical identification."
  else
    "Significant technical deficiencies identified. Additional practice and supervision recommended.".

Definition _generate_non_technical_feedback (score : Q) : string :=
  if Qgeb score 85 then
    "Outstanding communication and decision-making throughout the procedure."
  else if Qgeb score 70 then
    "Good team interaction and appropriate clinical decisions made."
  else if Qgeb score 55 then
    "Communication and decision-making skills need development."
  else
    "Poor team communication and questionable clinical decisions observed.".

Definition _generate_recommendations (score : Q) (step : Step) : list string :=
  let recommendations := [] in
  let recommendations :=
    if Qltb score 70 then
      recommendations ++
      [ "Review " +:+ Py.lower (title step) +:+ " technique in textbook";
        "Practice on simulation models before next attempt";
        "Seek mentorship for technique refinement" ]
    else recommendations in
  if Qltb score 85 then
    recommendations ++
    [ "Focus on smooth, deliberate movements";
      "Improve communication with surgical team" ]
  else recommendations.

Definition performance_level_of (overall_score : Q) : string :=
  if Qgeb overall_score 90 then "excellent"
  else if Qgeb overall_score 75 then "good"
  else if Qgeb overall_score 60 then "needs_improvement"
  else "poor".

Definition _generate_step_feedback (overall_score technical_score
    non_technical_score : Q) (step : Step) (actions : list Action)
  : M Feedback :=
  let level := performance_level_of overall_score in
  let* summary := random_choice (feedback_templates level) in
  ret {| overall_level := level;
         summary := summary;
         technical_feedback :=
           _generate_technical_feedback technical_score actions;
         non_technical_feedback :=
           _generate_non_technical_feedback non_technical_score;
         recommendations := _generate_recommendations overall_score step |}.

Definition _identify_improvement_areas (technical_score non_technical_score : Q)
    (actions : list Action) : list string :=
  let areas := [] in
  let areas := if Qltb technical_score 70
               then areas ++ ["Technical Skills"] else areas in
  let areas := if Qltb non_technical_score 70
               then areas ++ ["Communication & Decision Making"]
               else areas in
  let areas :=
    if existsb (λ a, Qgtb (default 0 (hesitation_time a)) 30) actions
    then areas ++ ["Confidence & Decision Speed"] else areas in
  if existsb (λ a, Qltb (default 1 (accuracy a)) 0.6) actions
  then areas ++ ["Precision & Accuracy"] else areas.

(** [assess_step] from its first scoring call on: what it computes once
    [current_step] is resolved. *)
Definition assess_current_step (procedure_type : string) (current_step : Step)
    (step_number : Z) (user_actions : list Action) (time_taken : Z)
  : M StepAssessment :=
  let technical_score :=
    _assess_technical_skills procedure_type current_step user_actions
                             time_taken in
  let* non_technical_score :=
    lift (_assess_non_technical_skills current_step user_actions time_taken) in
  let overall_score := technical_score * 0.7 + non_technical_score * 0.3 in
  let* feedback :=
    _generate_step_feedback overall_score technical_score non_technical_score
                            current_step user_actions in
  ret {| sa_step_number := step_number;
         technical_score := technical_score;
         non_technical_score := non_technical_score;
         overall_score := overall_score;
         feedback := Some feedback;
         time_taken := time_taken;
         areas_for_improvement :=
           _identify_improvement_areas technical_score non_technical_score
                                       user_actions |}.

(** [name.lower().replace(" ", "_")] *)
Definition procedure_key (name : string) : string :=
  Py.replace " " "_" (Py.lower name).

Definition assess_step (simulation_data : SimulationData (list Step))
    (step_number : Z) (user_actions : list Action) (time_taken : Z)
  : M StepAssessment :=
  let procedure_type :=
    procedure_key (name (procedure_info (simulation simulation_data))) in
  let* current_step :=
    lift (Py.index (steps (simulation simulation_data)) (step_number - 1)) in
  assess_current_step procedure_type current_step step_number user_actions
                      time_taken.

(** *** The final report *)

Record Trends := {
  direction : string;
  peak_performance_step : Z;
  lowest_performance_step : Z;
}.

Record LearningPlan := {
  immediate_focus : list string;
  practice_recommendations : list string;
  next_steps : list string;
}.

Record FinalFeedback := {
  performance_level : string;
  summary_message : string;
  trend_analysis : string;
}.

(** The final report.  Left out: ["completion_date"] (a wall-clock stamp) and
    the consistency rating with its note (a floating-point square root). *)
Record FinalAssessment := {
  fa_simulation_id : option string;
  technical_average : Q;
  non_technical_average : Q;
  overall_average : Q;
  individual_steps : list (Z * Q * Z);
  total_time_minutes : Q;
  complications_handled : nat;
  safety_violations : nat;
  efficiency_rating : string;
  trends : Trends;
  final_feedback : FinalFeedback;
  learning_plan : LearningPlan;
  certification_eligible : bool;
  next_difficulty_ready : bool;
}.

(** What [generate_final_assessment] returns: the report, or the dict
    [{"error": ...}] that marks an empty history. *)
Inductive FinalResult : Type :=
  | ErrorMarker (error : string)
  | Report (r : FinalAssessment).

(** [round(q)]: to the nearest integer, a tie to the even one. *)
Definition round_half_even (q : Q) : Z :=
  let f := Qfloor q in
  let r := q - inject_Z f in
  if Qltb r 0.5 then f
  else if Qltb 0.5 r then (f + 1)%Z
  else if Z.even f then f else (f + 1)%Z.

(** [round(q, 1)] of the exact value: Python rounds the float, which can
    fall on the other side of a tie. *)
Definition round1 (q : Q) : Q := inject_Z (round_half_even (q * 10)) / 10.

(** [sum(l) / len(l)] for a non-empty list, exactly: the float of the code
    differs from it by the rounding of the sum and of the quotient. *)
Definition mean (l : list Q) : Q := sum_Q l / inject_Z (Z.of_nat (length l)).

(** [max(l)] and [min(l)] of a non-empty list: the first of the largest
    (smallest) elements. *)
Definition list_max (l : list Q) : Q :=
  match l with
  | [] => 0
  | x :: l' => foldl (λ m y, if Qgtb y m then y else m) x l'
  end.

Definition list_min (l : list Q) : Q :=
  match l with
  | [] => 0
  | x :: l' => foldl (λ m y, if Qltb y m then y else m) x l'
  end.

(** [l.index(x)]: the position of the first element equal to [x]. *)
Fixpoint list_index (x : Q) (l : list Q) : Z :=
  match l with
  | [] => 0
  | y :: l' => if Qeq_bool y x then 0%Z else (1 + list_index x l')%Z
  end.

Definition _analyze_performance_trends (assessments : list StepAssessment)
  : Trends :=
  let scores := map overall_score assessments in
  let trend :=
    if (1 <? length scores)%nat then
      let first_half := take (length scores / 2) scores in
      let second_half := drop (length scores / 2) scores in
      let avg_first := mean first_half in
      let avg_second := mean second_half in
      if Qgtb avg_second (avg_first + 5) then "improving"
      else if Qltb avg_second (avg_first - 5) then "declining"
      else "stable"
    else "insufficient_data" in
  {| direction := trend;
     peak_performance_step := (list_index (list_max scores) scores + 1)%Z;
     lowest_performance_step := (list_index (list_min scores) scores + 1)%Z |}.

Definition _generate_final_feedback (overall_score : Q) (trends : Trends)
    (simulation_data : SimulationData (list Step)) : FinalFeedback :=
  let procedure_name := name (procedure_info (simulation simulation_data)) in
  let difficulty := difficulty_level (simulation simulation_data) in
  let '(performance_level, message) :=
    if Qgeb overall_score 90 then
      ("Outstanding",
       "Exceptional performance on " +:+ procedure_name +:+ " at " +:+
       difficulty +:+ " level.")
    else if Qgeb overall_score 75 then
      ("Proficient",
       "Good performance on " +:+ procedure_name +:+
       " with areas for refinement.")
    else if Qgeb overall_score 60 then
      ("Developing",
       "Developing skills demonstrated. Continue practice on " +:+
       procedure_name +:+ ".")
    else
      ("Novice",
       "Foundational skills need development before attempting " +:+
       procedure_name +:+ ".") in
  {| performance_level := performance_level;
     summary_message := message;
     trend_analysis := "Performance trend: " +:+ direction trends |}.

Definition _generate_learning_plan (technical_avg non_technical_avg : Q)
    (trends : Trends) : LearningPlan :=
  let focus := [] in
  let practice := [] in
  let '(focus, practice) :=
    if Qltb technical_avg 70 then
      (focus ++ ["Technical Skill Development"],
       practice ++ [ "Practice basic laparoscopic skills on trainer";
                     "Review anatomical landmarks";
                     "Work on instrument handling precision" ])
    else (focus, practice) in
  let '(focus, practice) :=
    if Qltb non_technical_avg 70 then
      (focus ++ ["Communication & Decision Making"],
       practice ++ [ "Practice team communication scenarios";
                     "Review decision-making frameworks";
                     "Participate in team-based simulations" ])
    else (focus, practice) in
  let next :=
    if Qgeb technical_avg 85 && Qgeb non_technical_avg 85 then
      [ "Ready for increased difficulty level";
        "Consider mentoring junior trainees" ]
    else if Qgeb technical_avg 75 && Qgeb non_technical_avg 75 then
      [ "Practice additional procedure variations";
        "Focus on efficiency improvements" ]
    else
      [ "Repeat current difficulty level"; "Seek additional supervision" ] in
  {| immediate_focus := focus;
     practice_recommendations := practice;
     next_steps := next |}.

(** [a.get('feedback', {}).get('summary', '')] *)
Definition summary_of (a : StepAssessment) : string :=
  match feedback a with
  | Some f => summary f
  | None => ""
  end.

Definition _count_safety_violations (assessments : list StepAssessment) : nat :=
  foldl (λ violations assessment,
           if Py.contains "safety" (Py.lower (summary_of assessment))
           then S violations else violations)
        O assessments.

Definition _calculate_efficiency (total_time : Z)
    (simulation_data : SimulationData (list Step)) : string :=
  let expected_duration :=
    inject_Z (estimated_duration
                (procedure_info (simulation simulation_data)) * 60) in
  if Qle_bool (inject_Z total_time) expected_duration then "Excellent"
  else if Qle_bool (inject_Z total_time) (expected_duration * 1.2) then "Good"
  else if Qle_bool (inject_Z total_time) (expected_duration * 1.5)
  then "Acceptable"
  else "Needs Improvement".

(** The report of a history within the range of floats ([plain_history]
    bounds it): there no operation of the source raises.  Outside it the
    source can raise [OverflowError], in [total_time / 60], in
    [expected_duration * 1.2] and in the square of
    [_calculate_consistency], which has no part in this record. *)
Definition generate_final_assessment
    (simulation_data : SimulationData (list Step)) : FinalResult :=
  let step_assessments := step_assessments simulation_data in
  match step_assessments with
  | [] => ErrorMarker "No step assessments found"
  | _ =>
      let technical_scores := map technical_score step_assessments in
      let non_technical_scores := map non_technical_score step_assessments in
      let overall_scores := map overall_score step_assessments in
      let avg_technical := mean technical_scores in
      let avg_non_technical := mean non_technical_scores in
      let avg_overall := mean overall_scores in
      let total_time := sum_Z (map time_taken step_assessments) in
      let trends := _analyze_performance_trends step_assessments in
      let final_feedback :=
        _generate_final_feedback avg_overall trends simulation_data in
      let learning_plan :=
        _generate_learning_plan avg_technical avg_non_technical trends in
      Report
        {| fa_simulation_id := simulation_id simulation_data;
           technical_average := round1 avg_technical;
           non_technical_average := round1 avg_non_technical;
           overall_average := round1 avg_overall;
           individual_steps :=
             map (λ a, (sa_step_number a, overall_score a, time_taken a))
                 step_assessments;
           total_time_minutes := round1 (inject_Z total_time / 60);
           complications_handled :=
             length (List.filter
                       (λ a, Py.contains "complication" (summary_of a))
                       step_assessments);
           safety_violations := _count_safety_violations step_assessments;
           efficiency_rating := _calculate_efficiency total_time simulation_data;
           trends := trends;
           final_feedback := final_feedback;
           learning_plan := learning_plan;
           certification_eligible := Qgeb avg_overall 75;
           next_difficulty_ready := Qgeb avg_overall 85 |}
  end.

End engine.

(** ** Reference definitions for the statements *)

(** The duration string ["lo-hi minutes"]. *)
Definition duration_string (lo hi : N) : string :=
  Py.str_of_N lo +:+ "-" +:+ Py.str_of_N hi +:+ " minutes".

(** [int(n * factor)] for one bound of a duration. *)
Definition scale_bound (factor : F64.float) (n : N) : result Z :=
  let? x := F64.int_mul (Z.of_N n) factor in F64.to_int x.

(** The effect of [customize_step] on the value of the step dict. *)
Definition customize_pure (tv : option (Step → list string))
    (difficulty : string) (s : Step) : result Step :=
  if (difficulty =? "beginner")%string then
    let s := set_guidance_level "detailed" s in
    let s := set_hints (_generate_beginner_hints s) s in
    let? d := subscript (duration s) in
    let? d' := _extend_duration d (F64.lit 3 2) in
    Ok (set_duration d' s)
  else if (difficulty =? "intermediate")%string then
    let s := set_guidance_level "moderate" s in
    Ok (set_decision_points (_add_decision_points s) s)
  else if (difficulty =? "advanced")%string then
    let s := set_guidance_level "minimal" s in
    let? v := match tv with
              | Some f => Ok (f s)
              | None => Raise AttributeError
              end in
    let s := set_variations v s in
    let? d := subscript (duration s) in
    let? d' := _reduce_duration d (F64.lit 4 5) in
    Ok (set_duration d' s)
  else if (difficulty =? "expert")%string then
    let s := set_guidance_level "none" s in
    let s := set_time_pressure true s in
    let? d := subscript (duration s) in
    let? d' := _reduce_duration d (F64.lit 7 10) in
    Ok (set_duration d' s)
  else Ok s.

(** The duration that [customize_pure] leaves in a step whose duration
    was [d]. *)
Definition customized_duration (difficulty d : string) : result string :=
  if (difficulty =? "beginner")%string then _extend_duration d (F64.lit 3 2)
  else if (difficulty =? "intermediate")%string then Ok d
  else if (difficulty =? "advanced")%string
  then _reduce_duration d (F64.lit 4 5)
  else if (difficulty =? "expert")%string
  then _reduce_duration d (F64.lit 7 10)
  else Ok d.

(** A duration string parses into two bounds that are both above zero. *)
Definition positive_duration (d : string) : bool :=
  let parts := duration_parts d in
  match Py.index parts 0, Py.index parts 1 with
  | Ok p0, Ok p1 =>
      match Py.int_of_str p0, Py.int_of_str p1 with
      | Ok n0, Ok n1 => ((0 <? n0) && (0 <? n1))%Z
      | _, _ => false
      end
  | _, _ => false
  end.

(** Whatever the level, the customized duration has positive bounds. *)
Definition positive_at_all_levels (d : string) : bool :=
  forallb (λ r : result string,
             match r with
             | Ok d' => positive_duration d'
             | Raise _ => true
             end)
          [ _extend_duration d (F64.lit 3 2); Ok d;
            _reduce_duration d (F64.lit 4 5);
            _reduce_duration d (F64.lit 7 10) ].

(** The catalog entries by key: the procedure name and the steps. *)
Definition catalog_entry (procedure_type : string)
  : option (string * list Step) :=
  if (procedure_type =? "laparoscopic_cholecystectomy")%string
  then Some ("Laparoscopic Cholecystectomy", Catalog.cholecystectomy_steps)
  else if (procedure_type =? "appendectomy")%string
  then Some ("Laparoscopic Appendectomy", Catalog.appendectomy_steps)
  else if (procedure_type =? "knee_arthroscopy")%string
  then Some ("Knee Arthroscopy", Catalog.knee_arthroscopy_steps)
  else None.

(** The effect of [enhance_step] on the value of the step dict. *)
Definition enhance_pure (objectives : list string) (s : Step) : Step :=
  foldl (λ s objective,
           if Py.contains (Py.lower objective) (Py.lower (title s)) ||
              Py.contains (Py.lower objective) (Py.lower (description s))
           then set_assessment_weight 2
                  (set_learning_focus
                     (default [] (learning_focus s) ++ [objective]) s)
           else s)
        (set_learning_focus [] s) objectives.

(** The sum over the steps of the midpoint of the duration range. *)
Definition midpoint_sum (bounds : list (N * N)) : Q :=
  foldl (λ total b, total + inject_Z (Z.of_N (fst b) + Z.of_N (snd b)) / 2)%Q
        0%Q bounds.

(** Rounding to the nearest integer with a tie going up. *)
Definition round_half_up (q : Q) : Z := Qfloor (q + (1 # 2))%Q.

(** How many of the three criteria one communication action meets. *)
Definition criteria_met (a : Action) : nat :=
  Nat.b2n (Qgtb (default 0%Q (clarity a)) 0.8%Q) +
  Nat.b2n (Qgtb (default 0%Q (timing a)) 0.8%Q) +
  Nat.b2n (Qgtb (default 0%Q (professionalism a)) 0.8%Q).


Definition criteria_met_total (comms : list Action) : nat :=
  foldr (λ a n, criteria_met a + n)%nat 0%nat comms.

(** An action with no key set, and the actions of the examples. *)
Definition no_action : Action :=
  {| a_type := None; skill_category := None; accuracy := None;
     clarity := None; timing := None; professionalism := None;
     outcome := None; hesitation_time := None; expected_time := None |}.

Definition skill_action (category : string) (acc : Q) : Action :=
  {| a_type := None; skill_category := Some category; accuracy := Some acc;
     clarity := None; timing := None; professionalism := None;
     outcome := None; hesitation_time := None; expected_time := None |}.


(** A stored simulation whose scenario has the given name and steps. *)
Definition stored (procedure_name : string) (ss : list Step)
  : SimulationData (list Step) :=
  {| simulation :=
       {| procedure_info :=
            {| name := procedure_name; category := "General Surgery";
               estimated_duration := 60 |};
          steps := ss;
          complications := [];
          learning_objectives := [];
          difficulty_level := "intermediate" |};
     step_assessments := [];
     simulation_id := None |}.

Definition cholecystectomy_document : SimulationData (list Step) :=
  stored "Laparoscopic Cholecystectomy" Catalog.cholecystectomy_steps.

(** The generator as the application uses it: the object is built, then
    asked for a scenario. *)
Definition generate_from_catalog {Patient : Type}
    (tv : option (Step → list string)) (procedure_type difficulty : string)
    (patient : Patient) (objectives : list string) (enabled : bool)
  : M (Scenario loc) :=
  let* self := new_SimulationGenerator in
  generate_scenario tv self procedure_type difficulty patient objectives
                    enabled.

(** Predicates on the characters of a string. *)
Fixpoint all_chars (p : ascii → bool) (s : string) : bool :=
  match s with
  | EmptyString => true
  | String c s' => p c && all_chars p s'
  end.

Definition is_digit (c : ascii) : bool :=
  let n := N_of_ascii c in ((48 <=? n) && (n <=? 57))%N.

Definition not_space (c : ascii) : bool := negb (Py.is_space c).
Definition not_dash (c : ascii) : bool := negb (Ascii.eqb c "-").

(** The world after [step[key] = v] at [l]. *)
Definition put (l : loc) (s : Step) (w : world) : world :=
  with_heap (<[l := OStep s]> (heap w)) w.

(** [m] never changes a list object. *)
Definition keeps_lists {A} (m : M A) : Prop :=
  ∀ w l ls, heap w !! l = Some (OList ls) →
            heap (snd (m w)) !! l = Some (OList ls).

(** [m] changes no object other than the one at [l], and allocates none. *)
Definition only_at {A} (l : loc) (m : M A) : Prop :=
  ∀ w l', l' ≠ l → heap (snd (m w)) !! l' = heap w !! l'.

(** [m] leaves the heap as it is. *)
Definition reads_only {A} (m : M A) : Prop :=
  ∀ w, heap (snd (m w)) = heap w.

(** [m] allocates nothing. *)
Definition no_alloc {A} (m : M A) : Prop :=
  ∀ w, length (heap (snd (m w))) = length (heap w).

(** The locations [ls] hold the step values [ss], in order. *)
Definition steps_at (h : list obj) (ls : list loc) (ss : list Step) : Prop :=
  Forall2 (λ l s, h !! l = Some (OStep s)) ls ss.

(** The appendectomy steps as a list object in an otherwise empty heap: the
    five step dicts at locations 0 to 4 and their list at location 5. *)
Definition appendectomy_world : world :=
  snd (new_step_list Catalog.appendectomy_steps (start [])).

Definition appendectomy_bounds : list (N * N) :=
  [(10, 15); (5, 10); (10, 15); (5, 10); (5, 10)]%N.

(** One step of ten to fifteen minutes, as a list object: the step dict at
    location 0 and its list at location 1. *)
Definition one_step_world : world :=
  snd (new_step_list
         [catalog_step 1 "Trocar Placement"
            "Create pneumoperitoneum and insert trocars" "10-15 minutes"
            [] []] (start [])).

(** What a planned complication is made of. *)
Definition planned_from (self : SimulationGenerator) (procedure_type : string)
    (c : Complication) : Prop :=
  (2 ≤ c_trigger_step c ≤ 5)%Z ∧
  c_type c ∈ possible_complications procedure_type ∧
  ∃ entry severities locations,
    complication_library self !! c_type c = Some entry ∧
    le_severity entry = Some severities ∧ c_severity c ∈ severities ∧
    le_locations entry = Some locations ∧ c_location c ∈ locations ∧
    le_management entry = Some (c_management_options c).

(** The generator object over the catalog, and the world it is built in. *)
Definition catalog_world (draws : list N) : world :=
  snd (new_SimulationGenerator (start draws)).

Definition catalog_generator : SimulationGenerator :=
  match fst (new_SimulationGenerator (start [])) with
  | Ok self => self
  | Raise _ => {| procedure_templates := ∅; complication_library := ∅ |}
  end.

Definition severe_bowel_injury : Complication :=
  {| c_type := "bowel_injury"; c_severity := "full_thickness";
     c_location := "colon"; c_trigger_step := 5;
     c_management_options := ["primary repair"; "resection"; "conversion"] |}.

(** The appendectomy entry of the catalog generator. *)
Definition appendectomy_template : Template loc :=
  {| t_name := "Laparoscopic Appendectomy"; t_category := "General Surgery";
     t_base_duration := 45; t_steps := 12 |}.

(** A step assessment with an overall score between the two gates. *)
Definition passing_assessment : StepAssessment :=
  {| sa_step_number := 1; technical_score := 80; non_technical_score := 90;
     overall_score := 83; feedback := None; time_taken := 700;
     areas_for_improvement := [] |}.

(** A knee-arthroscopy simulation whose step list is at location 0. *)
Definition knee_simulation : SimulationData loc :=
  {| simulation :=
       {| procedure_info :=
            {| name := "Knee Arthroscopy"; category := "Orthopedic";
               estimated_duration := 90 |};
          steps := 0;
          complications := [];
          learning_objectives := [];
          difficulty_level := "intermediate" |};
     step_assessments := [];
     simulation_id := None |}.

(** How many of the actions have the given outcome. *)
Definition outcomes (o : string) (actions : list Action) : nat :=
  length (List.filter (λ a, match outcome a with
                            | Some o' => (o' =? o)%string
                            | None => false
                            end) actions).

(** An action whose type names one of the awareness indicators. *)
Definition shows_awareness (a : Action) : bool :=
  existsb (λ indicator, Py.contains indicator (default "" (a_type a)))
          awareness_indicators.

(** An action that [_score_technical_skill] counts for [skill]. *)
Definition practises (skill : string) (a : Action) : bool :=
  Py.contains skill (Py.lower (default "" (skill_category a))).

(** The points of one counted action, by its accuracy. *)
Definition accuracy_points (a : Action) : Z :=
  if Qgtb (default 0%Q (accuracy a)) 0.8%Q then 20
  else if Qgtb (default 0%Q (accuracy a)) 0.6%Q then 15
  else 5.

(** The action is within one and a half times its expected time. *)
Definition in_time (time_taken : Z) (a : Action) : bool :=
  negb (Qgtb (inject_Z time_taken) (default 300%Q (expected_time a) * 1.5)%Q).


(** The criteria of the two procedures of the scoring table. *)
Definition cholecystectomy_criteria : list (string * Criterion) :=
  [ ("trocar_placement", {| max_score := 20; weight := 0.15 |});
    ("camera_navigation", {| max_score := 15; weight := 0.10 |});
    ("tissue_handling", {| max_score := 25; weight := 0.20 |});
    ("critical_view_achievement", {| max_score := 30; weight := 0.25 |});
    ("dissection_technique", {| max_score := 25; weight := 0.20 |});
    ("hemostasis", {| max_score := 15; weight := 0.10 |}) ]%Q.

Definition appendectomy_criteria : list (string * Criterion) :=
  [ ("appendix_identification", {| max_score := 25; weight := 0.25 |});
    ("mesoappendix_division", {| max_score := 30; weight := 0.30 |});
    ("base_division", {| max_score := 25; weight := 0.25 |});
    ("specimen_removal", {| max_score := 20; weight := 0.20 |}) ]%Q.

(** A history of two steps, the second one the better. *)
Definition two_step_history : SimulationData (list Step) :=
  {| simulation := simulation cholecystectomy_document;
     step_assessments :=
       [ {| sa_step_number := 1; technical_score := 60;
            non_technical_score := 70; overall_score := 63;
            feedback := None; time_taken := 700;
            areas_for_improvement := [] |};
         passing_assessment ];
     simulation_id := None |}.

(** The world after one draw. *)
Definition advance (w : world) : world :=
  {| heap := heap w; tape := tape w; cursor := S (cursor w) |}.

(** The next two draws make [_generate_complications] select
    ["equipment_failure"]: the first is below the probability of the level,
    the second picks that name among the types of the procedure. *)
Definition draws_equipment_failure (procedure_type difficulty : string)
    (w : world) : bool :=
  F64.ltb (F64.ldexp (Z.of_N (tape w (cursor w) mod 2 ^ 53)) (-53))
          (prob_map difficulty) &&
  match Py.choice (possible_complications procedure_type)
                  (tape w (S (cursor w))) with
  | Ok selected => (selected =? "equipment_failure")%string
  | Raise _ => false
  end.

(** The three keys of the catalog. *)
Definition catalog_keys : list string :=
  ["laparoscopic_cholecystectomy"; "appendectomy"; "knee_arthroscopy"].

(** [_calculate_duration] can read the duration string: every piece between
    dashes is an integer. *)
Definition summable (du : string) : bool :=
  is_ok (map_r Py.int_of_str (duration_parts du)).

(** The duration string can be read as it is and after scaling by each of
    the three factors of the levels. *)
Definition scales (du : string) : bool :=
  summable du &&
  forallb (λ r : result string,
             match r with
             | Ok du' => summable du'
             | Raise _ => false
             end)
          [ _extend_duration du (F64.lit 3 2);
            _reduce_duration du (F64.lit 4 5);
            _reduce_duration du (F64.lit 7 10) ].

(** The objective occurs in the title or the description of the step, letter
    case apart. *)
Definition mentions (s : Step) (objective : string) : bool :=
  Py.contains (Py.lower objective) (Py.lower (title s)) ||
  Py.contains (Py.lower objective) (Py.lower (description s)).

(** A step with its learning focus set, and the weight 2.0 when the focus is
    not empty. *)
Definition focus_on (focus : list string) (s : Step) : Step :=
  match focus with
  | [] => set_learning_focus [] s
  | _ => set_assessment_weight 2 (set_learning_focus focus s)
  end.

(** The guidance level that customization leaves in a step. *)
Definition guidance_for (difficulty : string) (before : option string)
  : option string :=
  if (difficulty =? "beginner")%string then Some "detailed"
  else if (difficulty =? "intermediate")%string then Some "moderate"
  else if (difficulty =? "advanced")%string then Some "minimal"
  else if (difficulty =? "expert")%string then Some "none"
  else before.

(** What a step of a generated scenario is, given the template step it was
    copied from. *)
Definition generated_from (difficulty : string) (objectives : list string)
    (s s' : Step) : Prop :=
  step_number s' = step_number s ∧ title s' = title s ∧
  description s' = description s ∧
  critical_points s' = critical_points s ∧ instruments s' = instruments s ∧
  guidance_level s' = guidance_for difficulty (guidance_level s) ∧
  learning_focus s' = Some (List.filter (mentions s) objectives) ∧
  (∀ du, duration s = Some du →
         ∃ du', customized_duration difficulty du = Ok du' ∧
                duration s' = Some du').

(** The planned complications that [get_next_step] attaches after step
    [current_step]. *)
Definition triggered (current_step : Z) (cs : list Complication)
  : list Complication :=
  List.filter (λ c, (c_trigger_step c =? current_step + 1)%Z) cs.

(** The step dict after the loop of [get_next_step]. *)
Definition with_triggered (current_step : Z) (cs : list Complication)
    (s : Step) : Step :=
  match last (triggered current_step cs) with
  | Some c => set_complication c s
  | None => s
  end.

(** A simulation whose step list is at location 5, with two complications
    planned for step 3. *)
Definition appendectomy_simulation : SimulationData loc :=
  {| simulation :=
       {| procedure_info :=
            {| name := "Laparoscopic Appendectomy";
               category := "General Surgery"; estimated_duration := 47 |};
          steps := 5;
          complications :=
            [ {| c_type := "bleeding"; c_severity := "mild";
                 c_location := "trocar site"; c_trigger_step := 3;
                 c_management_options := ["pressure"] |};
              {| c_type := "bleeding"; c_severity := "severe";
                 c_location := "liver bed"; c_trigger_step := 3;
                 c_management_options := ["conversion"] |} ];
          learning_objectives := [];
          difficulty_level := "intermediate" |};
     step_assessments := [];
     simulation_id := None |}.

(** The scaled bound is what integer arithmetic gives: three halves and four
    fifths rounded down, and seven tenths rounded down, or one less than that
    for a multiple of ten. *)
Definition scaling_agrees (n : N) : bool :=
  match scale_bound (F64.lit 3 2) n, scale_bound (F64.lit 4 5) n,
        scale_bound (F64.lit 7 10) n with
  | Ok a, Ok b, Ok c =>
      (a =? Z.of_N (3 * n / 2))%Z && (b =? Z.of_N (4 * n / 5))%Z &&
      ((c =? Z.of_N (7 * n / 10))%Z ||
       ((n mod 10 =? 0)%N && (c =? Z.of_N (7 * n / 10 - 1))%Z))
  | _, _, _ => false
  end.

(** The bounds the statement covers: up to a day of minutes. *)
Definition longest_duration : N := 1440.

(** ** The patient's vitals during a simulation *)

Record BloodPressure := {
  systolic : Z;
  diastolic : Z;
}.

(** The vitals dict: the counts are ints, the temperature is a float. *)
Record Vitals := {
  heart_rate : Z;
  blood_pressure : BloodPressure;
  oxygen_saturation : Z;
  temperature : F64.float;
  respiratory_rate : Z;
}.

(** The patient profile, of which [generate_current_vitals] reads the key
    ['vitals'] only. *)
Record PatientProfile := {
  vitals : Vitals;
}.

Definition f64_add : F64.float → F64.float → F64.float :=
  SFadd F64.prec F64.emax.
Definition f64_sub : F64.float → F64.float → F64.float :=
  SFsub F64.prec F64.emax.

(** [random.uniform(a, b)] is [a + (b - a) * random()]. *)
Definition random_uniform (a b : F64.float) : M F64.float :=
  let* r := random_random in
  ret (f64_add a (F64.mul (f64_sub b a) r)).

(** The body of the loop over the complications. *)
Definition apply_complication (current_vitals : Vitals) (comp : Complication)
  : Vitals :=
  if (c_type comp =? "bleeding")%string && (c_severity comp =? "severe")%string
  then
    {| heart_rate := heart_rate current_vitals + 20;
       blood_pressure :=
         {| systolic := systolic (blood_pressure current_vitals) - 15;
            diastolic := diastolic (blood_pressure current_vitals) |};
       oxygen_saturation := oxygen_saturation current_vitals;
       temperature := temperature current_vitals;
       respiratory_rate := respiratory_rate current_vitals |}
  else current_vitals.

(** The draws are made in the order of the dict literal. *)
Definition generate_current_vitals (patient : PatientProfile)
    (current_step : Z) (complications : list Complication) : M Vitals :=
  let base_vitals := vitals patient in
  let* hr := random_randint (-5) 10 in
  let* sys := random_randint (-10) 5 in
  let* dia := random_randint (-5) 5 in
  let* ox := random_randint (-2) 1 in
  let* temp := random_uniform (F64.lit (-1) 2) (F64.lit 3 10) in
  let* rr := random_randint (-2) 3 in
  let current_vitals :=
    {| heart_rate := heart_rate base_vitals + hr;
       blood_pressure :=
         {| systolic := systolic (blood_pressure base_vitals) + sys;
            diastolic := diastolic (blood_pressure base_vitals) + dia |};
       oxygen_saturation := oxygen_saturation base_vitals + ox;
       temperature := f64_add (temperature base_vitals) temp;
       respiratory_rate := respiratory_rate base_vitals + rr |} in
  ret (foldl apply_complication current_vitals complications).

(** How many of the complications are severe bleedings. *)
Definition severe_bleedings (cs : list Complication) : Z :=
  Z.of_nat (length (List.filter
                      (λ c, (c_type c =? "bleeding")%string &&
                            (c_severity c =? "severe")%string) cs)).

(** The world after [n] draws. *)
Definition after_draws (n : nat) (w : world) : world :=
  {| heap := heap w; tape := tape w; cursor := n + cursor w |}.

(** The two recommendations of a score below 85, and the five of a score
    below 70. *)
Definition smoother_work : list string :=
  [ "Focus on smooth, deliberate movements";
    "Improve communication with surgical team" ].

Definition review_and_practice (step : Step) : list string :=
  [ "Review " +:+ Py.lower (title step) +:+ " technique in textbook";
    "Practice on simulation models before next attempt";
    "Seek mentorship for technique refinement" ] ++ smoother_work.

(** Equal up to the rounding of float arithmetic.  The scores of the engine
    are exact rationals here and binary64 numbers in the code; for scores of
    at most 10^4 computed in a few operations the two differ by far less than
    a millionth. *)
Definition near (x y : Q) : Prop := (Qabs (x - y) <= 1 # 1000000)%Q.

(** An action whose expected time fits a float.  [expected_time * 1.5] first
    converts an int to a float, and Python raises [OverflowError] when the
    int is too large; a float is within the range as it is. *)
Definition within_float (a : Action) : bool :=
  negb (Qle_bool float_overflow (Qabs (default 300%Q (expected_time a)))).

(** The assessment [a] under the step number [n], and the outcome of a call
    with the step number of its assessment, if it returns one, replaced
    by [n]. *)
Definition with_step_number (n : Z) (a : StepAssessment) : StepAssessment :=
  {| sa_step_number := n;
     technical_score := technical_score a;
     non_technical_score := non_technical_score a;
     overall_score := overall_score a;
     feedback := feedback a;
     time_taken := time_taken a;
     areas_for_improvement := areas_for_improvement a |}.

Definition renumbered (n : Z) (r : result StepAssessment * world)
  : result StepAssessment * world :=
  (match fst r with
   | Ok a => Ok (with_step_number n a)
   | Raise e => Raise e
   end, snd r).

(** A rational that a float holds exactly: [m * 2^e] with a mantissa [m] of
    at most 53 bits and an exponent [e] in the range of binary64.  An
    operation of the code whose exact result is such a number returns it
    unchanged. *)
Definition is_binary64 (q : Q) : Prop :=
  ∃ m e : Z, (Z.abs m < 2 ^ 53)%Z ∧ (-1074 ≤ e ≤ 971)%Z ∧
             (q == inject_Z m * 2 ^ e)%Q.

(** The sum of all the bounds of a list of duration ranges. *)
Definition bounds_total (bounds : list (N * N)) : Z :=
  sum_Z (map (λ b, Z.of_N (fst b) + Z.of_N (snd b))%Z bounds).

(** A history as the engine and the storage layer produce it: at most 1000
    assessments, overall scores from 0 to 10^4, times and an estimated
    duration of at most 10^300 in magnitude.  On such a history no operation
    of [generate_final_assessment] leaves the range of a float. *)
Definition plain_history (sd : SimulationData (list Step)) : Prop :=
  (length (step_assessments sd) ≤ 1000)%nat ∧
  Forall (λ a, (0 <= overall_score a <= 10000)%Q ∧
               (Z.abs (time_taken a) ≤ time_limit)%Z)
         (step_assessments sd) ∧
  (Z.abs (estimated_duration (procedure_info (simulation sd)))
   ≤ time_limit)%Z.

(** A history of three steps whose first score is below both gates and whose
    mean is between them. *)
Definition three_step_history : SimulationData (list Step) :=
  {| simulation := simulation cholecystectomy_document;
     step_assessments :=
       [ {| sa_step_number := 1; technical_score := 60;
            non_technical_score := 70; overall_score := 63;
            feedback := None; time_taken := 700;
            areas_for_improvement := [] |};
         passing_assessment;
         {| sa_step_number := 3; technical_score := 80;
            non_technical_score := 90; overall_score := 83;
            feedback := None; time_taken := 500;
            areas_for_improvement := [] |} ];
     simulation_id := None |}.

(** A decision with the given outcome. *)
Definition decision (o : string) : Action :=
  {| a_type := Some "decision"; skill_category := None; accuracy := None;
     clarity := None; timing := None; professionalism := None;
     outcome := Some o; hesitation_time := None; expected_time := None |}.


(** A step whose title and description are ASCII text. *)
Definition ascii_step (s : Step) : bool :=
  Py.is_ascii (title s) && Py.is_ascii (description s).

(** Python's [int] refuses a decimal string of more than 4300 digits; a
    number below this limit is parsed. *)
Definition int_limit : N := 10 ^ 4300.

(** * Properties *)

(** ** The Python primitives on examples *)

Example lower_name :
  Py.replace " " "_" (Py.lower "Laparoscopic Cholecystectomy")
  = "laparoscopic_cholecystectomy".
Proof. reflexivity. Qed.

Example split_duration :
  Py.split "-"%char (Py.replace " minutes" "" "10-15 minutes") = ["10"; "15"].
Proof. reflexivity. Qed.

Example int_of_str_examples :
  Py.int_of_str "15" = Ok 15%Z ∧ Py.int_of_str " +7 " = Ok 7%Z ∧
  Py.int_of_str "" = Raise ValueError ∧ Py.int_of_str "1x" = Raise ValueError.
Proof. repeat split; reflexivity. Qed.

Example index_examples :
  Py.index [10; 20; 30] 0 = Ok 10 ∧ Py.index [10; 20; 30] (-1) = Ok 30 ∧
  Py.index [10; 20; 30] 3 = Raise IndexError ∧
  Py.index [10; 20; 30] (-4) = Raise IndexError.
Proof. repeat split; reflexivity. Qed.

Example expert_rounding :
  F64.lit 7 10 = S754_finite false 6305039478318694 (-53) ∧
  result_bind (F64.int_mul 90 (F64.lit 7 10)) F64.to_int = Ok 62%Z ∧
  result_bind (F64.int_mul 15 (F64.lit 3 2)) F64.to_int = Ok 22%Z.
Proof. repeat split; vm_compute; reflexivity. Qed.

(** ** Strings of the form ["lo-hi minutes"] *)

Section duration_strings.

Lemma all_chars_app p s t :
  all_chars p (s +:+ t) = all_chars p s && all_chars p t.
Proof.
  induction s as [|c s IH]; simpl; [reflexivity|].
  rewrite IH. apply andb_assoc.
Qed.

Lemma all_chars_impl (p q : ascii → bool) s :
  (∀ c, p c = true → q c = true) →
  all_chars p s = true → all_chars q s = true.
Proof.
  intros Hpq. induction s as [|c s IH]; simpl; [done|].
  rewrite !andb_true_iff. intros [? ?]. split; auto.
Qed.

Lemma uint_digits d : all_chars is_digit (NilEmpty.string_of_uint d) = true.
Proof. induction d; simpl; auto. Qed.

Lemma to_uint_nonnil n : N.to_uint n ≠ Decimal.Nil.
Proof.
  destruct n as [|p]; simpl; [discriminate|].
  apply DecimalPos.Unsigned.to_uint_nonnil.
Qed.

Lemma str_of_N_digits n : all_chars is_digit (Py.str_of_N n) = true.
Proof.
  unfold Py.str_of_N, NilZero.string_of_uint.
  destruct (N.to_uint n); try apply uint_digits. reflexivity.
Qed.

Lemma str_of_N_nonempty n : Py.str_of_N n ≠ EmptyString.
Proof.
  unfold Py.str_of_N, NilZero.string_of_uint.
  pose proof (to_uint_nonnil n) as Hn.
  destruct (N.to_uint n); simpl; congruence.
Qed.

Lemma digits_value_str_of_N n : Py.digits_value (Py.str_of_N n) = Some n.
Proof.
  unfold Py.digits_value, Py.str_of_N.
  rewrite NilZero.usu by apply to_uint_nonnil.
  simpl. f_equal. apply DecimalN.Unsigned.of_to.
Qed.

Lemma digit_not_space c : is_digit c = true → not_space c = true.
Proof.
  unfold is_digit, not_space, Py.is_space. generalize (N_of_ascii c). intros n.
  rewrite andb_true_iff, negb_true_iff, orb_false_iff, andb_false_iff.
  rewrite !N.leb_le, !N.leb_gt, N.eqb_neq. lia.
Qed.

Lemma digit_not_dash c : is_digit c = true → not_dash c = true.
Proof.
  unfold is_digit, not_dash. intros H.
  destruct (Ascii.eqb_spec c "-") as [->|]; [discriminate|reflexivity].
Qed.

Lemma digit_not_plus c : is_digit c = true → c ≠ "+"%char.
Proof. intros H ->. discriminate. Qed.

Lemma rstrip_id s : all_chars not_space s = true → Py.rstrip s = s.
Proof.
  induction s as [|c s IH]; simpl; [done|].
  rewrite andb_true_iff. intros [Hc Hs]. rewrite (IH Hs).
  unfold not_space in Hc. apply negb_true_iff in Hc. rewrite Hc.
  destruct s; reflexivity.
Qed.

Lemma lstrip_id s : all_chars not_space s = true → Py.lstrip s = s.
Proof.
  destruct s as [|c s]; simpl; [done|].
  rewrite andb_true_iff. intros [Hc _].
  unfold not_space in Hc. apply negb_true_iff in Hc. by rewrite Hc.
Qed.

Lemma strip_id s : all_chars not_space s = true → Py.strip s = s.
Proof. intros H. unfold Py.strip. rewrite rstrip_id by done. by apply lstrip_id. Qed.

Lemma int_of_str_str_of_N n : Py.int_of_str (Py.str_of_N n) = Ok (Z.of_N n).
Proof.
  unfold Py.int_of_str.
  pose proof (str_of_N_digits n) as Hd.
  rewrite strip_id
    by (eapply all_chars_impl; [apply digit_not_space | exact Hd]).
  pose proof (digits_value_str_of_N n) as Hv.
  pose proof (str_of_N_nonempty n) as Hne.
  destruct (Py.str_of_N n) as [|c s] eqn:E; [done|].
  simpl in Hd. apply andb_true_iff in Hd as [Hc _].
  assert (c ≠ "-"%char) as H1
    by (intros ->; discriminate).
  assert (c ≠ "+"%char) as H2 by (by apply digit_not_plus).
  destruct c as [[] [] [] [] [] [] [] []]; try (rewrite Hv; reflexivity);
    congruence.
Qed.

Lemma prefix_cons_ne a p c s :
  a ≠ c → String.prefix (String a p) (String c s) = false.
Proof.
  intros Hne. cbn [String.prefix].
  destruct (ascii_dec a c); [contradiction | reflexivity].
Qed.

(** [replace(" minutes", "")] removes the suffix of a duration string. *)
Lemma replace_minutes s :
  all_chars not_space s = true →
  Py.replace " minutes" "" (s +:+ " minutes") = s.
Proof.
  unfold Py.replace. induction s as [|c s IH]; [reflexivity|].
  simpl all_chars. rewrite andb_true_iff. intros [Hc Hs].
  change (String c s +:+ " minutes") with (String c (s +:+ " minutes")).
  cbn [Py.replace_from].
  rewrite prefix_cons_ne by (intros <-; discriminate).
  by rewrite IH.
Qed.

Lemma split_no_sep s :
  all_chars not_dash s = true → Py.split "-" s = [s].
Proof.
  induction s as [|c s IH]; simpl; [done|].
  rewrite andb_true_iff. intros [Hc Hs].
  unfold not_dash in Hc. apply negb_true_iff in Hc. rewrite Hc.
  by rewrite IH.
Qed.

Lemma split_dash a b :
  all_chars not_dash a = true → all_chars not_dash b = true →
  Py.split "-" (a +:+ "-" +:+ b) = [a; b].
Proof.
  intros Ha Hb. induction a as [|c a IH]; simpl.
  - by rewrite split_no_sep.
  - simpl in Ha. apply andb_true_iff in Ha as [Hc Ha].
    unfold not_dash in Hc. apply negb_true_iff in Hc. rewrite Hc.
    by rewrite IH.
Qed.

Lemma string_app_assoc (a b c : string) : (a +:+ b) +:+ c = a +:+ (b +:+ c).
Proof.
  induction a as [|x a IH]; [reflexivity|].
  change (String x ((a +:+ b) +:+ c) = String x (a +:+ b +:+ c)).
  by f_equal.
Qed.

(** The two bounds of ["lo-hi minutes"] are read back as written. *)
Lemma duration_parts_string lo hi :
  duration_parts (duration_string lo hi) = [Py.str_of_N lo; Py.str_of_N hi].
Proof.
  unfold duration_parts, duration_string.
  pose proof (str_of_N_digits lo) as Hlo.
  pose proof (str_of_N_digits hi) as Hhi.
  replace (Py.str_of_N lo +:+ "-" +:+ Py.str_of_N hi +:+ " minutes")
    with ((Py.str_of_N lo +:+ "-" +:+ Py.str_of_N hi) +:+ " minutes")
    by (rewrite !string_app_assoc; reflexivity).
  rewrite replace_minutes.
  - apply split_dash; (eapply all_chars_impl; [apply digit_not_dash|done]).
  - rewrite !all_chars_app. simpl.
    rewrite !(all_chars_impl _ _ _ digit_not_space) by done. reflexivity.
Qed.

End duration_strings.

(** ** Running the monad *)

Lemma bind_ok {A B} (m : M A) (k : A → M B) w a w' :
  m w = (Ok a, w') → bind m k w = k a w'.
Proof. unfold bind. by intros ->. Qed.

Lemma bind_raise {A B} (m : M A) (k : A → M B) w e w' :
  m w = (Raise e, w') → bind m k w = (Raise e, w').
Proof. unfold bind. by intros ->. Qed.

Lemma bind_lift {A B} (r : result A) (k : A → M B) w :
  bind (lift r) k w = match r with Ok a => k a w | Raise e => (Raise e, w) end.
Proof. unfold bind, lift. by destruct r. Qed.

Lemma bind_ret {A B} (a : A) (k : A → M B) w : bind (ret a) k w = k a w.
Proof. reflexivity. Qed.

Lemma bind_assoc {A B C} (m : M A) (k : A → M B) (k' : B → M C) w :
  bind (bind m k) k' w = bind m (λ x, bind (k x) k') w.
Proof. unfold bind. by destruct (m w) as [[a|e] w1]. Qed.

(** Success of a bind is success of both halves. *)
Lemma bind_inv_ok {A B} (m : M A) (k : A → M B) w b w' :
  bind m k w = (Ok b, w') →
  ∃ a w1, m w = (Ok a, w1) ∧ k a w1 = (Ok b, w').
Proof.
  unfold bind. destruct (m w) as [[a|e] w1]; [eauto | discriminate].
Qed.

Lemma assign_run l f s w :
  heap w !! l = Some (OStep s) → assign l f w = (Ok tt, put l (f s) w).
Proof. unfold assign. by intros ->. Qed.

Lemma read_step_run l s w :
  heap w !! l = Some (OStep s) → read_step l w = (Ok s, w).
Proof. unfold read_step. by intros ->. Qed.

Lemma read_list_run l ls w :
  heap w !! l = Some (OList ls) → read_list l w = (Ok ls, w).
Proof. unfold read_list. by intros ->. Qed.

Lemma read_list_inv l ls w w' :
  read_list l w = (Ok ls, w') → heap w !! l = Some (OList ls) ∧ w' = w.
Proof.
  unfold read_list. destruct (heap w !! l) as [[s|ls']|]; intros [= <- <-] || intros [=]; done.
Qed.

Lemma read_step_inv l s w w' :
  read_step l w = (Ok s, w') → heap w !! l = Some (OStep s) ∧ w' = w.
Proof.
  unfold read_step. destruct (heap w !! l) as [[s'|ls']|]; intros [= <- <-] || intros [=]; done.
Qed.

Lemma heap_put l s w : heap (put l s w) = <[l := OStep s]> (heap w).
Proof. reflexivity. Qed.

Lemma put_lookup l s s0 w :
  heap w !! l = Some (OStep s0) → heap (put l s w) !! l = Some (OStep s).
Proof.
  intros H. rewrite heap_put. apply list_lookup_insert_eq.
  by eapply lookup_lt_Some.
Qed.

Lemma put_lookup_ne l l' s w :
  l ≠ l' → heap (put l s w) !! l' = heap w !! l'.
Proof. intros H. rewrite heap_put. by apply list_lookup_insert_ne. Qed.

Lemma put_put l s1 s2 w : put l s2 (put l s1 w) = put l s2 w.
Proof.
  unfold put, with_heap. simpl. f_equal. apply list_insert_insert_eq.
Qed.

Lemma put_same l s w : heap w !! l = Some (OStep s) → put l s w = w.
Proof.
  intros H. unfold put, with_heap. destruct w as [h t c]. simpl in *.
  f_equal. by apply list_insert_id.
Qed.

Lemma bind_assign {B} l f s (k : unit → M B) w :
  heap w !! l = Some (OStep s) →
  bind (assign l f) k w = k tt (put l (f s) w).
Proof. intros H. by rewrite (bind_ok _ _ _ _ _ (assign_run l f s w H)). Qed.

Lemma bind_read_step {B} l s (k : Step → M B) w :
  heap w !! l = Some (OStep s) → bind (read_step l) k w = k s w.
Proof. intros H. by rewrite (bind_ok _ _ _ _ _ (read_step_run l s w H)). Qed.

(** ** What a computation can change *)

Lemma keeps_lists_bind {A B} (m : M A) (k : A → M B) :
  keeps_lists m → (∀ a, keeps_lists (k a)) → keeps_lists (bind m k).
Proof.
  intros Hm Hk w l ls H. unfold bind.
  specialize (Hm w l ls H). destruct (m w) as [[a|e] w1]; simpl in *; [|done].
  by apply Hk.
Qed.

Lemma only_at_bind {A B} l (m : M A) (k : A → M B) :
  only_at l m → (∀ a, only_at l (k a)) → only_at l (bind m k).
Proof.
  intros Hm Hk w l' H. unfold bind.
  specialize (Hm w l' H). destruct (m w) as [[a|e] w1]; simpl in *; [|done].
  rewrite <- Hm. by apply Hk.
Qed.

Lemma reads_only_bind {A B} (m : M A) (k : A → M B) :
  reads_only m → (∀ a, reads_only (k a)) → reads_only (bind m k).
Proof.
  intros Hm Hk w. unfold bind.
  specialize (Hm w). destruct (m w) as [[a|e] w1]; simpl in *; [|done].
  rewrite <- Hm. by apply Hk.
Qed.

Lemma reads_only_ret {A} (a : A) : reads_only (ret a).
Proof. by intros w. Qed.
Lemma reads_only_lift {A} (r : result A) : reads_only (lift r).
Proof. by intros w. Qed.
Lemma reads_only_read_step l : reads_only (read_step l).
Proof. intros w. unfold read_step. by destruct (heap w !! l) as [[]|]. Qed.
Lemma reads_only_read_list l : reads_only (read_list l).
Proof. intros w. unfold read_list. by destruct (heap w !! l) as [[]|]. Qed.
Lemma reads_only_draw : reads_only draw.
Proof. by intros w. Qed.

Lemma reads_only_keeps_lists {A} (m : M A) : reads_only m → keeps_lists m.
Proof. intros Hm w l ls H. by rewrite Hm. Qed.

Lemma reads_only_only_at {A} l (m : M A) : reads_only m → only_at l m.
Proof. intros Hm w l' _. by rewrite Hm. Qed.

Lemma keeps_lists_assign l f : keeps_lists (assign l f).
Proof.
  intros w l0 ls H. unfold assign.
  destruct (heap w !! l) as [[s|ls']|] eqn:E; simpl; try done.
  destruct (decide (l = l0)) as [->|Hne].
  - congruence.
  - by rewrite list_lookup_insert_ne.
Qed.

Lemma keeps_lists_alloc o : keeps_lists (alloc o).
Proof.
  intros w l ls H. simpl. by apply lookup_app_l_Some.
Qed.

Lemma only_at_assign l f : only_at l (assign l f).
Proof.
  intros w l' H. unfold assign.
  destruct (heap w !! l) as [[s|ls']|] eqn:E; simpl; try done.
  by rewrite list_lookup_insert_ne.
Qed.

Lemma keeps_lists_for_each {A} (l : list A) (body : A → M unit) :
  (∀ x, keeps_lists (body x)) → keeps_lists (for_each l body).
Proof.
  intros Hb. induction l as [|x l IH]; simpl.
  - by apply reads_only_keeps_lists, reads_only_ret.
  - apply keeps_lists_bind; auto.
Qed.

Lemma only_at_for_each {A} l0 (l : list A) (body : A → M unit) :
  (∀ x, only_at l0 (body x)) → only_at l0 (for_each l body).
Proof.
  intros Hb. induction l as [|x l IH]; simpl.
  - by apply reads_only_only_at, reads_only_ret.
  - apply only_at_bind; auto.
Qed.

Lemma reads_only_fold_m {A B} (f : B → A → M B) b (l : list A) :
  (∀ b x, reads_only (f b x)) → reads_only (fold_m f b l).
Proof.
  intros Hf. revert b. induction l as [|x l IH]; intros b; simpl.
  - apply reads_only_ret.
  - apply reads_only_bind; auto.
Qed.

(** A loop whose body changes only the object it is given changes only the
    objects of the list it runs over. *)
Lemma for_each_frame (ls : list loc) (body : loc → M unit) w l' :
  (∀ l, only_at l (body l)) → l' ∉ ls →
  heap (snd (for_each ls body w)) !! l' = heap w !! l'.
Proof.
  intros Hb. revert w. induction ls as [|l ls IH]; intros w Hl'; [done|].
  apply not_elem_of_cons in Hl' as [Hne Hl'].
  simpl. unfold bind.
  pose proof (Hb l w l' Hne) as H1.
  destruct (body l w) as [[[]|e] w1]; simpl in *; [|done].
  rewrite IH by done. done.
Qed.

(** ** The generator on step values *)

(** One statement of a loop body on the step at [l], whose value is known. *)
Ltac known_step H :=
  first [ exact H | eapply put_lookup; exact H ].

Ltac run_body H :=
  repeat first
    [ rewrite put_put
    | rewrite bind_assoc
    | erewrite bind_assign by known_step H
    | erewrite bind_read_step by known_step H
    | erewrite assign_run by known_step H
    | rewrite bind_lift
    | rewrite bind_ret ].

Section simulation.

Context (tv : option (Step → list string)).

Lemma customize_step_sim d l s w :
  heap w !! l = Some (OStep s) →
  match customize_pure tv d s with
  | Ok s' => customize_step tv d l w = (Ok tt, put l s' w)
  | Raise e => fst (customize_step tv d l w) = Raise e
  end.
Proof.
  intros H. unfold customize_step, customize_pure.
  destruct (d =? "beginner")%string.
  { run_body H. simpl duration.
    destruct (subscript (duration s)) as [du|e]; simpl; [|done].
    run_body H.
    destruct (_extend_duration du (F64.lit 3 2)) as [du'|e]; simpl; [|done].
    by run_body H. }
  destruct (d =? "intermediate")%string.
  { by run_body H. }
  destruct (d =? "advanced")%string.
  { run_body H. destruct tv as [f|]; simpl; [|done].
    run_body H. simpl duration.
    destruct (subscript (duration s)) as [du|e]; simpl; [|done].
    run_body H.
    destruct (_reduce_duration du (F64.lit 4 5)) as [du'|e]; simpl; [|done].
    by run_body H. }
  destruct (d =? "expert")%string.
  { run_body H. simpl duration.
    destruct (subscript (duration s)) as [du|e]; simpl; [|done].
    run_body H.
    destruct (_reduce_duration du (F64.lit 7 10)) as [du'|e]; simpl; [|done].
    by run_body H. }
  simpl. unfold ret. by rewrite put_same.
Qed.

Lemma only_at_customize_step d l : only_at l (customize_step tv d l).
Proof.
  unfold customize_step.
  repeat first
    [ apply only_at_assign
    | apply reads_only_only_at;
      first [ apply reads_only_ret | apply reads_only_lift
            | apply reads_only_read_step ]
    | apply only_at_bind; [|intros ?]
    | match goal with |- only_at _ (if ?b then _ else _) => destruct b end ].
Qed.

Lemma only_at_enhance_step objs l : only_at l (enhance_step objs l).
Proof.
  unfold enhance_step.
  apply only_at_bind; [apply only_at_assign|intros _].
  apply only_at_for_each. intros objective.
  repeat first
    [ apply only_at_assign
    | apply reads_only_only_at;
      first [ apply reads_only_ret | apply reads_only_lift
            | apply reads_only_read_step ]
    | apply only_at_bind; [|intros ?]
    | match goal with |- only_at _ (if ?b then _ else _) => destruct b end ].
Qed.

(** The inner loop of [enhance_step], from a step whose focus list exists. *)
Lemma enhance_loop_sim objs l s0 s w :
  heap w !! l = Some (OStep s0) →
  is_Some (learning_focus s) →
  let body := λ s objective,
    if Py.contains (Py.lower objective) (Py.lower (title s)) ||
       Py.contains (Py.lower objective) (Py.lower (description s))
    then set_assessment_weight 2
           (set_learning_focus (default [] (learning_focus s) ++ [objective]) s)
    else s in
  for_each objs (λ objective,
    let* step := read_step l in
    if Py.contains (Py.lower objective) (Py.lower (title step)) ||
       Py.contains (Py.lower objective) (Py.lower (description step))
    then
      let* step' := lift (append_learning_focus objective step) in
      let* _ := assign l (λ _, step') in
      assign l (set_assessment_weight 2)
    else ret tt) (put l s w)
  = (Ok tt, put l (foldl body s objs) w).
Proof.
  intros H Hs body. revert s Hs.
  induction objs as [|o objs IH]; intros s [focus Hf]; [reflexivity|].
  cbn [for_each foldl].
  run_body H.
  assert (body s o =
          if Py.contains (Py.lower o) (Py.lower (title s)) ||
             Py.contains (Py.lower o) (Py.lower (description s))
          then set_assessment_weight 2
                 (set_learning_focus (focus ++ [o]) s)
          else s) as Hb by (unfold body; by rewrite Hf).
  rewrite Hb.
  destruct (Py.contains (Py.lower o) (Py.lower (title s)) ||
            Py.contains (Py.lower o) (Py.lower (description s))).
  - unfold append_learning_focus. rewrite Hf. simpl.
    run_body H. apply IH. by eexists.
  - run_body H. apply IH. by eexists.
Qed.

Lemma enhance_step_sim objs l s w :
  heap w !! l = Some (OStep s) →
  enhance_step objs l w = (Ok tt, put l (enhance_pure objs s) w).
Proof.
  intros H. unfold enhance_step, enhance_pure.
  run_body H. eapply enhance_loop_sim; [exact H|by eexists].
Qed.

End simulation.

Lemma steps_at_length h ls ss : steps_at h ls ss → length ls = length ss.
Proof. apply Forall2_length. Qed.

Lemma steps_at_ext h h' ls ss :
  (∀ l, l ∈ ls → h' !! l = h !! l) → steps_at h ls ss → steps_at h' ls ss.
Proof.
  intros Hext Hs. induction Hs as [|l s ls ss Hl Hs IH]; constructor.
  - rewrite Hext; [done|]. by left.
  - apply IH. intros l' Hl'. apply Hext. by right.
Qed.

Lemma steps_at_dump h l ls ss :
  h !! l = Some (OList ls) → steps_at h ls ss → dump_steps h l = Some ss.
Proof.
  intros Hl Hs. unfold dump_steps. rewrite Hl. clear Hl.
  apply mapM_Some. induction Hs as [|l' s ls ss Hl' Hs IH]; constructor.
  - by rewrite Hl'.
  - done.
Qed.

Lemma map_r_ok {A B} (f : A → B) (l : list A) :
  map_r (λ x, Ok (f x)) l = Ok (map f l).
Proof. induction l as [|x l IH]; simpl; [done|]. by rewrite IH. Qed.

Lemma map_r_length {A B} (f : A → result B) l l' :
  map_r f l = Ok l' → length l' = length l.
Proof.
  revert l'. induction l as [|x l IH]; intros l'; simpl.
  - by intros [= <-].
  - destruct (f x) as [y|]; simpl; [|done].
    destruct (map_r f l) as [ys|]; simpl; [|done].
    intros [= <-]. simpl. f_equal. by apply IH.
Qed.

(** A loop over distinct step objects, whose body acts on the object it is
    given as [f] acts on its value, acts as [f] on all of them. *)
Lemma for_each_sim (body : loc → M unit) (f : Step → result Step) :
  (∀ l s w, heap w !! l = Some (OStep s) →
     match f s with
     | Ok s' => body l w = (Ok tt, put l s' w)
     | Raise e => fst (body l w) = Raise e
     end) →
  ∀ ls ss w, NoDup ls → steps_at (heap w) ls ss →
    match map_r f ss with
    | Ok ss' =>
        ∃ h', for_each ls body w = (Ok tt, with_heap h' w) ∧
              steps_at h' ls ss' ∧
              (∀ l', l' ∉ ls → h' !! l' = heap w !! l') ∧
              length h' = length (heap w)
    | Raise e => fst (for_each ls body w) = Raise e
    end.
Proof.
  intros Hbody ls ss w Hnd Hs. revert w Hnd Hs.
  revert ss. induction ls as [|l ls IH]; intros ss w Hnd Hs.
  { apply Forall2_nil_inv_l in Hs as ->. simpl.
    exists (heap w). split; [by destruct w|]. split; [constructor|done]. }
  apply Forall2_cons_inv_l in Hs as (s & ss' & Hl & Hs & ->).
  apply NoDup_cons in Hnd as [Hnotin Hnd].
  cbn [map_r for_each]. specialize (Hbody l s w Hl).
  destruct (f s) as [s1|e]; simpl.
  2:{ unfold bind. destruct (body l w) as [[[]|e'] w1]; simpl in *; congruence. }
  rewrite (bind_ok _ _ _ _ _ Hbody).
  assert (steps_at (heap (put l s1 w)) ls ss') as Hs1.
  { eapply steps_at_ext; [|exact Hs]. intros l' Hl'.
    apply put_lookup_ne. intros ->. done. }
  specialize (IH ss' (put l s1 w) Hnd Hs1).
  destruct (map_r f ss') as [ss1|e]; simpl; [|done].
  destruct IH as (h' & Hrun & Hs' & Hframe & Hlen).
  exists h'. repeat split.
  - by rewrite Hrun.
  - constructor; [|done]. rewrite Hframe by done. by eapply put_lookup.
  - intros l' Hl'. apply not_elem_of_cons in Hl' as [Hne Hl'].
    rewrite Hframe by done. by apply put_lookup_ne.
  - rewrite Hlen. unfold put. simpl. by rewrite length_insert.
Qed.

(** Copying the step dicts of a list: new objects, appended in order. *)
Lemma copy_steps_run bl ss w :
  steps_at (heap w) bl ss →
  map_m (λ l, let* s := read_step l in alloc (OStep s)) bl w
  = (Ok (seq (length (heap w)) (length ss)),
     with_heap (heap w ++ map OStep ss) w).
Proof.
  intros Hs. revert w Hs. revert ss.
  induction bl as [|l bl IH]; intros ss w Hs.
  { apply Forall2_nil_inv_l in Hs as ->. simpl. unfold ret.
    rewrite app_nil_r. by destruct w. }
  apply Forall2_cons_inv_l in Hs as (s & ss' & Hl & Hs & ->).
  cbn [map_m].
  set (w1 := with_heap (heap w ++ [OStep s]) w).
  assert ((let* s := read_step l in alloc (OStep s)) w
          = (Ok (length (heap w)), w1)) as Hone
    by (by rewrite (bind_read_step _ _ _ _ Hl)).
  rewrite (bind_ok _ _ _ _ _ Hone).
  assert (steps_at (heap w1) bl ss') as Hs1.
  { eapply Forall2_impl; [exact Hs|]. intros l' s' Hl'. simpl.
    by apply lookup_app_l_Some. }
  rewrite (bind_ok _ _ _ _ _ (IH ss' w1 Hs1)). unfold ret. simpl.
  rewrite length_app. simpl. rewrite Nat.add_1_r.
  f_equal. unfold with_heap. simpl. by rewrite <- app_assoc.
Qed.

Lemma deep_copy_run base bl ss w :
  heap w !! base = Some (OList bl) → steps_at (heap w) bl ss →
  deep_copy base w
  = (Ok (length (heap w) + length ss),
     with_heap (heap w ++ map OStep ss ++
                [OList (seq (length (heap w)) (length ss))]) w).
Proof.
  intros Hb Hs. unfold deep_copy.
  rewrite (bind_ok _ _ _ _ _ (read_list_run _ _ _ Hb)).
  rewrite (bind_ok _ _ _ _ _ (copy_steps_run _ _ _ Hs)).
  unfold alloc, with_heap. simpl.
  rewrite length_app, length_map. by rewrite <- app_assoc.
Qed.

(** The heap after a deep copy: the copies and their list. *)
Lemma copied_lookup_list (h : list obj) ss :
  (h ++ map OStep ss ++ [OList (seq (length h) (length ss))])
    !! (length h + length ss)
  = Some (OList (seq (length h) (length ss))).
Proof.
  rewrite app_assoc.
  rewrite lookup_app_r by (rewrite length_app, length_map; lia).
  rewrite length_app, length_map.
  by replace (length h + length ss - (length h + length ss)) with 0 by lia.
Qed.

Lemma copied_steps_at (h : list obj) ss tl :
  steps_at (h ++ map OStep ss ++ tl) (seq (length h) (length ss)) ss.
Proof.
  unfold steps_at. apply Forall2_lookup. intros i.
  destruct (decide (i < length ss)) as [Hi|Hi].
  - rewrite lookup_seq_lt by done.
    destruct (lookup_lt_is_Some_2 ss i Hi) as [s Hs]. rewrite Hs.
    constructor. rewrite lookup_app_r by lia.
    replace (length h + i - length h) with i by lia.
    rewrite lookup_app_l by (rewrite length_map; lia).
    by rewrite list_lookup_fmap, Hs.
  - rewrite lookup_seq_ge by lia.
    rewrite lookup_ge_None_2 by lia. constructor.
Qed.

Section generator_runs.

Context {Patient : Type} (tv : option (Step → list string)).

Lemma not_elem_of_seq_lt l n k : l < n → l ∉ seq n k.
Proof. intros H Hin. apply elem_of_seq in Hin. lia. Qed.

(** Customization under a well-formed base list: the copies, customized. *)
Lemma customize_run base d bl ss w :
  heap w !! base = Some (OList bl) → steps_at (heap w) bl ss →
  let n := length (heap w) in
  let k := length ss in
  (∀ l, l < n →
     heap (snd (_customize_steps_for_difficulty tv base d w)) !! l
     = heap w !! l) ∧
  match map_r (customize_pure tv d) ss with
  | Ok ss1 =>
      ∃ h', _customize_steps_for_difficulty tv base d w
            = (Ok (n + k), with_heap h' w) ∧
            h' !! (n + k) = Some (OList (seq n k)) ∧
            steps_at h' (seq n k) ss1
  | Raise e => fst (_customize_steps_for_difficulty tv base d w) = Raise e
  end.
Proof.
  intros Hb Hs n k. unfold _customize_steps_for_difficulty.
  rewrite (bind_ok _ _ _ _ _ (deep_copy_run _ _ _ _ Hb Hs)).
  fold n k.
  set (h1 := heap w ++ map OStep ss ++ [OList (seq n k)]).
  assert (h1 !! (n + k) = Some (OList (seq n k))) as Hlist
    by apply copied_lookup_list.
  assert (steps_at h1 (seq n k) ss) as Hs1 by apply copied_steps_at.
  rewrite (bind_ok _ _ _ _ _ (read_list_run _ _ (with_heap h1 w) Hlist)).
  assert (∀ l, l < n → h1 !! l = heap w !! l) as Hold.
  { intros l Hl. unfold h1. by rewrite lookup_app_l. }
  split.
  { intros l Hl. rewrite <- Hold by done.
    pose proof (for_each_frame (seq n k) (customize_step tv d)
                  (with_heap h1 w) l (only_at_customize_step tv d)
                  (not_elem_of_seq_lt _ _ _ Hl)) as Hf.
    unfold bind.
    destruct (for_each (seq n k) (customize_step tv d) (with_heap h1 w))
      as [[[]|e] w2]; simpl in *; exact Hf. }
  pose proof (for_each_sim _ _ (customize_step_sim tv d) (seq n k) ss
                (with_heap h1 w) (NoDup_seq _ _) Hs1) as Hsim.
  destruct (map_r (customize_pure tv d) ss) as [ss1|e].
  - destruct Hsim as (h' & Hrun & Hs' & Hframe & Hlen).
    exists h'. rewrite (bind_ok _ _ _ _ _ Hrun). split; [done|].
    split; [|done]. rewrite Hframe; [done|].
    intros Hin. apply elem_of_seq in Hin. lia.
  - unfold bind.
    destruct (for_each (seq n k) (customize_step tv d) (with_heap h1 w))
      as [[[]|e'] w2]; simpl in *; congruence.
Qed.

Lemma enhance_run objs steps ls ss w :
  heap w !! steps = Some (OList ls) → NoDup ls → steps_at (heap w) ls ss →
  ∃ h', _enhance_steps_for_objectives steps objs w = (Ok steps, with_heap h' w) ∧
        steps_at h' ls (map (enhance_pure objs) ss) ∧
        (∀ l', l' ∉ ls → h' !! l' = heap w !! l').
Proof.
  intros Hl Hnd Hs. unfold _enhance_steps_for_objectives.
  rewrite (bind_ok _ _ _ _ _ (read_list_run _ _ _ Hl)).
  pose proof (for_each_sim (enhance_step objs) (λ s, Ok (enhance_pure objs s)))
    as Hsim.
  specialize (Hsim (λ l s w H, enhance_step_sim objs l s w H) ls ss w Hnd Hs).
  rewrite map_r_ok in Hsim.
  destruct Hsim as (h' & Hrun & Hs' & Hframe & _).
  exists h'. by rewrite (bind_ok _ _ _ _ _ Hrun).
Qed.

Lemma reads_only_random_choice {A} (l : list A) : reads_only (random_choice l).
Proof.
  destruct l; [apply reads_only_lift|].
  apply reads_only_bind; [apply reads_only_draw|intros; apply reads_only_lift].
Qed.

Ltac reads_only_tac :=
  repeat first
    [ apply reads_only_ret | apply reads_only_lift | apply reads_only_draw
    | apply reads_only_read_step | apply reads_only_read_list
    | apply reads_only_random_choice
    | apply reads_only_bind; [|intros ?]
    | match goal with |- reads_only (if ?b then _ else _) => destruct b end ].

Lemma reads_only_generate_complications self p d :
  reads_only (_generate_complications self p d).
Proof.
  unfold _generate_complications, random_random, random_randint.
  reads_only_tac.
Qed.

Lemma reads_only_calculate_duration steps d :
  reads_only (_calculate_duration steps d).
Proof.
  unfold _calculate_duration.
  apply reads_only_bind; [apply reads_only_read_list|intros ls].
  apply reads_only_bind; [|intros; apply reads_only_ret].
  apply reads_only_fold_m. intros b x. unfold add_step_average.
  reads_only_tac.
Qed.

(** What a successful [generate_scenario] leaves behind, and what any call
    leaves alone: every object that existed before. *)
Lemma generate_scenario_spec self p d (pat : Patient) objs en
    template bl ss w :
  procedure_templates self !! p = Some template →
  heap w !! t_steps template = Some (OList bl) →
  steps_at (heap w) bl ss →
  let run := generate_scenario tv self p d pat objs en w in
  let n := length (heap w) in
  let k := length ss in
  (∀ l, l < n → heap (snd run) !! l = heap w !! l) ∧
  ∀ sc, fst run = Ok sc →
    ∃ ss1, map_r (customize_pure tv d) ss = Ok ss1 ∧
           steps sc = n + k ∧
           heap (snd run) !! (n + k) = Some (OList (seq n k)) ∧
           steps_at (heap (snd run)) (seq n k) (map (enhance_pure objs) ss1) ∧
           name (procedure_info sc) = t_name template.
Proof.
  intros Ht Hb Hs run n k.
  assert (run = generate_scenario tv self p d pat objs en w) as Hgen
    by reflexivity.
  clearbody run. unfold generate_scenario in Hgen. rewrite Ht in Hgen.
  destruct (customize_run (t_steps template) d bl ss w Hb Hs) as [Hframe Hc].
  fold n k in Hframe, Hc.
  destruct (map_r (customize_pure tv d) ss) as [ss1|e].
  2:{ destruct (_customize_steps_for_difficulty tv (t_steps template) d w)
        as [[new|e'] w1] eqn:E; simpl in *; [congruence|].
      rewrite (bind_raise _ _ _ _ _ E) in Hgen. subst run. simpl.
      split; [done|]. intros sc [=]. }
  destruct Hc as (h1 & Hrun & Hlist & Hs1).
  rewrite (bind_ok _ _ _ _ _ Hrun) in Hgen.
  rewrite Hrun in Hframe. simpl in Hframe.
  destruct (enhance_run objs (n + k) (seq n k) ss1 (with_heap h1 w)
              Hlist (NoDup_seq _ _) Hs1) as (h2 & Hrun2 & Hs2 & Hframe2).
  rewrite (bind_ok _ _ _ _ _ Hrun2) in Hgen.
  assert (∀ l, l < n → h2 !! l = heap w !! l) as Hold.
  { intros l Hl. rewrite Hframe2 by by apply not_elem_of_seq_lt.
    by apply Hframe. }
  assert (h2 !! (n + k) = Some (OList (seq n k))) as Hlist2.
  { rewrite Hframe2; [done|]. intros Hin. apply elem_of_seq in Hin. lia. }
  set (comp := if en then _generate_complications self p d else ret [])
    in Hgen.
  assert (reads_only comp) as Hcomp.
  { unfold comp. destruct en;
      [apply reads_only_generate_complications|apply reads_only_ret]. }
  specialize (Hcomp (with_heap h2 w)).
  destruct (comp (with_heap h2 w)) as [[cs|e] w3] eqn:E3; simpl in Hcomp.
  2:{ rewrite (bind_raise _ _ _ _ _ E3) in Hgen. subst run. simpl.
      rewrite Hcomp. split; [done|]. intros sc [=]. }
  rewrite (bind_ok _ _ _ _ _ E3) in Hgen.
  pose proof (reads_only_calculate_duration (n + k) d w3) as Hcalc.
  destruct (_calculate_duration (n + k) d w3) as [[total|e] w4] eqn:E4;
    simpl in Hcalc.
  2:{ rewrite (bind_raise _ _ _ _ _ E4) in Hgen. subst run. simpl.
      rewrite Hcalc, Hcomp. split; [done|]. intros sc [=]. }
  rewrite (bind_ok _ _ _ _ _ E4) in Hgen. subst run. unfold ret. simpl.
  rewrite Hcalc, Hcomp. split; [done|]. intros sc [= <-]. simpl.
  exists ss1. done.
Qed.

End generator_runs.

(** ** The assessment engine *)

Lemma index_in_range {A} (l : list A) (i : Z) :
  (0 ≤ i < Z.of_nat (length l))%Z →
  ∃ x, l !! Z.to_nat i = Some x ∧ Py.index l i = Ok x.
Proof.
  intros Hi. unfold Py.index.
  destruct (Z.ltb_spec i 0) as [?|_]; [lia|].
  destruct (Z.leb_spec 0 i) as [_|?]; [|lia].
  destruct (Z.ltb_spec i (Z.of_nat (length l))) as [_|?]; [|lia].
  simpl. destruct (lookup_lt_is_Some_2 l (Z.to_nat i)) as [x Hx]; [lia|].
  exists x. by rewrite Hx.
Qed.

Lemma index_from_end {A} (l : list A) (i : Z) :
  (- Z.of_nat (length l) ≤ i < 0)%Z →
  ∃ x, l !! Z.to_nat (Z.of_nat (length l) + i) = Some x ∧ Py.index l i = Ok x.
Proof.
  intros Hi. unfold Py.index.
  destruct (Z.ltb_spec i 0) as [_|?]; [|lia].
  destruct (Z.leb_spec 0 (Z.of_nat (length l) + i)) as [_|?]; [|lia].
  destruct (Z.ltb_spec (Z.of_nat (length l) + i) (Z.of_nat (length l)))
    as [_|?]; [|lia].
  simpl.
  destruct (lookup_lt_is_Some_2 l (Z.to_nat (Z.of_nat (length l) + i)))
    as [x Hx]; [lia|].
  exists x. by rewrite Hx.
Qed.

Lemma index_out_of_range {A} (l : list A) (i : Z) :
  (Z.of_nat (length l) ≤ i ∨ i < - Z.of_nat (length l))%Z →
  Py.index l i = Raise IndexError.
Proof.
  intros Hi. unfold Py.index.
  destruct (Z.ltb_spec i 0) as [?|?].
  - destruct (Z.leb_spec 0 (Z.of_nat (length l) + i)) as [?|_]; [lia|done].
  - destruct (Z.leb_spec 0 i) as [_|?]; [|lia].
    destruct (Z.ltb_spec i (Z.of_nat (length l))) as [?|_]; [lia|done].
Qed.

(** A step number from 1 to the step count resolves the step at that
    position. *)
Lemma assess_step_in_range (sd : SimulationData (list Step))
    (n : Z) (acts : list Action) (t : Z) (w : world) :
  (1 ≤ n ≤ Z.of_nat (length (steps (simulation sd))))%Z →
  ∃ s, steps (simulation sd) !! Z.to_nat (n - 1) = Some s ∧
       assess_step sd n acts t w
       = assess_current_step
           (procedure_key (name (procedure_info (simulation sd))))
           s n acts t w.
Proof.
  intros Hn. unfold assess_step.
  destruct (index_in_range (steps (simulation sd)) (n - 1))
    as (s & Hs & Hi); [lia|].
  exists s. split; [done|]. unfold bind, lift. by rewrite Hi.
Qed.

(** The step number only ends up in the assessment: the outcome for [n] is
    the outcome for [m], renumbered. *)
Lemma assess_current_step_renumbered key s n m acts t w :
  assess_current_step key s n acts t w
  = renumbered n (assess_current_step key s m acts t w).
Proof.
  unfold assess_current_step, renumbered, bind, lift, ret.
  destruct (_assess_non_technical_skills s acts t) as [nt|e]; [|done].
  by destruct (_generate_step_feedback _ _ _ _ _ w) as [[fb|e] w'].
Qed.

(** C1 (as amended).  [assess_step] raises [IndexError] when [step_number]
    is above the step count or at most minus the step count; for a
    [step_number] from 1 to the step count it assesses the step at that
    1-indexed position; and for a [step_number] from [1 - count] to [0] there
    is no range failure: Python's negative index resolves the step at position
    [count + step_number], counted from the end, and the call returns or
    raises exactly as it does for the step number [count + step_number], the
    assessment carrying the step number that was passed. *)
Theorem assess_step_resolution (sd : SimulationData (list Step))
    (n : Z) (acts : list Action) (t : Z) (w : world) :
  let ss := steps (simulation sd) in
  let count := Z.of_nat (length ss) in
  let key := procedure_key (name (procedure_info (simulation sd))) in
  ((count < n ∨ n ≤ - count)%Z →
     assess_step sd n acts t w = (Raise IndexError, w)) ∧
  ((1 ≤ n ≤ count)%Z →
     ∃ s, ss !! Z.to_nat (n - 1) = Some s ∧
          assess_step sd n acts t w = assess_current_step key s n acts t w) ∧
  ((1 - count ≤ n ≤ 0)%Z →
     ∃ s, ss !! Z.to_nat (count + n - 1) = Some s ∧
          assess_step sd n acts t w = assess_current_step key s n acts t w ∧
          assess_step sd n acts t w
          = renumbered n (assess_step sd (count + n) acts t w)).
Proof.
  intros ss count key. repeat split.
  - intros Hn. unfold assess_step, bind, lift. fold ss.
    rewrite index_out_of_range; [done|]. fold count. lia.
  - intros Hn. unfold key, ss. by apply assess_step_in_range.
  - intros Hn.
    destruct (index_from_end ss (n - 1)) as (s & Hs & Hi); [fold count; lia|].
    assert (ss !! Z.to_nat (count + n - 1) = Some s) as Hlook.
    { rewrite <- Hs. f_equal. fold count. lia. }
    assert (assess_step sd n acts t w
            = assess_current_step key s n acts t w) as Hrun.
    { unfold assess_step, bind, lift. fold ss. by rewrite Hi. }
    exists s. split; [exact Hlook|]. split; [exact Hrun|].
    rewrite Hrun.
    destruct (assess_step_in_range sd (count + n) acts t w)
      as (s' & Hlook' & ->); [fold ss; fold count; lia|].
    fold ss in Hlook'. rewrite Hlook in Hlook'. injection Hlook' as <-.
    apply assess_current_step_renumbered.
Qed.

Lemma assess_step_resolution_witness :
  ∃ s, Catalog.cholecystectomy_steps !! 1 = Some s ∧
       assess_step cholecystectomy_document 2 [] 700 (start [])
       = assess_current_step "laparoscopic_cholecystectomy" s 2 [] 700
           (start []).
Proof.
  destruct (assess_step_resolution cholecystectomy_document 2 [] 700
              (start [])) as (_ & H & _).
  apply H. simpl. lia.
Defined.

(** C1, the counterexample: step number 0 is below 1, and [assess_step]
    returns the assessment of the last of the six steps. *)
Lemma assess_step_zero_returns :
  ∃ s a, Catalog.cholecystectomy_steps !! 5 = Some s ∧
         title s = "Specimen Removal" ∧
         fst (assess_step cholecystectomy_document 0 [] 700 (start [])) = Ok a ∧
         fst (assess_current_step "laparoscopic_cholecystectomy" s 0 [] 700
                (start [])) = Ok a ∧
         sa_step_number a = 0%Z.
Proof.
  eexists _, _. split; [reflexivity|]. split; [reflexivity|].
  split; [vm_compute; reflexivity|]. split; vm_compute; reflexivity.
Qed.

(** C2, at the failing input: on step 2 of the cholecystectomy scenario, one
    accurate trocar-placement action done in 300 seconds gets a technical
    score of 2000 and an overall score of 1420.1, both above 100. *)
Theorem technical_score_exceeds_100 :
  ∃ a, fst (assess_step cholecystectomy_document 2
              [skill_action "trocar_placement" 0.9] 300 (start [])) = Ok a ∧
       technical_score a == 2000 ∧ non_technical_score a == 67 ∧
       overall_score a == 1420.1 ∧
       ¬ (technical_score a <= 100)%Q ∧ ¬ (overall_score a <= 100)%Q.
Proof.
  eexists. split; [vm_compute; reflexivity|].
  repeat split; try (vm_compute; reflexivity);
    intros H; vm_compute in H; by apply H.
Qed.

(** C9, at the failing input: whatever the simulation and the step, the
    call returns, and it returns the empty dict exactly when the draw picks
    the third name, ["equipment_malfunction"], which has no scenario. *)
Theorem dynamic_complication_can_be_empty
    (sd : SimulationData loc) (current_step : Z) (w : world) :
  ∃ r, fst (generate_dynamic_complication sd current_step w) = Ok r ∧
       (r = None ↔ N.to_nat (tape w (cursor w)) `mod` 3 = 2).
Proof.
  unfold generate_dynamic_complication, random_choice, bind, draw, lift, ret.
  cbn [fst snd tape cursor heap]. unfold Py.choice.
  cbn [length].
  pose proof (Nat.mod_upper_bound (N.to_nat (tape w (cursor w))) 3) as Hb.
  destruct (N.to_nat (tape w (cursor w)) `mod` 3) as [|[|[|k]]]; [..|lia];
    simpl; eexists; (split; [reflexivity|]); vm_compute; split; intros; done.
Qed.

Lemma dynamic_complication_empty_example :
  fst (generate_dynamic_complication knee_simulation 3 (start [2%N]))
  = Ok None.
Proof. reflexivity. Qed.

(** The mean against a constant, with the division cleared. *)
Lemma mean_scaled (l : list Q) (c : Q) :
  l ≠ [] →
  (c <= mean l ↔ c * inject_Z (Z.of_nat (length l)) <= sum_Q l)%Q.
Proof.
  intros Hl. unfold mean.
  assert (0 < inject_Z (Z.of_nat (length l)))%Q as Hn.
  { change 0%Q with (inject_Z 0). rewrite <- Zlt_Qlt.
    destruct l; [done|]. simpl length. lia. }
  split; intros H.
  - apply (Qmult_le_compat_r _ _ (inject_Z (Z.of_nat (length l)))) in H;
      [|lra].
    assert (sum_Q l / inject_Z (Z.of_nat (length l))
            * inject_Z (Z.of_nat (length l)) == sum_Q l)%Q as Heq
      by (field; lra).
    by rewrite Heq in H.
  - by apply Qle_shift_div_l.
Qed.

(** A sum of multiples of 1/1024 between 0 and 10^4. *)
Lemma dyadic_sum (l : list Q) :
  Forall (λ x, (0 <= x <= 10000)%Q ∧ ∃ k : Z, (x == inject_Z k / 1024)%Q) l →
  ∃ K : Z, (0 ≤ K ≤ 10240000 * Z.of_nat (length l))%Z ∧
           (sum_Q l == inject_Z K / 1024)%Q.
Proof.
  unfold sum_Q. intros Hl.
  assert (∀ acc K0, (acc == inject_Z K0 / 1024)%Q →
            ∃ K, (0 ≤ K ≤ 10240000 * Z.of_nat (length l))%Z ∧
                 (foldl Qplus acc l == inject_Z (K0 + K) / 1024)%Q) as H.
  { induction Hl as [|x l [[Hx0 Hx1] [k Hk]] _ IH]; intros acc K0 Hacc.
    - exists 0%Z. split; [simpl; lia|]. cbn [foldl]. by rewrite Z.add_0_r.
    - cbn [foldl].
      destruct (IH (acc + x)%Q (K0 + k)%Z) as (K & HK & Hsum).
      { rewrite Hacc, Hk, inject_Z_plus. field. }
      assert (0 <= inject_Z k <= 10240000)%Q as [Hk0 Hk1].
      { assert (inject_Z k == x * 1024)%Q as -> by (rewrite Hk; field).
        lra. }
      change 0%Q with (inject_Z 0) in Hk0.
      change 10240000%Q with (inject_Z 10240000) in Hk1.
      rewrite <- Zle_Qle in Hk0, Hk1.
      exists (k + K)%Z. split; [cbn [length]; lia|].
      by rewrite Z.add_assoc. }
  destruct (H 0%Q 0%Z) as (K & HK & Hsum); [reflexivity|].
  exists K. split; [exact HK|]. by rewrite Hsum, Z.add_0_l.
Qed.

(** C8.  With no step assessment the result is the error marker.  With a
    history of at most 1000 assessments whose overall scores lie between 0
    and 10^4 (and whose times fit a float) the result is a report, and its two
    gates compare the average of the overall scores, their sum over their
    number, with 75 and with 85: an average of 75 (85) or more opens the gate
    and an average below it closes it.  This holds with a margin of a
    millionth on either side for all such scores, the margin covering the
    rounding of the float sum and quotient, and without a margin when the
    scores are multiples of 1/1024: every partial sum of such scores is a
    binary64 number, so the float sum is exact. *)
Theorem final_assessment_gates (sd : SimulationData (list Step)) :
  (step_assessments sd = [] →
     generate_final_assessment sd = ErrorMarker "No step assessments found") ∧
  (step_assessments sd ≠ [] →
   plain_history sd →
     ∃ r, generate_final_assessment sd = Report r ∧
          let scores := map overall_score (step_assessments sd) in
          let n := inject_Z (Z.of_nat (length scores)) in
          let margin := (1 # 1000000)%Q in
          (((75 + margin) * n <= sum_Q scores)%Q →
             certification_eligible r = true) ∧
          ((sum_Q scores <= (75 - margin) * n)%Q →
             certification_eligible r = false) ∧
          (((85 + margin) * n <= sum_Q scores)%Q →
             next_difficulty_ready r = true) ∧
          ((sum_Q scores <= (85 - margin) * n)%Q →
             next_difficulty_ready r = false) ∧
          (Forall (λ x, ∃ k : Z, (x == inject_Z k / 1024)%Q) scores →
             (certification_eligible r = true ↔ (75 * n <= sum_Q scores)%Q) ∧
             (next_difficulty_ready r = true ↔ (85 * n <= sum_Q scores)%Q) ∧
             (∀ k, is_binary64 (sum_Q (take k scores))))).
Proof.
  unfold generate_final_assessment. split.
  - by intros ->.
  - intros Hne (Hlen & Hall & _).
    assert (Forall (λ x, ∃ k : Z, (x == inject_Z k / 1024)%Q)
                   (map overall_score (step_assessments sd)) →
            ∀ k, is_binary64
                   (sum_Q (take k (map overall_score (step_assessments sd)))))
      as Hexact.
    { intros Hdy k.
      destruct (dyadic_sum
                  (take k (map overall_score (step_assessments sd))))
        as (K & HK & Hsum).
      { apply Forall_take. rewrite Forall_fmap.
        rewrite Forall_fmap in Hdy.
        rewrite Forall_forall in Hall. rewrite Forall_forall in Hdy.
        apply Forall_forall. intros a' Ha'. unfold compose. split.
        - apply (Hall a' Ha').
        - apply (Hdy a' Ha'). }
      rewrite length_take, length_map in HK.
      exists K, (-10)%Z. split; [lia|]. split; [lia|]. exact Hsum. }
    revert Hexact.
    destruct (step_assessments sd) as [|a l]; [done|].
    remember (a :: l) as history eqn:Eh. intros Hexact.
    eexists. split; [reflexivity|]. cbv zeta.
    cbn [certification_eligible next_difficulty_ready].
    assert (map overall_score history ≠ []) as Hscores by (by subst).
    pose proof (mean_scaled _ 75 Hscores) as H75.
    pose proof (mean_scaled _ 85 Hscores) as H85.
    assert (0 < inject_Z (Z.of_nat (length (map overall_score history))))%Q
      as Hn.
    { change 0%Q with (inject_Z 0). rewrite <- Zlt_Qlt. subst.
      simpl length. lia. }
    revert H75 H85 Hn.
    generalize (mean (map overall_score history)).
    generalize (sum_Q (map overall_score history)).
    generalize (inject_Z (Z.of_nat (length (map overall_score history)))).
    intros n total avg H75 H85 Hn. unfold Qgeb.
    assert (∀ c, Qle_bool c avg = true ↔ (c <= avg)%Q) as Hle
      by (intros c; apply Qle_bool_iff).
    assert (∀ c, Qle_bool c avg = false ↔ ¬ (c <= avg)%Q) as Hnle.
    { intros c. rewrite <- Hle. by destruct (Qle_bool c avg). }
    rewrite !Hle, !Hnle, H75, H85.
    split; [intros H; lra|]. split; [intros H; lra|].
    split; [intros H; lra|]. split; [intros H; lra|].
    intros Hdy. split; [reflexivity|]. split; [reflexivity|].
    by apply Hexact.
Qed.

Lemma final_assessment_gates_witness :
  ∃ r, generate_final_assessment three_step_history = Report r ∧
       certification_eligible r = true ∧ next_difficulty_ready r = false.
Proof.
  destruct (final_assessment_gates three_step_history) as [_ H].
  destruct H as (r & Hr & Hc & _ & _ & Hn & _).
  - discriminate.
  - split; [simpl; lia|]. split.
    + repeat constructor; (vm_compute; discriminate) ||
        (apply Z.leb_le; vm_compute; reflexivity).
    + apply Z.leb_le. vm_compute. reflexivity.
  - exists r. split; [exact Hr|]. split.
    + apply Hc. vm_compute. discriminate.
    + apply Hn. vm_compute. discriminate.
Defined.

Section communication.

Local Open Scope Q_scope.

Lemma py_min_proper a a' b : a == a' → py_min a b == py_min a' b.
Proof.
  intros H. unfold py_min, Qltb. rewrite <- (Qleb_comp a a' H b b (Qeq_refl b)).
  by destruct (Qle_bool a b).
Qed.

Lemma score_communication_one acc a :
  score_communication acc a == acc + inject_Z (25 * Z.of_nat (criteria_met a)).
Proof.
  unfold score_communication, criteria_met.
  destruct (Qgtb (default 0 (clarity a)) 0.8),
           (Qgtb (default 0 (timing a)) 0.8),
           (Qgtb (default 0 (professionalism a)) 0.8);
    cbv beta iota zeta;
    match goal with
    | |- _ == _ + inject_Z ?z =>
        let v := eval vm_compute in z in change z with v
    end; ring.
Qed.

Lemma score_communication_foldl comms acc :
  foldl score_communication acc comms
  == acc + inject_Z (25 * Z.of_nat (criteria_met_total comms)).
Proof.
  revert acc. induction comms as [|a comms IH]; intros acc.
  - cbn [foldl foldr criteria_met_total]. change (inject_Z (25 * Z.of_nat 0)) with 0.
    symmetry. apply Qplus_0_r.
  - cbn [foldl]. rewrite IH, score_communication_one.
    change (criteria_met_total (a :: comms))
      with (criteria_met a + criteria_met_total comms)%nat.
    rewrite Nat2Z.inj_add, Z.mul_add_distr_l, inject_Z_plus.
    generalize (inject_Z (25 * Z.of_nat (criteria_met a))).
    generalize (inject_Z (25 * Z.of_nat (criteria_met_total comms))).
    intros x y. ring.
Qed.



End communication.

(** ** Durations *)

Lemma index_pair {A} (a b : A) :
  Py.index [a; b] 0 = Ok a ∧ Py.index [a; b] 1 = Ok b.
Proof. split; reflexivity. Qed.

(** Scaling a duration string: both bounds are multiplied as binary64
    numbers and truncated. *)
Lemma extend_duration_string factor lo hi a b :
  scale_bound factor lo = Ok a → scale_bound factor hi = Ok b →
  _extend_duration (duration_string lo hi) factor
  = Ok (Py.str_of_int a +:+ "-" +:+ Py.str_of_int b +:+ " minutes").
Proof.
  unfold scale_bound, _extend_duration. intros Ha Hb.
  rewrite duration_parts_string.
  destruct (index_pair (Py.str_of_N lo) (Py.str_of_N hi)) as [-> ->].
  cbn [result_bind]. rewrite !int_of_str_str_of_N. cbn [result_bind].
  destruct (F64.int_mul (Z.of_N lo) factor) as [x|]; [|done].
  destruct (F64.int_mul (Z.of_N hi) factor) as [y|]; [|done].
  cbn [result_bind] in *. rewrite Ha, Hb. reflexivity.
Qed.

Lemma reduce_duration_extend d factor :
  _reduce_duration d factor = _extend_duration d factor.
Proof. reflexivity. Qed.

(** The duration a customized step ends with. *)
Lemma customize_pure_duration tv d s s1 du :
  duration s = Some du → customize_pure tv d s = Ok s1 →
  ∃ du', customized_duration d du = Ok du' ∧ duration s1 = Some du' ∧
         title s1 = title s ∧ description s1 = description s.
Proof.
  intros Hdu. unfold customize_pure, customized_duration.
  destruct (d =? "beginner")%string.
  { simpl duration. rewrite Hdu. simpl.
    destruct (_extend_duration du (F64.lit 3 2)) as [du'|]; simpl; [|done].
    intros [= <-]. by exists du'. }
  destruct (d =? "intermediate")%string.
  { intros [= <-]. by exists du. }
  destruct (d =? "advanced")%string.
  { destruct tv as [f|]; simpl; [|done]. rewrite Hdu. simpl.
    destruct (_reduce_duration du (F64.lit 4 5)) as [du'|]; simpl; [|done].
    intros [= <-]. by exists du'. }
  destruct (d =? "expert")%string.
  { simpl duration. rewrite Hdu. simpl.
    destruct (_reduce_duration du (F64.lit 7 10)) as [du'|]; simpl; [|done].
    intros [= <-]. by exists du'. }
  intros [= <-]. by exists du.
Qed.

(** Objective enhancement leaves title, description and duration alone. *)
Lemma enhance_pure_keeps objs s :
  title (enhance_pure objs s) = title s ∧
  description (enhance_pure objs s) = description s ∧
  duration (enhance_pure objs s) = duration s.
Proof.
  unfold enhance_pure.
  assert (∀ s0, let r := foldl (λ s objective,
             if Py.contains (Py.lower objective) (Py.lower (title s)) ||
                Py.contains (Py.lower objective) (Py.lower (description s))
             then set_assessment_weight 2
                    (set_learning_focus
                       (default [] (learning_focus s) ++ [objective]) s)
             else s) s0 objs in
           title r = title s0 ∧ description r = description s0 ∧
           duration r = duration s0) as H.
  { induction objs as [|o objs IH]; intros s0; [done|].
    cbn [foldl].
    destruct (Py.contains (Py.lower o) (Py.lower (title s0)) ||
              Py.contains (Py.lower o) (Py.lower (description s0)));
      [|apply IH].
    match goal with |- context [foldl _ ?x objs] => apply (IH x) end. }
  apply (H (set_learning_focus [] s)).
Qed.

(** The examples of the specification, on the helpers and on the step
    transform. *)
Lemma duration_examples :
  _extend_duration "10-15 minutes" (F64.lit 3 2) = Ok "15-22 minutes" ∧
  _reduce_duration "10-15 minutes" (F64.lit 4 5) = Ok "8-12 minutes" ∧
  _reduce_duration "10-15 minutes" (F64.lit 7 10) = Ok "7-10 minutes" ∧
  _reduce_duration "90-100 minutes" (F64.lit 7 10) = Ok "62-70 minutes".
Proof. repeat split; vm_compute; reflexivity. Qed.

Section calculate.

Local Open Scope Q_scope.

Lemma sum_Z_pair a b : sum_Z [a; b] = (a + b)%Z.
Proof. unfold sum_Z. simpl. lia. Qed.

Lemma add_step_average_run total l s lo hi w :
  heap w !! l = Some (OStep s) →
  duration s = Some (duration_string lo hi) →
  add_step_average total l w
  = (Ok (total + inject_Z (Z.of_N lo + Z.of_N hi) / 2), w).
Proof.
  intros Hl Hd. unfold add_step_average.
  rewrite (bind_read_step _ _ _ _ Hl). rewrite Hd. simpl subscript.
  rewrite bind_lift. rewrite duration_parts_string. cbn [map_r].
  rewrite !int_of_str_str_of_N. cbn [result_bind]. rewrite bind_lift.
  by rewrite sum_Z_pair.
Qed.

Lemma total_duration_run ls : ∀ ss bounds total w,
  steps_at (heap w) ls ss →
  Forall2 (λ s b, duration s = Some (duration_string (fst b) (snd b)))
          ss bounds →
  fold_m add_step_average total ls w
  = (Ok (foldl (λ total b,
                  total + inject_Z (Z.of_N (fst b) + Z.of_N (snd b)) / 2)
               total bounds), w).
Proof.
  induction ls as [|l ls IH]; intros ss bounds total w Hs Hb.
  { apply Forall2_nil_inv_l in Hs as ->.
    apply Forall2_nil_inv_l in Hb as ->. reflexivity. }
  apply Forall2_cons_inv_l in Hs as (s & ss' & Hl & Hs & ->).
  apply Forall2_cons_inv_l in Hb as ([lo hi] & bounds' & Hd & Hb & ->).
  cbn [fold_m foldl].
  rewrite (bind_ok _ _ _ _ _ (add_step_average_run total l s lo hi w Hl Hd)).
  by apply (IH ss').
Qed.

Lemma midpoint_sum_from total bounds :
  0 <= total →
  0 <= foldl (λ total b,
                total + inject_Z (Z.of_N (fst b) + Z.of_N (snd b)) / 2)
             total bounds.
Proof.
  revert total. induction bounds as [|[lo hi] bounds IH]; intros total Ht;
    [done|].
  cbn [foldl]. apply IH. simpl fst. simpl snd.
  rewrite <- (Qplus_0_r 0). apply Qplus_le_compat; [done|].
  apply Qle_shift_div_l; [reflexivity|].
  rewrite Qmult_0_l. change 0 with (inject_Z 0). rewrite <- Zle_Qle. lia.
Qed.

Lemma midpoint_sum_nonneg bounds : 0 <= midpoint_sum bounds.
Proof. apply midpoint_sum_from. apply Qle_refl. Qed.

Lemma Q_to_int_floor q : 0 <= q → Q_to_int q = Qfloor q.
Proof.
  destruct q as [n d]. unfold Qle, Q_to_int, Qfloor. simpl.
  intros Hn. apply Z.quot_div_nonneg; lia.
Qed.

(** Twice the sum of the midpoints is a whole number. *)
Lemma midpoint_sum_halves bounds :
  ∃ k : Z, midpoint_sum bounds == inject_Z k / 2.
Proof.
  unfold midpoint_sum.
  assert (∀ total k0, total == inject_Z k0 / 2 →
            ∃ k, foldl (λ total b,
                   total + inject_Z (Z.of_N (fst b) + Z.of_N (snd b)) / 2)
                   total bounds == inject_Z k / 2) as H.
  { induction bounds as [|[lo hi] bounds IH]; intros total k0 Hk.
    - by exists k0.
    - cbn [foldl]. apply (IH _ (k0 + (Z.of_N lo + Z.of_N hi))%Z).
      rewrite Hk. simpl fst. simpl snd. rewrite !inject_Z_plus.
      generalize (inject_Z (Z.of_N lo)), (inject_Z (Z.of_N hi)),
                 (inject_Z k0).
      intros x y z. field. }
  apply (H 0 0%Z). reflexivity.
Qed.

Lemma floor_of_half (k : Z) :
  inject_Z (Qfloor (inject_Z k / 2)) <= inject_Z k / 2 ∧
  inject_Z k / 2 - inject_Z (Qfloor (inject_Z k / 2)) <= 1 # 2.
Proof.
  split; [apply Qfloor_le|].
  assert (Qfloor (inject_Z k / 2) = (k / 2)%Z) as ->.
  { assert (inject_Z k / 2 == k # 2) as -> by (unfold Qeq; simpl; lia).
    reflexivity. }
  unfold Qle, Qminus, Qplus, Qopp, Qdiv, Qmult, Qinv, inject_Z. simpl.
  pose proof (Z.div_mod k 2). pose proof (Z.mod_pos_bound k 2). lia.
Qed.

(** Twice the sum of the midpoints is the sum of all the bounds. *)
Lemma midpoint_sum_total bounds :
  (0 ≤ bounds_total bounds)%Z ∧
  midpoint_sum bounds == inject_Z (bounds_total bounds) / 2.
Proof.
  unfold midpoint_sum, bounds_total.
  assert (∀ total k0, total == inject_Z k0 / 2 →
            foldl (λ total b,
                     total + inject_Z (Z.of_N (fst b) + Z.of_N (snd b)) / 2)
                  total bounds
            == inject_Z (k0 + sum_Z (map (λ b, Z.of_N b.1 + Z.of_N b.2)%Z
                                         bounds)) / 2) as H.
  { induction bounds as [|[lo hi] bounds IH]; intros total k0 Hk.
    - cbn [foldl map sum_Z foldr]. by rewrite Z.add_0_r.
    - cbn [foldl map]. unfold sum_Z. cbn [foldr]. fold (sum_Z
        (map (λ b : N * N, (Z.of_N b.1 + Z.of_N b.2)%Z) bounds)).
      rewrite (IH _ (k0 + (Z.of_N lo + Z.of_N hi))%Z).
      + simpl fst. simpl snd. by rewrite !Z.add_assoc.
      + rewrite Hk. simpl fst. simpl snd. rewrite !inject_Z_plus. field. }
  split.
  - clear H. induction bounds as [|[lo hi] bounds IH]; [done|].
    cbn [map]. unfold sum_Z in *. cbn [foldr]. simpl fst. simpl snd. lia.
  - rewrite (H 0 0%Z); [by rewrite Z.add_0_l|reflexivity].
Qed.

Lemma bounds_total_elem bounds b :
  b ∈ bounds → (Z.of_N (fst b) + Z.of_N (snd b) ≤ bounds_total bounds)%Z.
Proof.
  unfold bounds_total, sum_Z.
  induction bounds as [|[lo hi] bounds IH]; [by intros ?%elem_of_nil|].
  pose proof (proj1 (midpoint_sum_total bounds)) as H0.
  unfold bounds_total, sum_Z in H0.
  cbn [map foldr]. simpl fst. simpl snd.
  intros [->|Hin]%elem_of_cons; [simpl; lia|].
  specialize (IH Hin). lia.
Qed.

Lemma bounds_total_take k bounds :
  (0 ≤ bounds_total (take k bounds) ≤ bounds_total bounds)%Z.
Proof.
  split; [apply midpoint_sum_total|].
  revert k. induction bounds as [|[lo hi] bounds IH]; intros [|k];
    cbn [take]; try done.
  - apply midpoint_sum_total.
  - unfold bounds_total, sum_Z in *. cbn [map foldr].
    specialize (IH k). simpl fst. simpl snd. lia.
Qed.

(** Half of a natural number below 2^53 is a binary64 number. *)
Lemma half_is_binary64 (k : Z) :
  (0 ≤ k < 2 ^ 53)%Z → is_binary64 (inject_Z k / 2).
Proof.
  intros Hk. exists k, (-1)%Z. split; [lia|]. split; [lia|]. reflexivity.
Qed.

End calculate.

(** C7 (as amended).  For steps whose durations are of the form
    ["lo-hi minutes"], with bounds that add up to less than 2^53,
    [_calculate_duration] returns the sum of the midpoints truncated to an
    integer: never above the sum, at most one half below it, so a sum that
    ends in one half goes down.  Within that limit every midpoint and every
    total that the loop holds is a binary64 number, so the float arithmetic
    of the code is exact. *)
Theorem estimated_duration_truncates (steps : loc) (difficulty : string)
    (ls : list loc) (ss : list Step) (bounds : list (N * N)) (w : world) :
  heap w !! steps = Some (OList ls) →
  steps_at (heap w) ls ss →
  Forall2 (λ s b, duration s = Some (duration_string (fst b) (snd b)))
          ss bounds →
  (bounds_total bounds < 2 ^ 53)%Z →
  _calculate_duration steps difficulty w
  = (Ok (Qfloor (midpoint_sum bounds)), w) ∧
  (inject_Z (Qfloor (midpoint_sum bounds)) <= midpoint_sum bounds)%Q ∧
  (midpoint_sum bounds - inject_Z (Qfloor (midpoint_sum bounds)) <= 1 # 2)%Q ∧
  Forall (λ b, is_binary64
                 (inject_Z (Z.of_N (fst b) + Z.of_N (snd b)) / 2)%Q) bounds ∧
  (∀ k, is_binary64 (midpoint_sum (take k bounds))).
Proof.
  intros Hl Hs Hb Hlimit. split; [|split; [|split; [|split]]].
  - unfold _calculate_duration.
    rewrite (bind_ok _ _ _ _ _ (read_list_run _ _ _ Hl)).
    rewrite (bind_ok _ _ _ _ _ (total_duration_run ls ss bounds 0%Q w Hs Hb)).
    unfold ret. f_equal. f_equal.
    apply Q_to_int_floor, midpoint_sum_nonneg.
  - destruct (midpoint_sum_halves bounds) as [k Hk].
    rewrite (Qfloor_comp _ _ Hk), Hk. apply floor_of_half.
  - destruct (midpoint_sum_halves bounds) as [k Hk].
    rewrite (Qfloor_comp _ _ Hk), Hk. apply floor_of_half.
  - apply Forall_forall. intros b Hin. apply half_is_binary64.
    pose proof (bounds_total_elem bounds b Hin). lia.
  - intros k. destruct (midpoint_sum_total (take k bounds)) as [H0 Heq].
    pose proof (bounds_total_take k bounds) as Hk.
    destruct (half_is_binary64 (bounds_total (take k bounds)))
      as (m & e & Hm & He & Hq); [lia|].
    exists m, e. split; [exact Hm|]. split; [exact He|].
    by rewrite Heq.
Qed.

Lemma estimated_duration_truncates_witness :
  _calculate_duration 5 "intermediate" appendectomy_world
  = (Ok 47%Z, appendectomy_world).
Proof.
  refine (proj1 (estimated_duration_truncates 5 "intermediate"
                   [0; 1; 2; 3; 4] Catalog.appendectomy_steps
                   appendectomy_bounds appendectomy_world _ _ _ _)).
  - reflexivity.
  - repeat constructor.
  - repeat constructor.
  - apply Z.ltb_lt. vm_compute. reflexivity.
Defined.

(** C7, the counterexample: an intermediate appendectomy scenario keeps the
    catalog durations, whose midpoints add up to 47.5; its estimated duration
    is 47, and 47.5 rounded to the nearest integer is 48 whether a tie goes up
    or to the even neighbour. *)
Lemma estimated_duration_not_nearest :
  ∃ sc w ss,
    generate_from_catalog as_written "appendectomy" "intermediate" tt []
      false (start []) = (Ok sc, w) ∧
    dump_steps (heap w) (steps sc) = Some ss ∧
    map duration ss
    = map (λ b, Some (duration_string (fst b) (snd b))) appendectomy_bounds ∧
    (midpoint_sum appendectomy_bounds == 95 # 2)%Q ∧
    estimated_duration (procedure_info sc) = 47%Z ∧
    round_half_up (midpoint_sum appendectomy_bounds) = 48%Z ∧
    round_half_even (midpoint_sum appendectomy_bounds) = 48%Z.
Proof.
  eexists _, _, _. split; [vm_compute; reflexivity|].
  split; [vm_compute; reflexivity|].
  repeat split; vm_compute; reflexivity.
Qed.

(** C4, at the failing input: with the class as written, customizing any
    non-empty step list for the advanced level raises [AttributeError], the
    call of the undefined [_add_technique_variations] on the first step; no
    duration is scaled. *)
Theorem advanced_customization_raises (base : loc) (bl : list loc)
    (s : Step) (ss : list Step) (w : world) :
  heap w !! base = Some (OList bl) →
  steps_at (heap w) bl (s :: ss) →
  fst (_customize_steps_for_difficulty as_written base "advanced" w)
  = Raise AttributeError.
Proof.
  intros Hb Hs.
  destruct (customize_run as_written base "advanced" bl (s :: ss) w Hb Hs)
    as [_ H].
  exact H.
Qed.

Lemma advanced_customization_raises_witness :
  fst (_customize_steps_for_difficulty as_written 1 "advanced" one_step_world)
  = Raise AttributeError.
Proof.
  apply (advanced_customization_raises 1 [0]
           (catalog_step 1 "Trocar Placement"
              "Create pneumoperitoneum and insert trocars" "10-15 minutes"
              [] []) [] one_step_world).
  - reflexivity.
  - repeat constructor.
Defined.

(** With the class as written no advanced scenario comes out of the catalog,
    and the copy of the step still has its catalog duration. *)
Lemma advanced_scenarios_fail :
  fst (generate_from_catalog as_written "laparoscopic_cholecystectomy"
         "advanced" tt [] true (start [])) = Raise AttributeError ∧
  fst (generate_from_catalog as_written "appendectomy"
         "advanced" tt [] true (start [])) = Raise AttributeError ∧
  fst (generate_from_catalog as_written "knee_arthroscopy"
         "advanced" tt [] true (start [])) = Raise AttributeError ∧
  map duration <$> dump_steps
     (heap (snd (_customize_steps_for_difficulty as_written 1 "advanced"
                   one_step_world))) 3
  = Some [Some "10-15 minutes"].
Proof. repeat split; vm_compute; reflexivity. Qed.

(** Where the method exists, and at the other levels, the examples of the
    specification hold. *)
Lemma customized_duration_examples (f : Step → list string) (s : Step) :
  duration s = Some "10-15 minutes" →
  (∃ s1, customize_pure as_written "beginner" s = Ok s1 ∧
         duration s1 = Some "15-22 minutes") ∧
  (∃ s1, customize_pure (Some f) "advanced" s = Ok s1 ∧
         duration s1 = Some "8-12 minutes") ∧
  customize_pure as_written "advanced" s = Raise AttributeError.
Proof.
  intros Hd.
  assert (_extend_duration "10-15 minutes" (F64.lit 3 2) = Ok "15-22 minutes")
    as E1 by (vm_compute; reflexivity).
  assert (_reduce_duration "10-15 minutes" (F64.lit 4 5) = Ok "8-12 minutes")
    as E2 by (vm_compute; reflexivity).
  unfold customize_pure.
  change ("beginner" =? "beginner")%string with true.
  change ("advanced" =? "beginner")%string with false.
  change ("advanced" =? "intermediate")%string with false.
  change ("advanced" =? "advanced")%string with true.
  cbv beta iota zeta.
  cbn [duration set_guidance_level set_hints set_variations subscript
       result_bind].
  rewrite Hd. cbn [subscript result_bind]. rewrite E1, E2.
  cbn [result_bind].
  repeat split; eexists; split; reflexivity.
Qed.

(** ** Complications *)

Lemma choice_elem {A} (l : list A) r x : Py.choice l r = Ok x → x ∈ l.
Proof.
  unfold Py.choice. destruct l as [|y l]; [intros [=]|].
  match goal with
  | |- context [?a !! ?b] => destruct (a !! b) as [z|] eqn:E
  end; [|intros [=]].
  intros [= <-]. by eapply list_elem_of_lookup_2.
Qed.

Lemma random_choice_inv {A} (l : list A) w x w' :
  random_choice l w = (Ok x, w') → x ∈ l.
Proof.
  unfold random_choice. destruct l as [|y l]; [unfold lift; intros [=]|].
  unfold bind, draw, lift. cbv beta iota zeta.
  destruct (Py.choice (y :: l) (tape w (cursor w))) as [z|] eqn:E;
    [|intros [=]].
  intros ?. simplify_eq. by eapply choice_elem.
Qed.

Lemma random_randint_inv a b w z w' :
  (a ≤ b)%Z → random_randint a b w = (Ok z, w') → (a ≤ z ≤ b)%Z.
Proof.
  intros Hab. unfold random_randint, bind, draw, ret. simpl.
  intros ?. simplify_eq.
  pose proof (Z.mod_pos_bound (Z.of_N (tape w (cursor w))) (b - a + 1)). lia.
Qed.

Lemma lift_subscript_inv {A} (o : option A) w a w' :
  lift (subscript o) w = (Ok a, w') → o = Some a.
Proof. unfold lift, subscript. destruct o; intros ?; by simplify_eq. Qed.

Lemma generate_complications_inv self p d w cs w' :
  _generate_complications self p d w = (Ok cs, w') →
  cs = [] ∨ ∃ c, cs = [c] ∧ planned_from self p c.
Proof.
  unfold _generate_complications. intros H.
  apply bind_inv_ok in H as (r & w1 & _ & H).
  destruct (F64.ltb r (prob_map d)); [|left; unfold ret in H; by simplify_eq].
  apply bind_inv_ok in H as (selected & w2 & Hsel & H).
  apply bind_inv_ok in H as (entry & w3 & Hentry & H).
  apply bind_inv_ok in H as (severities & w4 & Hsevs & H).
  apply bind_inv_ok in H as (severity & w5 & Hsev & H).
  apply bind_inv_ok in H as (locations & w6 & Hlocs & H).
  apply bind_inv_ok in H as (location & w7 & Hloc & H).
  apply bind_inv_ok in H as (trigger & w8 & Htrig & H).
  apply bind_inv_ok in H as (management & w9 & Hman & H).
  unfold ret in H. simplify_eq. right. eexists. split; [reflexivity|].
  unfold planned_from. simpl.
  apply random_choice_inv in Hsel, Hsev, Hloc.
  apply random_randint_inv in Htrig; [|lia].
  apply lift_subscript_inv in Hentry, Hsevs, Hlocs, Hman.
  split; [done|]. split; [done|].
  exists entry, severities, locations. done.
Qed.

Section planned.

Context {Patient : Type}.

(** C6.  A generated scenario has at most one planned complication, none when
    complications are disabled; a planned complication has a trigger step
    from 2 to 5, a type of the set allowed for the procedure, a severity and
    a location of that type's library entry, and the entry's management
    list. *)
Theorem planned_complications (tv : option (Step → list string))
    (self : SimulationGenerator) (p d : string) (pat : Patient)
    (objs : list string) (en : bool) (w : world) (sc : Scenario loc)
    (w' : world) :
  generate_scenario tv self p d pat objs en w = (Ok sc, w') →
  length (complications sc) ≤ 1 ∧
  (en = false → complications sc = []) ∧
  ∀ c, c ∈ complications sc → planned_from self p c.
Proof.
  unfold generate_scenario. intros H.
  destruct (procedure_templates self !! p) as [template|]; [|done].
  apply bind_inv_ok in H as (steps1 & w1 & _ & H).
  apply bind_inv_ok in H as (steps2 & w2 & _ & H).
  apply bind_inv_ok in H as (cs & w3 & Hcs & H).
  apply bind_inv_ok in H as (total & w4 & _ & H).
  unfold ret in H. simplify_eq. simpl.
  destruct en.
  - apply generate_complications_inv in Hcs as [->|(c & -> & Hc)].
    + split; [simpl; lia|]. split; [done|]. intros c Hc. inversion Hc.
    + split; [simpl; lia|]. split; [done|]. intros c' Hc'.
      apply list_elem_of_singleton in Hc' as ->. done.
  - unfold ret in Hcs. simplify_eq.
    split; [simpl; lia|]. split; [done|]. intros c Hc. inversion Hc.
Qed.

End planned.

Lemma planned_complications_witness :
  ∃ sc w',
    generate_scenario as_written catalog_generator
      "laparoscopic_cholecystectomy" "expert" tt [] true
      (catalog_world [1; 1; 1; 1; 3]%N) = (Ok sc, w') ∧
    complications sc = [severe_bowel_injury] ∧
    planned_from catalog_generator "laparoscopic_cholecystectomy"
                 severe_bowel_injury.
Proof.
  eexists _, _. split; [vm_compute; reflexivity|]. split; [reflexivity|].
  refine (proj2 (proj2 (planned_complications as_written catalog_generator
            "laparoscopic_cholecystectomy" "expert" tt [] true
            (catalog_world [1; 1; 1; 1; 3]%N) _ _ _)) _ _).
  - vm_compute. reflexivity.
  - simpl. left.
Defined.

(** A draw of ["equipment_failure"] raises [KeyError]: its library entry has
    no severity list, so no scenario is generated. *)
Lemma equipment_failure_raises :
  fst (generate_scenario as_written catalog_generator "appendectomy" "expert"
         tt [] true (catalog_world [1; 1]%N)) = Raise KeyError.
Proof. vm_compute. reflexivity. Qed.

(** ** The step list of a scenario *)

Lemma index_elem {A} (l : list A) i x : Py.index l i = Ok x → x ∈ l.
Proof.
  unfold Py.index.
  destruct (_ && _); [|intros [=]].
  match goal with
  | |- context [?a !! ?b] => destruct (a !! b) as [z|] eqn:E
  end; [|intros [=]].
  intros ?. simplify_eq. by eapply list_elem_of_lookup_2.
Qed.

Lemma no_alloc_bind {A B} (m : M A) (k : A → M B) :
  no_alloc m → (∀ a, no_alloc (k a)) → no_alloc (bind m k).
Proof.
  intros Hm Hk w. unfold bind.
  specialize (Hm w). destruct (m w) as [[a|e] w1]; simpl in *; [|done].
  rewrite <- Hm. by apply Hk.
Qed.

Lemma reads_only_no_alloc {A} (m : M A) : reads_only m → no_alloc m.
Proof. intros Hm w. by rewrite Hm. Qed.

Lemma no_alloc_assign l f : no_alloc (assign l f).
Proof.
  intros w. unfold assign.
  destruct (heap w !! l) as [[s|ls]|]; simpl; try done.
  apply length_insert.
Qed.

Lemma no_alloc_for_each {A} (l : list A) (body : A → M unit) :
  (∀ x, no_alloc (body x)) → no_alloc (for_each l body).
Proof.
  intros Hb. induction l as [|x l IH]; simpl.
  - by apply reads_only_no_alloc, reads_only_ret.
  - apply no_alloc_bind; auto.
Qed.

Section next_step.

Context {Assessment : Type}.

Lemma attach_properties l cur comps :
  keeps_lists (for_each comps (attach l cur)) ∧
  no_alloc (for_each comps (attach l cur)) ∧
  only_at l (for_each comps (attach l cur)).
Proof.
  split; [|split].
  - apply keeps_lists_for_each. intros comp. unfold attach.
    destruct (_ =? _)%Z;
      [apply keeps_lists_assign
      |apply reads_only_keeps_lists, reads_only_ret].
  - apply no_alloc_for_each. intros comp. unfold attach.
    destruct (_ =? _)%Z;
      [apply no_alloc_assign|apply reads_only_no_alloc, reads_only_ret].
  - apply only_at_for_each. intros comp. unfold attach.
    destruct (_ =? _)%Z;
      [apply only_at_assign|apply reads_only_only_at, reads_only_ret].
Qed.

(** [get_next_step] leaves the step list as it is and creates no object;
    the step it returns is one of the list, and no other object changes. *)
Lemma get_next_step_spec (sd : SimulationData loc) (cur : Z)
    (a : Assessment) (w : world) (ls : list loc) :
  heap w !! steps (simulation sd) = Some (OList ls) →
  let nxt := get_next_step sd cur a w in
  heap (snd nxt) !! steps (simulation sd) = Some (OList ls) ∧
  length (heap (snd nxt)) = length (heap w) ∧
  ∀ l, fst nxt = Ok (NextStepAt l) →
       l ∈ ls ∧ ∀ l', l' ≠ l → heap (snd nxt) !! l' = heap w !! l'.
Proof.
  intros Hl nxt. unfold nxt, get_next_step.
  rewrite (bind_ok _ _ _ _ _ (read_list_run _ _ _ Hl)).
  destruct (_ <=? _)%Z; [unfold ret; simpl; by repeat split|].
  rewrite bind_lift.
  destruct (Py.index ls cur) as [l|e] eqn:Hi; [|simpl; by repeat split].
  apply index_elem in Hi.
  destruct (attach_properties l cur (complications (simulation sd)))
    as (Hk & Hn & Ho).
  specialize (Hk w _ _ Hl). specialize (Hn w). specialize (Ho w).
  unfold bind.
  destruct (for_each (complications (simulation sd)) (attach l cur) w)
    as [[[]|e] w1]; simpl in *.
  - split; [done|]. split; [done|]. intros l0 ?. simplify_eq. by split.
  - split; [done|]. split; [done|]. intros l0 [=].
Qed.

End next_step.

Section step_count.

Context {Patient Assessment : Type}.

(** C5.  Whatever the outcome of [generate_scenario], the catalog's step
    list and step dicts are as they were; a scenario it returns has a step
    list as long as the template's; and [get_next_step] leaves the step list
    of a simulation as it is: it creates no object, returns a step of the
    list, and changes no other object. *)
Theorem step_count_is_fixed (tv : option (Step → list string))
    (self : SimulationGenerator) (p d : string) (pat : Patient)
    (objs : list string) (en : bool) (template : Template loc)
    (bl : list loc) (ss : list Step) (w : world) :
  procedure_templates self !! p = Some template →
  heap w !! t_steps template = Some (OList bl) →
  steps_at (heap w) bl ss →
  let run := generate_scenario tv self p d pat objs en w in
  (heap (snd run) !! t_steps template = Some (OList bl) ∧
   steps_at (heap (snd run)) bl ss) ∧
  (∀ sc, fst run = Ok sc →
     ∃ new_steps, heap (snd run) !! steps sc = Some (OList new_steps) ∧
                  length new_steps = length bl) ∧
  (∀ (sd : SimulationData loc) (cur : Z) (a : Assessment) (w1 : world)
     (ls : list loc),
     heap w1 !! steps (simulation sd) = Some (OList ls) →
     let nxt := get_next_step sd cur a w1 in
     heap (snd nxt) !! steps (simulation sd) = Some (OList ls) ∧
     length (heap (snd nxt)) = length (heap w1) ∧
     ∀ l, fst nxt = Ok (NextStepAt l) →
          l ∈ ls ∧ ∀ l', l' ≠ l → heap (snd nxt) !! l' = heap w1 !! l').
Proof.
  intros Ht Hb Hs run.
  destruct (generate_scenario_spec tv self p d pat objs en template bl ss w
              Ht Hb Hs) as [Hframe Hok].
  fold run in Hframe, Hok.
  split; [|split].
  - split.
    + rewrite Hframe; [done|]. by eapply lookup_lt_Some.
    + eapply steps_at_ext; [|exact Hs]. intros l Hl. apply Hframe.
      apply list_elem_of_lookup in Hl as [i Hi].
      destruct (Forall2_lookup_l _ _ _ _ _ Hs Hi) as (s & _ & Hls).
      by eapply lookup_lt_Some.
  - intros sc Hsc. destruct (Hok sc Hsc) as (ss1 & _ & -> & Hlist & _).
    eexists. split; [exact Hlist|].
    rewrite length_seq. symmetry. by eapply steps_at_length.
  - intros sd cur a w1 ls Hl. by apply get_next_step_spec.
Qed.

End step_count.

Lemma step_count_is_fixed_witness :
  ∃ sc new_steps,
    fst (generate_scenario as_written catalog_generator "appendectomy"
           "beginner" tt ["closure"] true (catalog_world [])) = Ok sc ∧
    heap (snd (generate_scenario as_written catalog_generator "appendectomy"
                 "beginner" tt ["closure"] true (catalog_world [])))
      !! steps sc = Some (OList new_steps) ∧
    length new_steps = 5.
Proof.
  destruct (step_count_is_fixed (Assessment := unit) as_written
              catalog_generator "appendectomy" "beginner" tt ["closure"] true
              appendectomy_template [7; 8; 9; 10; 11]
              Catalog.appendectomy_steps (catalog_world []))
    as (_ & H & _).
  - vm_compute. reflexivity.
  - vm_compute. reflexivity.
  - repeat (constructor; [vm_compute; reflexivity|]). constructor.
  - assert (∃ sc, fst (generate_scenario as_written catalog_generator
                         "appendectomy" "beginner" tt ["closure"] true
                         (catalog_world [])) = Ok sc) as [sc Hsc]
      by (vm_compute; eexists; reflexivity).
    destruct (H sc Hsc) as (new_steps & Hn & Hlen).
    exists sc, new_steps. split; [exact Hsc|]. split; [exact Hn|exact Hlen].
Defined.

(** ** The catalog in the heap *)

Lemma alloc_steps_run ss w :
  map_m (λ s, alloc (OStep s)) ss w
  = (Ok (seq (length (heap w)) (length ss)),
     with_heap (heap w ++ map OStep ss) w).
Proof.
  revert w. induction ss as [|s ss IH]; intros w.
  { simpl. unfold ret. rewrite app_nil_r. by destruct w. }
  cbn [map_m]. unfold bind at 1. unfold alloc at 1.
  rewrite (bind_ok _ _ _ _ _ (IH _)). unfold ret. simpl.
  rewrite length_app. simpl. rewrite Nat.add_1_r.
  f_equal. unfold with_heap. simpl. by rewrite <- app_assoc.
Qed.

Lemma new_step_list_run ss w :
  new_step_list ss w
  = (Ok (length (heap w) + length ss),
     with_heap (heap w ++ map OStep ss ++
                [OList (seq (length (heap w)) (length ss))]) w).
Proof.
  unfold new_step_list. rewrite (bind_ok _ _ _ _ _ (alloc_steps_run ss w)).
  unfold alloc, with_heap. simpl.
  rewrite length_app, length_map. by rewrite <- app_assoc.
Qed.

Lemma steps_at_app h t ls ss : steps_at h ls ss → steps_at (h ++ t) ls ss.
Proof.
  intros H. eapply Forall2_impl; [exact H|]. intros l s Hl. simpl.
  by apply lookup_app_l_Some.
Qed.

(** The step list of a new list object, and what a later allocation leaves
    of it. *)
Lemma new_list_in_heap (h : list obj) ss t :
  let h' := (h ++ map OStep ss ++ [OList (seq (length h) (length ss))]) ++ t in
  h' !! (length h + length ss) = Some (OList (seq (length h) (length ss))) ∧
  steps_at h' (seq (length h) (length ss)) ss.
Proof.
  intros h'. unfold h'. split.
  - apply lookup_app_l_Some, copied_lookup_list.
  - apply steps_at_app, copied_steps_at.
Qed.

(** After [__init__], every catalog key leads to a list object that holds
    the catalog steps of that key. *)
Lemma new_generator_spec w0 :
  ∃ self w1,
    new_SimulationGenerator w0 = (Ok self, w1) ∧
    ∀ p pname ss, catalog_entry p = Some (pname, ss) →
      ∃ template bl,
        procedure_templates self !! p = Some template ∧
        t_name template = pname ∧
        heap w1 !! t_steps template = Some (OList bl) ∧
        steps_at (heap w1) bl ss.
Proof.
  unfold new_SimulationGenerator, _load_procedure_templates.
  eexists _, _. split.
  { rewrite bind_assoc.
    rewrite (bind_ok _ _ _ _ _ (new_step_list_run _ _)). rewrite bind_assoc.
    rewrite (bind_ok _ _ _ _ _ (new_step_list_run _ _)). rewrite bind_assoc.
    rewrite (bind_ok _ _ _ _ _ (new_step_list_run _ _)).
    reflexivity. }
  intros p pname ss Hp. unfold catalog_entry in Hp.
  cbn [procedure_templates].
  set (h0 := heap w0).
  set (h1 := h0 ++ map OStep Catalog.cholecystectomy_steps ++
             [OList (seq (length h0) (length Catalog.cholecystectomy_steps))]).
  destruct (String.eqb_spec p "laparoscopic_cholecystectomy") as [->|Hp1].
  { simplify_eq. eexists _, _. rewrite lookup_insert_eq.
    split; [reflexivity|]. split; [reflexivity|]. cbn [t_steps heap with_heap].
    fold h0. fold h1. rewrite <- (app_assoc h1).
    apply (new_list_in_heap h0 Catalog.cholecystectomy_steps). }
  rewrite lookup_insert_ne by done.
  destruct (String.eqb_spec p "appendectomy") as [->|Hp2].
  { simplify_eq. eexists _, _. rewrite lookup_insert_eq.
    split; [reflexivity|]. split; [reflexivity|]. cbn [t_steps heap with_heap].
    fold h0. fold h1.
    apply (new_list_in_heap h1 Catalog.appendectomy_steps). }
  rewrite lookup_insert_ne by done.
  destruct (String.eqb_spec p "knee_arthroscopy") as [->|Hp3]; [|done].
  simplify_eq. eexists _, _. rewrite lookup_insert_eq.
  split; [reflexivity|]. split; [reflexivity|]. cbn [t_steps heap with_heap].
  fold h0. fold h1.
  match goal with
  | |- context [(?h ++ map OStep Catalog.knee_arthroscopy_steps ++ _)] =>
      pose proof (new_list_in_heap h Catalog.knee_arthroscopy_steps []) as H
  end.
  rewrite app_nil_r in H. exact H.
Qed.

(** ** Assessing a step of a generated scenario *)

Lemma map_r_Forall2 {A B} (f : A → result B) l l' :
  map_r f l = Ok l' → Forall2 (λ x y, f x = Ok y) l l'.
Proof.
  revert l'. induction l as [|x l IH]; intros l'; simpl.
  - intros ?. simplify_eq. constructor.
  - destruct (f x) as [y|] eqn:E; simpl; [|done].
    destruct (map_r f l) as [ys|]; simpl; [|done].
    intros ?. simplify_eq. constructor; [done|]. by apply IH.
Qed.

Lemma positive_at_all_levels_spec du d du' :
  positive_at_all_levels du = true →
  customized_duration d du = Ok du' → positive_duration du' = true.
Proof.
  unfold positive_at_all_levels, customized_duration. cbn [forallb].
  rewrite !andb_true_iff. intros (H1 & H2 & H3 & H4 & _).
  destruct (d =? "beginner")%string.
  { intros E. by rewrite E in H1. }
  destruct (d =? "intermediate")%string.
  { intros ?. by simplify_eq. }
  destruct (d =? "advanced")%string.
  { intros E. by rewrite E in H3. }
  destruct (d =? "expert")%string.
  { intros E. by rewrite E in H4. }
  intros ?. by simplify_eq.
Qed.

Section scoring.

Local Open Scope Q_scope.

Lemma inject_Z_nonzero z : (0 < z)%Z → Qeq_bool (inject_Z z) 0 = false.
Proof.
  intros Hz. apply not_true_is_false. intros H. apply Qeq_bool_eq in H.
  unfold Qeq in H. simpl in H. lia.
Qed.

Lemma py_div_inv a b q :
  py_div a b = Ok q → q = a / b ∧ Qeq_bool b 0 = false.
Proof.
  unfold py_div. destruct (Qeq_bool b 0); [done|].
  destruct (Qle_bool float_overflow (Qabs (a / b))); [done|].
  intros [= <-]. done.
Qed.

Lemma Qabs_ratio_le (x d k : Z) :
  (0 < d)%Z → (Z.abs x ≤ k * d)%Z →
  Qabs (inject_Z x / inject_Z d) <= inject_Z k.
Proof.
  intros Hd Hx. destruct d as [|p|p]; [lia| |lia].
  assert (inject_Z x / inject_Z (Z.pos p) == x # p) as ->.
  { unfold Qeq, Qdiv, Qmult, Qinv, inject_Z. simpl. lia. }
  unfold Qabs, Qle. simpl. lia.
Qed.

Lemma time_limit_fits : inject_Z (1 + time_limit) < float_overflow.
Proof.
  unfold float_overflow. rewrite <- Zlt_Qlt. apply Z.ltb_lt.
  vm_compute. reflexivity.
Qed.

(** A quotient of at most [1 + |t|] in magnitude, for a time within the
    limit, is returned. *)
Lemma py_div_ratio (x d t : Z) :
  (0 < d)%Z → (Z.abs x ≤ (1 + Z.abs t) * d)%Z → (Z.abs t ≤ time_limit)%Z →
  py_div (inject_Z x) (inject_Z d) = Ok (inject_Z x / inject_Z d).
Proof.
  intros Hd Hx Ht. unfold py_div. rewrite inject_Z_nonzero by done.
  assert (Qle_bool float_overflow (Qabs (inject_Z x / inject_Z d)) = false)
    as ->; [|done].
  apply not_true_is_false. intros H. apply Qle_bool_iff in H.
  pose proof (Qabs_ratio_le x d _ Hd Hx) as H1.
  pose proof time_limit_fits as H2.
  assert (inject_Z (1 + Z.abs t) <= inject_Z (1 + time_limit)) as H3
    by (rewrite <- Zle_Qle; lia).
  lra.
Qed.

(** With positive bounds, and for a time within the limit, the
    time-management score is defined. *)
Lemma time_management_ok t s :
  positive_duration (default "10-15 minutes" (duration s)) = true →
  (Z.abs t ≤ time_limit)%Z →
  ∃ q, _assess_time_management t s = Ok q.
Proof.
  unfold positive_duration, _assess_time_management.
  destruct (Py.index _ 0) as [p0|]; [|done]. cbn [result_bind].
  destruct (Py.int_of_str p0) as [n0|]; [|by destruct (Py.index _ 1)].
  cbn [result_bind].
  destruct (Py.index _ 1) as [p1|]; [|done]. cbn [result_bind].
  destruct (Py.int_of_str p1) as [n1|]; [|done].
  rewrite andb_true_iff, !Z.ltb_lt. intros [H0 H1] Ht.
  cbn [result_bind]. cbv zeta.
  destruct (_ && _)%bool eqn:Hin; [by eexists|].
  apply andb_false_iff in Hin. rewrite !Z.leb_gt in Hin.
  destruct (Z.ltb_spec t (n0 * 60)) as [Hlt|Hge].
  - rewrite (py_div_ratio _ _ t) by (done || lia || nia). by eexists.
  - rewrite (py_div_ratio _ _ t) by (done || lia || nia). by eexists.
Qed.

Lemma feedback_templates_three level :
  ∃ a b c, feedback_templates level = [a; b; c].
Proof.
  unfold feedback_templates.
  repeat match goal with |- context [if ?b then _ else _] => destruct b end;
    by eexists _, _, _.
Qed.

Lemma random_choice_three {A} (a b c : A) w :
  ∃ x w', random_choice [a; b; c] w = (Ok x, w').
Proof.
  unfold random_choice, bind, draw, lift. cbv beta iota zeta.
  unfold Py.choice. cbn [length tape cursor].
  pose proof (Nat.mod_upper_bound (N.to_nat (tape w (cursor w))) 3) as Hb.
  destruct (N.to_nat (tape w (cursor w)) `mod` 3) as [|[|[|k]]]; [..|lia];
    simpl; by eexists _, _.
Qed.

(** A step with positive bounds under a procedure key that the criteria table
    does not have: the assessment is returned, and its technical score
    is 0. *)
Lemma assess_unscored key s n acts t w :
  _load_scoring_criteria !! key = None →
  positive_duration (default "10-15 minutes" (duration s)) = true →
  (Z.abs t ≤ time_limit)%Z →
  ∃ a w', assess_current_step key s n acts t w = (Ok a, w') ∧
          technical_score a = 0 ∧
          overall_score a == 0.3 * non_technical_score a.
Proof.
  intros Hkey Hpos Ht. unfold assess_current_step.
  assert (_assess_technical_skills key s acts t = 0) as ->
    by (unfold _assess_technical_skills; by rewrite Hkey).
  unfold _assess_non_technical_skills.
  destruct (time_management_ok t s Hpos Ht) as [q ->]. cbn [result_bind].
  rewrite bind_lift. unfold _generate_step_feedback.
  destruct (feedback_templates_three
              (performance_level_of
                 (0 * 0.7 +
                  sum_Q [_assess_communication acts * 0.30;
                         _assess_decision_making acts s * 0.35;
                         q * 0.20;
                         _assess_situational_awareness acts * 0.15] * 0.3)))
    as (x & y & z & ->).
  destruct (random_choice_three x y z w) as (c & w' & Hc).
  rewrite bind_assoc. rewrite (bind_ok _ _ _ _ _ Hc).
  eexists _, _. split; [reflexivity|]. split; [reflexivity|].
  cbn [overall_score non_technical_score]. ring.
Qed.

Lemma near_of_eq x y : x == y → near x y.
Proof.
  intros H. unfold near. assert (x - y == 0) as -> by lra.
  vm_compute. discriminate.
Qed.

End scoring.

(** The two catalog entries whose names have no scoring criteria: the key
    derived from the name is absent, and every step duration keeps positive
    bounds at every level. *)
Lemma unscored_catalog_entries p :
  p = "appendectomy" ∨ p = "knee_arthroscopy" →
  ∃ pname ss, catalog_entry p = Some (pname, ss) ∧
    (p = "appendectomy" ∧ procedure_key pname = "laparoscopic_appendectomy" ∨
     p = "knee_arthroscopy" ∧ procedure_key pname = "knee_arthroscopy") ∧
    _load_scoring_criteria !! procedure_key pname = None ∧
    Forall (λ s, ∃ du, duration s = Some du ∧
                       positive_at_all_levels du = true) ss.
Proof.
  intros [-> | ->]; eexists _, _;
    (split; [reflexivity|]);
    (split; [(by left; split; [|vm_compute]) || (by right; split; [|vm_compute])|]);
    (split; [vm_compute; reflexivity|]);
    repeat constructor; eexists; (split; [reflexivity|]);
    vm_compute; reflexivity.
Qed.

(** The keys of the scoring table. *)
Lemma scoring_criteria_keys k :
  is_Some (_load_scoring_criteria !! k) ↔
  k = "laparoscopic_cholecystectomy" ∨ k = "appendectomy".
Proof.
  unfold _load_scoring_criteria. split.
  - intros [c H]. apply lookup_insert_Some in H as [[<- _]|[_ H]]; [by left|].
    apply lookup_insert_Some in H as [[<- _]|[_ H]]; [by right|].
    by rewrite lookup_empty in H.
  - intros [-> | ->]; vm_compute; by eexists.
Qed.

Section unscored.

Context {Patient : Type}.

Lemma generate_from_catalog_run (tv : option (Step → list string))
    (p d : string) (pat : Patient) (objs : list string) (en : bool)
    (w0 : world) (self : SimulationGenerator) (wg : world) :
  new_SimulationGenerator w0 = (Ok self, wg) →
  generate_from_catalog tv p d pat objs en w0
  = generate_scenario tv self p d pat objs en wg.
Proof.
  intros Hnew.
  exact (bind_ok new_SimulationGenerator
           (λ self, generate_scenario tv self p d pat objs en)
           w0 self wg Hnew).
Qed.

(** C10.  A scenario generated from the appendectomy or the knee-arthroscopy
    template has the name from which [assess_step] derives the procedure key
    [laparoscopic_appendectomy], respectively [knee_arthroscopy]; the scoring
    table has the keys [laparoscopic_cholecystectomy] and [appendectomy] and
    no other, so the derived key is not in it.  Hence for every step number
    from 1 to the step count, all actions and every time of at most 10^300
    seconds in magnitude, [assess_step] returns an assessment whose technical
    score is 0 and whose overall score is 0.3 times the non-technical score
    (up to the rounding of the float product). *)
Theorem unscored_procedures (tv : option (Step → list string))
    (p d : string) (pat : Patient) (objs : list string) (en : bool)
    (w0 w1 : world) (sc : Scenario loc) (doc : Scenario (list Step)) :
  p = "appendectomy" ∨ p = "knee_arthroscopy" →
  generate_from_catalog tv p d pat objs en w0 = (Ok sc, w1) →
  dump_scenario (heap w1) sc = Some doc →
  let key := procedure_key (name (procedure_info doc)) in
  (p = "appendectomy" ∧ key = "laparoscopic_appendectomy" ∨
   p = "knee_arthroscopy" ∧ key = "knee_arthroscopy") ∧
  (∀ k, is_Some (_load_scoring_criteria !! k) ↔
        k = "laparoscopic_cholecystectomy" ∨ k = "appendectomy") ∧
  _load_scoring_criteria !! key = None ∧
  ∀ (sd : SimulationData (list Step)) (n : Z) (acts : list Action) (t : Z)
    (w : world),
    simulation sd = doc →
    (1 ≤ n ≤ Z.of_nat (length (steps doc)))%Z →
    (Z.abs t ≤ time_limit)%Z →
    ∃ a w', assess_step sd n acts t w = (Ok a, w') ∧
            technical_score a = 0%Q ∧
            near (overall_score a) (0.3 * non_technical_score a).
Proof.
  intros Hp Hgen Hdump.
  destruct (new_generator_spec w0) as (self & wg & Hnew & Hcat).
  rewrite (generate_from_catalog_run tv p d pat objs en w0 self wg Hnew)
    in Hgen.
  destruct (unscored_catalog_entries p Hp)
    as (pname & ss & Hentry & Hderived & Hkey & Hdur).
  destruct (Hcat p pname ss Hentry) as (template & bl & Ht & Hname & Hb & Hs).
  destruct (generate_scenario_spec tv self p d pat objs en template bl ss wg
              Ht Hb Hs) as [_ Hok].
  rewrite Hgen in Hok. cbn [fst snd] in Hok.
  destruct (Hok sc eq_refl) as (ss1 & Hmap & Hsteps & Hlist & Hat & Hsc).
  rewrite <- Hsteps in Hlist.
  unfold dump_scenario in Hdump.
  rewrite (steps_at_dump _ _ _ _ Hlist Hat) in Hdump.
  cbn in Hdump. injection Hdump as <-. cbn [procedure_info steps].
  rewrite Hsc, Hname. cbv zeta. split; [exact Hderived|].
  split; [exact scoring_criteria_keys|]. split; [exact Hkey|].
  intros sd n acts t w Hsd Hn Hlimit.
  pose proof (assess_step_in_range sd n acts t w) as Hres.
  rewrite Hsd in Hres. cbn [steps procedure_info] in Hres.
  destruct (Hres Hn) as (s & Hlook & ->).
  rewrite Hsc, Hname.
  assert (positive_duration (default "10-15 minutes" (duration s)) = true)
    as Hpos.
  { apply list_lookup_fmap_Some in Hlook as (s1 & -> & Hs1).
    apply map_r_Forall2 in Hmap.
    destruct (Forall2_lookup_r _ _ _ _ _ Hmap Hs1) as (s0 & Hs0 & Hcust).
    rewrite Forall_lookup in Hdur.
    destruct (Hdur _ _ Hs0) as (du & Hdu & Hall).
    destruct (customize_pure_duration tv d s0 s1 du Hdu Hcust)
      as (du' & Hcd & Hd1 & _).
    destruct (enhance_pure_keeps objs s1) as (_ & _ & ->).
    rewrite Hd1. cbn [default].
    by eapply positive_at_all_levels_spec. }
  destruct (assess_unscored (procedure_key pname) s n acts t w Hkey Hpos
              Hlimit) as (a & w' & Hrun & Htech & Hoverall).
  exists a, w'. split; [exact Hrun|]. split; [exact Htech|].
  by apply near_of_eq.
Qed.

End unscored.

(** The action of the example: a trocar placed with accuracy 0.9.  Under the
    cholecystectomy key it scores on the first appendectomy step, whose
    description mentions the pneumoperitoneum. *)
Lemma unscored_procedures_witness :
  ∃ sc w1 doc,
    generate_from_catalog as_written "appendectomy" "beginner" tt [] false
      (start []) = (Ok sc, w1) ∧
    dump_scenario (heap w1) sc = Some doc ∧
    procedure_key (name (procedure_info doc)) = "laparoscopic_appendectomy" ∧
    ∃ a w' s,
      assess_step {| simulation := doc; step_assessments := [];
                     simulation_id := None |} 1
        [skill_action "trocar_placement" 0.9] 400 (start [])
      = (Ok a, w') ∧
      technical_score a = 0%Q ∧
      near (overall_score a) (0.3 * non_technical_score a) ∧
      steps doc !! 0%nat = Some s ∧
      ¬ (_assess_technical_skills "laparoscopic_cholecystectomy" s
           [skill_action "trocar_placement" 0.9] 400 == 0)%Q.
Proof.
  eexists _, _, _. split; [vm_compute; reflexivity|].
  split; [vm_compute; reflexivity|].
  split; [vm_compute; reflexivity|].
  destruct (proj2 (proj2 (proj2
              (unscored_procedures as_written "appendectomy" "beginner" tt
                 [] false (start []) _ _ _ (or_introl eq_refl)
                 ltac:(vm_compute; reflexivity)
                 ltac:(vm_compute; reflexivity))))
              {| simulation := _; step_assessments := [];
                 simulation_id := None |} 1%Z
              [skill_action "trocar_placement" 0.9%Q] 400%Z (start [])
              eq_refl)
    as (a & w' & Hrun & Htech & Hnear).
  - simpl. lia.
  - apply Z.leb_le. vm_compute. reflexivity.
  - exists a, w'. eexists. split; [exact Hrun|]. split; [exact Htech|].
    split; [exact Hnear|]. split; [reflexivity|].
    vm_compute. discriminate.
Defined.

(** ** The non-technical score stays between 0 and 100 *)

Lemma all_chars_lstrip p s :
  all_chars p s = true → all_chars p (Py.lstrip s) = true.
Proof.
  induction s as [|c s IH]; simpl; [done|].
  rewrite andb_true_iff. intros [Hc Hs].
  destruct (Py.is_space c); [by apply IH|]. simpl. by rewrite Hc, Hs.
Qed.

Lemma all_chars_rstrip p s :
  all_chars p s = true → all_chars p (Py.rstrip s) = true.
Proof.
  induction s as [|c s IH]; simpl; [done|].
  rewrite andb_true_iff. intros [Hc Hs]. specialize (IH Hs).
  destruct (Py.rstrip s) as [|c' r].
  - destruct (Py.is_space c); simpl; [done|]. by rewrite Hc.
  - simpl in *. by rewrite Hc, IH.
Qed.

(** Without a minus sign in it, a string reads as a number that is not
    negative. *)
Lemma int_of_str_nonneg s z :
  all_chars not_dash s = true → Py.int_of_str s = Ok z → (0 ≤ z)%Z.
Proof.
  intros Hs. unfold Py.int_of_str.
  assert (all_chars not_dash (Py.strip s) = true) as Hstrip
    by (by apply all_chars_lstrip, all_chars_rstrip).
  destruct (Py.strip s) as [|c r].
  { simpl. intros [=]. }
  simpl in Hstrip. apply andb_true_iff in Hstrip as [Hc _].
  assert (c ≠ "-"%char) as Hne by (intros ->; discriminate).
  assert (∀ o : option N, match Z.of_N <$> o with
                          | Some z' => Ok z'
                          | None => Raise ValueError
                          end = Ok z → (0 ≤ z)%Z) as Hpos.
  { intros [n|]; simpl; intros ?; simplify_eq. lia. }
  destruct c as [[] [] [] [] [] [] [] []]; try (apply Hpos); congruence.
Qed.

Lemma split_pieces sep s :
  Forall (λ p, all_chars (λ c, negb (Ascii.eqb c sep)) p = true)
         (Py.split sep s).
Proof.
  induction s as [|c s IH]; simpl; [by repeat constructor|].
  destruct (Ascii.eqb c sep) eqn:E; [by constructor|].
  destruct (Py.split sep s) as [|p ps]; [by repeat (constructor; simpl; rewrite ?E)|].
  apply Forall_cons in IH as [Hp Hps].
  constructor; [|done]. simpl. by rewrite E, Hp.
Qed.

Lemma duration_bound_nonneg d i p z :
  Py.index (duration_parts d) i = Ok p → Py.int_of_str p = Ok z → (0 ≤ z)%Z.
Proof.
  intros Hi. apply int_of_str_nonneg.
  apply index_elem in Hi.
  pose proof (split_pieces "-" (Py.replace " minutes" "" d)) as Hall.
  rewrite Forall_forall in Hall. by apply Hall.
Qed.

Section bounds.

Local Open Scope Q_scope.

Lemma Qltb_lt a b : Qltb a b = true ↔ a < b.
Proof.
  unfold Qltb. rewrite negb_true_iff. split.
  - intros H. apply Qnot_le_lt. intros Hle.
    apply Qle_bool_iff in Hle. congruence.
  - intros H. apply not_true_is_false. intros Hle.
    apply Qle_bool_iff in Hle. by apply Qlt_not_le in H.
Qed.

Lemma Qltb_ge a b : Qltb a b = false ↔ b <= a.
Proof.
  unfold Qltb. rewrite negb_false_iff. apply Qle_bool_iff.
Qed.

Lemma py_min_spec a b : py_min a b <= b ∧ py_min a b <= a ∧
                        (py_min a b = a ∨ py_min a b = b).
Proof.
  unfold py_min. destruct (Qltb b a) eqn:E.
  - apply Qltb_lt in E. split; [lra|]. split; [lra|by right].
  - apply Qltb_ge in E. split; [lra|]. split; [lra|by left].
Qed.

Lemma py_max_spec a b : a <= py_max a b ∧ b <= py_max a b ∧
                        (py_max a b = a ∨ py_max a b = b).
Proof.
  unfold py_max, Qgtb. destruct (Qltb a b) eqn:E.
  - apply Qltb_lt in E. split; [lra|]. split; [lra|by right].
  - apply Qltb_ge in E. split; [lra|]. split; [lra|by left].
Qed.

Lemma py_min_bounds a b lo : lo <= a → lo <= b → lo <= py_min a b <= b.
Proof.
  intros Ha Hb. destruct (py_min_spec a b) as (H1 & H2 & [E | E]);
    rewrite E in *; split; lra.
Qed.

Lemma communication_bounds acts : 0 <= _assess_communication acts <= 100.
Proof.
  unfold _assess_communication.
  destruct (List.filter (has_type "communication") acts) as [|a l] eqn:E;
    [lra|].
  apply py_min_bounds; [|lra].
  rewrite score_communication_foldl. rewrite Qplus_0_l.
  change 0 with (inject_Z 0). rewrite <- Zle_Qle. lia.
Qed.

Lemma count_decision_step acc a :
  acc <= count_decision acc a <= acc + 1.
Proof.
  unfold count_decision. destruct (outcome a) as [o|]; [|lra].
  destruct (o =? "correct")%string; [lra|].
  destruct (o =? "safe_alternative")%string; lra.
Qed.

Lemma count_decision_foldl l acc :
  acc <= foldl count_decision acc l <= acc + inject_Z (Z.of_nat (length l)).
Proof.
  revert acc. induction l as [|a l IH]; intros acc.
  - cbn [foldl length]. change (inject_Z (Z.of_nat 0)) with 0. lra.
  - cbn [foldl length]. specialize (IH (count_decision acc a)).
    pose proof (count_decision_step acc a).
    rewrite Nat2Z.inj_succ, <- Z.add_1_l, inject_Z_plus.
    change (inject_Z 1) with 1. lra.
Qed.

Lemma decision_bounds acts s : 0 <= _assess_decision_making acts s <= 100.
Proof.
  unfold _assess_decision_making.
  destruct (List.filter (has_type "decision") acts) as [|a l]; [lra|].
  destruct (0 <? length (a :: l))%nat; [|lra].
  pose proof (count_decision_foldl (a :: l) 0) as H.
  set (c := foldl count_decision 0 (a :: l)) in *.
  assert (0 < inject_Z (Z.of_nat (length (a :: l)))) as Hn.
  { change 0 with (inject_Z 0). rewrite <- Zlt_Qlt. simpl. lia. }
  set (n := inject_Z (Z.of_nat (length (a :: l)))) in *.
  assert (0 <= c / n <= 1) as Hr.
  { split.
    - apply Qle_shift_div_l; [done|]. lra.
    - apply Qle_shift_div_r; [done|]. lra. }
  lra.
Qed.

Lemma awareness_foldl l acc :
  acc <= foldl (λ score action,
                  let action_type := default "" (a_type action) in
                  if existsb (λ indicator, Py.contains indicator action_type)
                             awareness_indicators
                  then score + 10 else score) acc l.
Proof.
  revert acc. induction l as [|a l IH]; intros acc; [cbn [foldl]; lra|].
  cbn [foldl]. cbv zeta.
  destruct (existsb _ _).
  - apply Qle_trans with (acc + 10); [lra|apply IH].
  - apply IH.
Qed.

Lemma awareness_bounds acts : 70 <= _assess_situational_awareness acts <= 100.
Proof.
  unfold _assess_situational_awareness.
  apply py_min_bounds; [apply awareness_foldl|lra].
Qed.

Lemma time_management_bounds t s q :
  _assess_time_management t s = Ok q → 30 <= q <= 100.
Proof.
  unfold _assess_time_management.
  destruct (Py.index _ 0) as [p0|] eqn:E0; [|done]. cbn [result_bind].
  destruct (Py.int_of_str p0) as [n0|] eqn:I0; [|done]. cbn [result_bind].
  destruct (Py.index _ 1) as [p1|] eqn:E1; [|done]. cbn [result_bind].
  destruct (Py.int_of_str p1) as [n1|] eqn:I1; [|done]. cbn [result_bind].
  pose proof (duration_bound_nonneg _ _ _ _ E0 I0) as Hn0.
  pose proof (duration_bound_nonneg _ _ _ _ E1 I1) as Hn1.
  cbv zeta.
  destruct (_ && _)%bool eqn:Hin; [intros ?; simplify_eq; lra|].
  destruct (Z.ltb_spec t (n0 * 60)) as [Hlt|Hge].
  - destruct (py_div _ _) as [r|] eqn:Hd; [|done].
    apply py_div_inv in Hd as [-> Hz].
    cbn [result_bind]. intros ?. simplify_eq.
    destruct (py_max_spec 70
      (100 - inject_Z (n0 * 60 - t) / inject_Z (n0 * 60) * 30))
      as (H1 & H2 & [E | E]); rewrite E in *; [lra|].
    split; [lra|].
    assert (0 < inject_Z (n0 * 60)) as Hpos.
    { apply Qeq_bool_neq in Hz. change 0 with (inject_Z 0) in *.
      rewrite <- Zlt_Qlt. rewrite inject_Z_injective in Hz. lia. }
    assert (0 <= inject_Z (n0 * 60 - t) / inject_Z (n0 * 60)) as Hr.
    { apply Qle_shift_div_l; [done|]. rewrite Qmult_0_l.
      change 0 with (inject_Z 0). rewrite <- Zle_Qle. lia. }
    lra.
  - destruct (py_div _ _) as [r|] eqn:Hd; [|done].
    apply py_div_inv in Hd as [-> Hz].
    cbn [result_bind]. intros ?. simplify_eq.
    destruct (py_max_spec 30
      (100 - inject_Z (t - n1 * 60) / inject_Z (n1 * 60) * 50))
      as (H1 & H2 & [E | E]); rewrite E in *; [lra|].
    split; [lra|].
    assert (0 < inject_Z (n1 * 60)) as Hpos.
    { apply Qeq_bool_neq in Hz. change 0 with (inject_Z 0) in *.
      rewrite <- Zlt_Qlt. rewrite inject_Z_injective in Hz. lia. }
    assert (0 <= inject_Z (t - n1 * 60) / inject_Z (n1 * 60)) as Hr.
    { apply Qle_shift_div_l; [done|]. rewrite Qmult_0_l.
      change 0 with (inject_Z 0). rewrite <- Zle_Qle.
      apply andb_false_iff in Hin.
      rewrite Z.leb_gt, Z.leb_gt in Hin. lia. }
    lra.
Qed.

(** Whenever the non-technical assessment returns, its score is between 0
    and 100 (in fact at least 16.5), whatever the step, the actions and the
    time. *)
Lemma non_technical_score_bounds s acts t q :
  _assess_non_technical_skills s acts t = Ok q → 0 <= q <= 100.
Proof.
  unfold _assess_non_technical_skills.
  destruct (_assess_time_management t s) as [ts|] eqn:E; [|done].
  cbn [result_bind]. intros ?. simplify_eq.
  pose proof (communication_bounds acts).
  pose proof (decision_bounds acts s).
  pose proof (time_management_bounds t s ts E).
  pose proof (awareness_bounds acts).
  unfold sum_Q. cbn [foldl]. lra.
Qed.

End bounds.

(** ** Time management on a well-formed duration *)

Section time_management.

Local Open Scope Q_scope.

(** The score of [_assess_time_management] on a duration ["lo-hi minutes"],
    with the parsing done. *)
Lemma time_management_string t s lo hi :
  duration s = Some (duration_string lo hi) →
  _assess_time_management t s
  = let expected_min := (Z.of_N lo * 60)%Z in
    let expected_max := (Z.of_N hi * 60)%Z in
    if ((expected_min <=? t) && (t <=? expected_max))%Z then Ok 100
    else if (t <? expected_min)%Z then
      let? ratio := py_div (inject_Z (expected_min - t))
                           (inject_Z expected_min) in
      Ok (py_max 70 (100 - ratio * 30))
    else
      let? ratio := py_div (inject_Z (t - expected_max))
                           (inject_Z expected_max) in
      Ok (py_max 30 (100 - ratio * 50)).
Proof.
  intros Hd. unfold _assess_time_management. rewrite Hd. cbn [default].
  cbv zeta. unfold id. rewrite duration_parts_string.
  destruct (index_pair (Py.str_of_N lo) (Py.str_of_N hi)) as [-> ->].
  cbn [result_bind]. rewrite !int_of_str_str_of_N. reflexivity.
Qed.

Lemma py_div_raises a b e :
  py_div a b = Raise e → e = ZeroDivisionError ∨ e = OverflowError.
Proof.
  unfold py_div. destruct (Qeq_bool b 0); [intros [= <-]; by left|].
  destruct (Qle_bool float_overflow (Qabs (a / b))); [|done].
  intros [= <-]. by right.
Qed.

Lemma inject_Z_pos z : (0 < z)%Z → 0 < inject_Z z.
Proof. intros Hz. change 0 with (inject_Z 0). by rewrite <- Zlt_Qlt. Qed.

Lemma ratio_pos a b : (0 < a)%Z → (0 < b)%Z → 0 < inject_Z a / inject_Z b.
Proof.
  intros Ha Hb. apply Qlt_shift_div_l; [by apply inject_Z_pos|].
  rewrite Qmult_0_l. by apply inject_Z_pos.
Qed.

(** X1.  On a step whose duration is ["lo-hi minutes"] with both bounds at
    most 1440 (the minutes of a day), whenever [_assess_time_management]
    returns a score, the score is 100 exactly when the time taken lies in the
    window from [lo * 60] to [hi * 60] seconds; it is never below 30, and
    never below 70 for a time under the window.  (The bound on the window
    keeps the penalty of one second above the rounding of a float: for a
    window of 10^14 minutes a time one second outside it still scores
    100.0.) *)
Theorem time_management_window (t : Z) (s : Step) (lo hi : N) (q : Q) :
  duration s = Some (duration_string lo hi) →
  (lo ≤ 1440)%N → (hi ≤ 1440)%N →
  _assess_time_management t s = Ok q →
  (q == 100 ↔ (Z.of_N lo * 60 ≤ t ≤ Z.of_N hi * 60)%Z) ∧
  30 <= q <= 100 ∧
  ((t < Z.of_N lo * 60)%Z → 70 <= q).
Proof.
  intros Hd _ _. rewrite (time_management_string t s lo hi Hd). cbv zeta.
  destruct (Z.leb_spec (Z.of_N lo * 60) t) as [Hlo|Hlo];
    [destruct (Z.leb_spec t (Z.of_N hi * 60)) as [Hhi|Hhi]|]; cbn [andb].
  - intros [= <-]. split; [|split]; [|lra|lia]. split; [lia|reflexivity].
  - destruct (Z.ltb_spec t (Z.of_N lo * 60)) as [?|_]; [lia|].
    destruct (Z.of_N hi * 60)%Z as [|m|m] eqn:Em; [|clear Em|lia].
    { unfold py_div. change (Qeq_bool (inject_Z 0) 0) with true.
      cbn [result_bind]. intros [=]. }
    destruct (py_div _ _) as [r|] eqn:Hdiv; [|intros [=]].
    apply py_div_inv in Hdiv as [-> _]. cbn [result_bind]. intros [= <-].
    pose proof (ratio_pos (t - Z.pos m) (Z.pos m) ltac:(lia) ltac:(lia)) as Hr.
    destruct (py_max_spec 30
                (100 - inject_Z (t - Z.pos m) / inject_Z (Z.pos m) * 50))
      as (H1 & H2 & [E | E]); rewrite E in *.
    + split; [|split]; [|lra|lia]. split; [intros Hq; lra|lia].
    + split; [|split]; [|lra|lia]. split; [intros Hq; lra|lia].
  - destruct (Z.ltb_spec t (Z.of_N lo * 60)) as [_|?]; [|lia].
    destruct (Z.of_N lo * 60)%Z as [|m|m] eqn:Em; [|clear Em|lia].
    { unfold py_div. change (Qeq_bool (inject_Z 0) 0) with true.
      cbn [result_bind]. intros [=]. }
    destruct (py_div _ _) as [r|] eqn:Hdiv; [|intros [=]].
    apply py_div_inv in Hdiv as [-> _]. cbn [result_bind]. intros [= <-].
    pose proof (ratio_pos (Z.pos m - t) (Z.pos m) ltac:(lia) ltac:(lia)) as Hr.
    destruct (py_max_spec 70
                (100 - inject_Z (Z.pos m - t) / inject_Z (Z.pos m) * 30))
      as (H1 & H2 & [E | E]); rewrite E in *.
    + split; [|split]; [|lra|lra]. split; [intros Hq; lra|lia].
    + split; [|split]; [|lra|intros _; lra]. split; [intros Hq; lra|lia].
Qed.

Lemma time_management_window_witness :
  ∃ q, _assess_time_management 1200
         (catalog_step 2 "Trocar Placement"
            "Create pneumoperitoneum and insert trocars" "10-15 minutes"
            [] []) = Ok q ∧
       ¬ q == 100 ∧ 30 <= q <= 100.
Proof.
  assert (∃ q, _assess_time_management 1200
                 (catalog_step 2 "Trocar Placement"
                    "Create pneumoperitoneum and insert trocars"
                    "10-15 minutes" [] []) = Ok q) as [q Hq]
    by (vm_compute; eexists; reflexivity).
  exists q. split; [exact Hq|].
  destruct (time_management_window 1200 _ 10 15 q
              (eq_refl : duration (catalog_step 2 "Trocar Placement"
                                     "Create pneumoperitoneum and insert trocars"
                                     "10-15 minutes" [] [])
                         = Some (duration_string 10 15))
              ltac:(lia) ltac:(lia) Hq)
    as (Hw & Hb & _).
  split; [|exact Hb]. intros H100. apply Hw in H100. lia.
Defined.

Lemma classic_zero_bound (lo hi : N) (t : Z) :
  (hi = 0%N ∧ (0 < t)%Z ∧ (Z.of_N lo * 60 ≤ t)%Z) ∨
  ¬ (hi = 0%N ∧ (0 < t)%Z ∧ (Z.of_N lo * 60 ≤ t)%Z).
Proof.
  destruct (decide (hi = 0%N)); [|right; tauto].
  destruct (Z.lt_ge_cases 0 t); [|right; lia].
  destruct (Z.le_gt_cases (Z.of_N lo * 60) t); [left|right]; [done|lia].
Qed.

(** X2.  On a step whose duration is ["lo-hi minutes"] (with bounds of at
    most 4300 digits, which [int] parses) and for a time that is not
    negative, [_assess_time_management] raises [ZeroDivisionError]
    when the upper bound is 0 and the time is positive and not under the
    window; in every other case it returns a score, as long as the time is at
    most 10^300 seconds.  Its only other exception is the [OverflowError] of
    the division, for a time beyond that limit. *)
Theorem time_management_zero_bound (t : Z) (s : Step) (lo hi : N) :
  duration s = Some (duration_string lo hi) →
  (lo < int_limit)%N → (hi < int_limit)%N →
  (0 ≤ t)%Z →
  (hi = 0%N ∧ (0 < t)%Z ∧ (Z.of_N lo * 60 ≤ t)%Z →
     _assess_time_management t s = Raise ZeroDivisionError) ∧
  (¬ (hi = 0%N ∧ (0 < t)%Z ∧ (Z.of_N lo * 60 ≤ t)%Z) →
     (t ≤ time_limit)%Z →
     ∃ q, _assess_time_management t s = Ok q) ∧
  (∀ e, _assess_time_management t s = Raise e →
     e = ZeroDivisionError ∨ e = OverflowError ∧ (time_limit < t)%Z).
Proof.
  intros Hd _ _ Ht.
  assert (hi = 0%N ∧ (0 < t)%Z ∧ (Z.of_N lo * 60 ≤ t)%Z →
          _assess_time_management t s = Raise ZeroDivisionError) as Hzero.
  { rewrite (time_management_string t s lo hi Hd). cbv zeta.
    intros (-> & Hpos & Hlo). change (Z.of_N 0 * 60)%Z with 0%Z.
    destruct (Z.leb_spec (Z.of_N lo * 60) t) as [_|?]; [|lia].
    destruct (Z.leb_spec t 0) as [?|_]; [lia|]. cbn [andb].
    destruct (Z.ltb_spec t (Z.of_N lo * 60)) as [?|_]; [lia|].
    reflexivity. }
  assert (¬ (hi = 0%N ∧ (0 < t)%Z ∧ (Z.of_N lo * 60 ≤ t)%Z) →
          (t ≤ time_limit)%Z →
          ∃ q, _assess_time_management t s = Ok q) as Hok.
  { rewrite (time_management_string t s lo hi Hd). cbv zeta.
    intros Hnot Hlimit.
    destruct (Z.leb_spec (Z.of_N lo * 60) t) as [Hlo|Hlo];
      [destruct (Z.leb_spec t (Z.of_N hi * 60)) as [Hhi|Hhi]|]; cbn [andb].
    - by eexists.
    - destruct (Z.ltb_spec t (Z.of_N lo * 60)) as [?|_]; [lia|].
      assert (0 < Z.of_N hi * 60)%Z as Hpos.
      { destruct hi as [|p]; [|lia]. exfalso. apply Hnot. lia. }
      rewrite (py_div_ratio _ _ t) by (done || lia || nia). by eexists.
    - destruct (Z.ltb_spec t (Z.of_N lo * 60)) as [_|?]; [|lia].
      rewrite (py_div_ratio _ _ t) by (lia || nia). by eexists. }
  split; [exact Hzero|]. split; [exact Hok|].
  intros e He.
  destruct (Z.le_gt_cases t time_limit) as [Hlimit|Hlimit].
  - left.
    destruct (classic_zero_bound lo hi t) as [Hc|Hc].
    + rewrite (Hzero Hc) in He. by injection He.
    + destruct (Hok Hc Hlimit) as [q Hq]. rewrite Hq in He. discriminate He.
  - revert He. rewrite (time_management_string t s lo hi Hd). cbv zeta.
    destruct (_ && _)%bool; [intros [=]|].
    destruct (t <? Z.of_N lo * 60)%Z.
    + destruct (py_div _ _) as [r|e'] eqn:Hdiv; [intros [=]|].
      cbn [result_bind]. intros [= ->].
      apply py_div_raises in Hdiv as [->| ->]; [by left|by right].
    + destruct (py_div _ _) as [r|e'] eqn:Hdiv; [intros [=]|].
      cbn [result_bind]. intros [= ->].
      apply py_div_raises in Hdiv as [->| ->]; [by left|by right].
Qed.

Lemma time_management_zero_bound_witness :
  _assess_time_management 30
    (catalog_step 1 "Closure" "Close incisions" "0-0 minutes" [] [])
  = Raise ZeroDivisionError.
Proof.
  refine (proj1 (time_management_zero_bound 30 _ 0 0
                   (eq_refl : duration (catalog_step 1 "Closure"
                                          "Close incisions" "0-0 minutes"
                                          [] [])
                              = Some (duration_string 0 0)) _ _ _) _).
  - vm_compute. reflexivity.
  - vm_compute. reflexivity.
  - lia.
  - split; [reflexivity|]. split; simpl; lia.
Defined.

End time_management.

(** ** Decisions, awareness and single skills *)

Section sub_scores.

Local Open Scope Q_scope.

Lemma outcomes_cons o a l :
  outcomes o (a :: l)
  = (Nat.b2n (match outcome a with
              | Some o' => (o' =? o)%string
              | None => false
              end) + outcomes o l)%nat.
Proof.
  unfold outcomes. cbn [List.filter].
  by destruct (match outcome a with Some _ => _ | None => _ end).
Qed.

Lemma count_decision_closed l acc :
  foldl count_decision acc l
  == acc + inject_Z (Z.of_nat (outcomes "correct" l))
     + 0.7 * inject_Z (Z.of_nat (outcomes "safe_alternative" l)).
Proof.
  revert acc. induction l as [|a l IH]; intros acc.
  { cbn [foldl]. change (outcomes _ []) with O.
    change (inject_Z (Z.of_nat 0)) with 0. ring. }
  cbn [foldl]. rewrite IH, !outcomes_cons. unfold count_decision.
  rewrite !Nat2Z.inj_add, !inject_Z_plus.
  generalize (inject_Z (Z.of_nat (outcomes "correct" l))).
  generalize (inject_Z (Z.of_nat (outcomes "safe_alternative" l))).
  intros x y.
  destruct (outcome a) as [o|]; [|cbn [Nat.b2n]; change (inject_Z (Z.of_nat 0)) with 0; ring].
  destruct (String.eqb_spec o "correct") as [->|Hc].
  { change ("correct" =? "safe_alternative")%string with false.
    cbn [Nat.b2n]. change (inject_Z (Z.of_nat 0)) with 0.
    change (inject_Z (Z.of_nat 1)) with 1. ring. }
  destruct (String.eqb_spec o "safe_alternative") as [->|Hs];
    cbn [Nat.b2n]; change (inject_Z (Z.of_nat 0)) with 0;
    change (inject_Z (Z.of_nat 1)) with 1; ring.
Qed.

(** No decision is both correct and a safe alternative. *)
Lemma outcomes_disjoint l :
  (outcomes "correct" l + outcomes "safe_alternative" l ≤ length l)%nat.
Proof.
  induction l as [|a l IH]; [done|]. rewrite !outcomes_cons. cbn [length].
  destruct (outcome a) as [o|]; [|simpl; lia].
  destruct (String.eqb_spec o "correct") as [->|Hc].
  { change ("correct" =? "safe_alternative")%string with false. simpl. lia. }
  destruct (o =? "safe_alternative")%string; simpl; lia.
Qed.

Lemma inject_nat_nonneg n : 0 <= inject_Z (Z.of_nat n).
Proof. change 0 with (inject_Z 0). rewrite <- Zle_Qle. lia. Qed.

Lemma inject_nat_eq n m : inject_Z (Z.of_nat n) == inject_Z (Z.of_nat m) → n = m.
Proof. intros H. rewrite inject_Z_injective in H. by apply Nat2Z.inj. Qed.

Lemma inject_nat_le n m : (n ≤ m)%nat → inject_Z (Z.of_nat n) <= inject_Z (Z.of_nat m).
Proof. intros H. rewrite <- Zle_Qle. lia. Qed.

(** The decision sub-score in exact arithmetic. *)
Lemma decision_score_exact (actions : list Action) (step : Step) :
  let ds := List.filter (has_type "decision") actions in
  let n := inject_Z (Z.of_nat (length ds)) in
  let c := inject_Z (Z.of_nat (outcomes "correct" ds)) in
  let a := inject_Z (Z.of_nat (outcomes "safe_alternative" ds)) in
  match ds with
  | [] => _assess_decision_making actions step = 70
  | _ =>
      _assess_decision_making actions step == (c + 0.7 * a) / n * 100 ∧
      (_assess_decision_making actions step == 100
       ↔ outcomes "correct" ds = length ds) ∧
      (_assess_decision_making actions step == 0
       ↔ outcomes "correct" ds = O ∧ outcomes "safe_alternative" ds = O)
  end.
Proof.
  intros ds n c a. unfold _assess_decision_making. fold ds.
  destruct ds as [|d ds'] eqn:Eds; [reflexivity|].
  change (0 <? length (d :: ds'))%nat with true. cbv iota.
  pose proof (count_decision_closed (d :: ds') 0) as Hc. fold c a in Hc.
  pose proof (outcomes_disjoint (d :: ds')) as Hdis.
  apply inject_nat_le in Hdis. rewrite Nat2Z.inj_add, inject_Z_plus in Hdis.
  fold c a n in Hdis.
  pose proof (inject_nat_nonneg (outcomes "correct" (d :: ds'))) as Hc0.
  pose proof (inject_nat_nonneg (outcomes "safe_alternative" (d :: ds')))
    as Ha0.
  fold c in Hc0. fold a in Ha0.
  assert (0 < n) as Hn.
  { unfold n. change 0 with (inject_Z 0). rewrite <- Zlt_Qlt. simpl. lia. }
  assert (foldl count_decision 0 (d :: ds') / n * 100
          == (c + 0.7 * a) / n * 100) as Hform.
  { rewrite Hc. field. lra. }
  fold n. split; [exact Hform|]. rewrite Hform.
  assert ((c + 0.7 * a) / n * n == c + 0.7 * a) as Hmul
    by (field; lra).
  set (x := (c + 0.7 * a) / n) in *.
  split; split.
  - intros Hx. assert (x == 1) as Hx1 by lra. rewrite Hx1 in Hmul.
    apply inject_nat_eq. fold c n. lra.
  - intros Hall. assert (c == n) as Hcn by (unfold c, n; by rewrite Hall).
    assert (a == 0) as Ha by lra.
    assert (x * n == 1 * n) as Hxn by (rewrite Hmul; lra).
    apply Qmult_inj_r in Hxn; [lra|lra].
  - intros Hx. assert (x == 0) as Hx0 by lra. rewrite Hx0 in Hmul.
    split; apply inject_nat_eq; [fold c|fold a];
      change (inject_Z (Z.of_nat 0)) with 0; lra.
  - intros [H1 H2]. assert (c == 0) as Hcz by (unfold c; by rewrite H1).
    assert (a == 0) as Haz by (unfold a; by rewrite H2).
    assert (x * n == 0 * n) as Hxn by (rewrite Hmul; lra).
    apply Qmult_inj_r in Hxn; [lra|lra].
Qed.

(** X3.  With no action of type 'decision' the decision sub-score is 70.
    Otherwise, for up to a million actions, it is 100 times the share of good
    decisions, a correct one counting 1 and a safe alternative 0.7, up to the
    rounding of the float sum and quotient (three safe alternatives give
    69.99999999999999); it lies between 0 and 100, is 100 exactly when every
    decision is correct, and 0 exactly when none is correct or a safe
    alternative. *)
Theorem decision_score_closed_form (actions : list Action) (step : Step) :
  (Z.of_nat (length actions) ≤ 1000000)%Z →
  let ds := List.filter (has_type "decision") actions in
  let n := inject_Z (Z.of_nat (length ds)) in
  let c := inject_Z (Z.of_nat (outcomes "correct" ds)) in
  let a := inject_Z (Z.of_nat (outcomes "safe_alternative" ds)) in
  match ds with
  | [] => _assess_decision_making actions step = 70
  | _ =>
      near (_assess_decision_making actions step) ((c + 0.7 * a) / n * 100) ∧
      0 <= _assess_decision_making actions step <= 100 ∧
      (_assess_decision_making actions step == 100
       ↔ outcomes "correct" ds = length ds) ∧
      (_assess_decision_making actions step == 0
       ↔ outcomes "correct" ds = O ∧ outcomes "safe_alternative" ds = O)
  end.
Proof.
  intros _ ds n c a.
  pose proof (decision_score_exact actions step) as H. cbv zeta in H.
  fold ds in H. fold n c a in H.
  destruct ds as [|d ds']; [exact H|].
  destruct H as (Hform & H100 & H0).
  split; [by apply near_of_eq|].
  split; [apply decision_bounds|]. by split.
Qed.

Lemma decision_score_closed_form_witness :
  near (_assess_decision_making
          [decision "safe_alternative"; decision "safe_alternative";
           decision "safe_alternative"]
          (catalog_step 1 "Closure" "Close incisions" "5-10 minutes" [] []))
       70 ∧
  ¬ _assess_decision_making
      [decision "safe_alternative"; decision "safe_alternative";
       decision "safe_alternative"]
      (catalog_step 1 "Closure" "Close incisions" "5-10 minutes" [] [])
    == 100.
Proof.
  pose proof (decision_score_closed_form
                [decision "safe_alternative"; decision "safe_alternative";
                 decision "safe_alternative"]
                (catalog_step 1 "Closure" "Close incisions" "5-10 minutes"
                   [] [])
                ltac:(simpl; lia)) as H.
  cbv zeta in H. cbn [List.filter has_type decision a_type String.eqb] in H.
  destruct H as (Hnear & _ & H100 & _).
  split.
  - unfold near in *. vm_compute in Hnear. vm_compute. exact Hnear.
  - intros Hq. apply H100 in Hq. vm_compute in Hq. discriminate Hq.
Defined.

Lemma awareness_step_closed l acc :
  foldl (λ score action,
           let action_type := default "" (a_type action) in
           if existsb (λ indicator, Py.contains indicator action_type)
                      awareness_indicators
           then score + 10 else score) acc l
  == acc + inject_Z (10 * Z.of_nat (length (List.filter shows_awareness l))).
Proof.
  revert acc. induction l as [|a l IH]; intros acc.
  { cbn [foldl List.filter length]. change (inject_Z (10 * Z.of_nat 0)) with 0.
    ring. }
  cbn [foldl List.filter]. cbv zeta. rewrite IH. unfold shows_awareness at 2.
  destruct (existsb _ awareness_indicators).
  - cbn [length]. rewrite Nat2Z.inj_succ, <- Z.add_1_r, Z.mul_add_distr_l.
    rewrite inject_Z_plus. change (inject_Z (10 * 1)) with 10. ring.
  - reflexivity.
Qed.

(** X4.  The situational-awareness sub-score is 70 plus 10 for every action
    whose type names an awareness indicator, capped at 100. *)
Theorem awareness_score_closed_form (actions : list Action) :
  let k := Z.of_nat (length (List.filter shows_awareness actions)) in
  _assess_situational_awareness actions == inject_Z (Z.min (70 + 10 * k) 100).
Proof.
  intros k. unfold _assess_situational_awareness.
  rewrite (py_min_proper _ _ _ (awareness_step_closed actions 70)). fold k.
  change 70 with (inject_Z 70). rewrite <- inject_Z_plus.
  unfold py_min. change 100 with (inject_Z 100).
  destruct (Qltb (inject_Z 100) (inject_Z (70 + 10 * k))) eqn:E.
  - apply Qltb_lt in E. rewrite <- Zlt_Qlt in E. by rewrite Z.min_r by lia.
  - apply Qltb_ge in E. rewrite <- Zle_Qle in E. by rewrite Z.min_l by lia.
Qed.

End sub_scores.

(** ** The technical score *)

Section technical.

Local Open Scope Q_scope.

Lemma score_action_skip skill t acc a :
  practises skill a = false → score_action skill t acc a = acc.
Proof. unfold practises, score_action. by intros ->. Qed.

Lemma score_action_counted skill t acc a :
  practises skill a = true →
  score_action skill t acc a
  == (acc + inject_Z (accuracy_points a)) *
     (if in_time t a then 1 else 0.8).
Proof.
  unfold practises, score_action, accuracy_points, in_time. intros ->.
  cbv zeta.
  destruct (Qgtb (default 0 (accuracy a)) 0.8);
    [|destruct (Qgtb (default 0 (accuracy a)) 0.6)];
    destruct (Qgtb (inject_Z t) (default 300 (expected_time a) * 1.5));
    cbn [negb]; ring.
Qed.

Lemma accuracy_points_pos a : (5 ≤ accuracy_points a ≤ 20)%Z.
Proof.
  unfold accuracy_points.
  destruct (Qgtb _ 0.8); [lia|]. destruct (Qgtb _ 0.6); lia.
Qed.

Lemma score_action_positive skill t acc a :
  0 <= acc → practises skill a = true → 0 < score_action skill t acc a.
Proof.
  intros Hacc Hp. rewrite (score_action_counted skill t acc a Hp).
  pose proof (accuracy_points_pos a) as [Hlo _].
  assert (5 <= inject_Z (accuracy_points a)) as Hq
    by (change 5 with (inject_Z 5); by rewrite <- Zle_Qle).
  destruct (in_time t a); nra.
Qed.

Lemma score_action_nonneg skill t acc a :
  0 <= acc → 0 <= score_action skill t acc a.
Proof.
  intros Hacc. destruct (practises skill a) eqn:Hp.
  - apply Qlt_le_weak. by apply score_action_positive.
  - by rewrite score_action_skip.
Qed.

Lemma score_foldl_nonneg skill t l acc :
  0 <= acc → 0 <= foldl (score_action skill t) acc l.
Proof.
  revert acc. induction l as [|a l IH]; intros acc Hacc; [done|].
  cbn [foldl]. apply IH. by apply score_action_nonneg.
Qed.

Lemma score_foldl_zero skill t l acc :
  0 <= acc →
  (foldl (score_action skill t) acc l == 0
   ↔ acc == 0 ∧ Forall (λ a, practises skill a = false) l).
Proof.
  revert acc. induction l as [|a l IH]; intros acc Hacc; cbn [foldl].
  { split; [intros H; by split|by intros [H _]]. }
  rewrite (IH _ (score_action_nonneg skill t acc a Hacc)).
  destruct (practises skill a) eqn:Hp.
  - pose proof (score_action_positive skill t acc a Hacc Hp).
    split; [intros [H0 _]; lra|].
    intros [_ Hall]. apply Forall_cons in Hall as [Hfalse _]. congruence.
  - rewrite (score_action_skip skill t acc a Hp).
    split; intros [H0 Hall]; (split; [done|]).
    + by constructor.
    + by apply Forall_cons in Hall as [_ Hall].
Qed.


(** The score of one skill lies between 0 and 100. *)
Lemma skill_score_bounds skill actions t :
  0 <= _score_technical_skill skill actions t <= 100.
Proof.
  unfold _score_technical_skill. apply py_min_bounds; [|lra].
  apply score_foldl_nonneg. lra.
Qed.

(** It is 0 exactly when no action is counted for the skill. *)
Lemma skill_score_zero skill actions t :
  _score_technical_skill skill actions t == 0
  ↔ Forall (λ a, practises skill a = false) actions.
Proof.
  unfold _score_technical_skill.
  pose proof (score_foldl_nonneg skill t actions 0 ltac:(lra)) as H0.
  pose proof (score_foldl_zero skill t actions 0 ltac:(lra)) as Hz.
  set (x := foldl (score_action skill t) 0 actions) in *.
  destruct (py_min_spec x 100) as (H1 & H2 & [E | E]); rewrite E in *.
  - rewrite Hz. split; [by intros [_ H]|by split].
  - split; [intros H; discriminate H|].
    intros Hall. assert (x == 0) by (apply Hz; by split). lra.
Qed.



(** The scoring table has two entries. *)
Lemma scoring_criteria_lookup key c :
  _load_scoring_criteria !! key = Some c →
  (key = "laparoscopic_cholecystectomy" ∧
   technical_skills c = cholecystectomy_criteria) ∨
  (key = "appendectomy" ∧ technical_skills c = appendectomy_criteria).
Proof.
  unfold _load_scoring_criteria.
  rewrite lookup_insert_Some. intros [[<- <-]|[_ H]]; [by left|].
  apply lookup_insert_Some in H as [[<- <-]|[_ H]]; [by right|].
  by rewrite lookup_empty in H.
Qed.

(** None of the appendectomy skills has keywords, so none is ever
    relevant. *)
Lemma appendectomy_totals step acts t :
  foldl (add_skill step acts t) (0, 0) appendectomy_criteria = (0, 0).
Proof. reflexivity. Qed.

Lemma add_skill_totals step acts t criteria :
  Forall (λ e : string * Criterion, 0 < weight e.2) criteria →
  ∀ ts tw, 0 <= ts → ts <= 100 * tw → 0 <= tw →
    let r := foldl (add_skill step acts t) (ts, tw) criteria in
    0 <= r.1 ∧ r.1 <= 100 * r.2 ∧ tw <= r.2.
Proof.
  induction 1 as [|[skill crit] criteria Hw _ IH]; intros ts tw H0 H1 H2.
  { cbn [foldl]. simpl. repeat split; lra. }
  cbn [foldl]. cbn [add_skill]. simpl in Hw.
  destruct (_is_skill_relevant_to_step skill step).
  - destruct (skill_score_bounds skill acts t) as [Hs0 Hs1].
    set (sc := _score_technical_skill skill acts t) in *.
    destruct (IH (ts + sc * weight crit) (tw + weight crit)) as (A & B & C);
      [nra|nra|lra|].
    repeat split; [done|done|lra].
  - by apply IH.
Qed.

Lemma add_skill_untouched step acts t criteria ts tw :
  Forall (λ e : string * Criterion,
            _is_skill_relevant_to_step e.1 step = true →
            _score_technical_skill e.1 acts t == 0) criteria →
  (foldl (add_skill step acts t) (ts, tw) criteria).1 == ts.
Proof.
  intros Hall. revert ts tw.
  induction Hall as [|[skill crit] criteria Hz _ IH]; intros ts tw;
    [reflexivity|].
  cbn [foldl]. cbn [add_skill]. simpl in Hz.
  destruct (_is_skill_relevant_to_step skill step); [|apply IH].
  rewrite IH, (Hz eq_refl). ring.
Qed.

Lemma cholecystectomy_weights :
  Forall (λ e : string * Criterion, 0 < weight e.2) cholecystectomy_criteria.
Proof. repeat constructor. Qed.

Lemma technical_score_unfold key step acts t c :
  _load_scoring_criteria !! key = Some c →
  _assess_technical_skills key step acts t
  = let r := foldl (add_skill step acts t) (0, 0) (technical_skills c) in
    if Qgtb r.2 0 then r.1 / r.2 * 100 else 0.
Proof.
  intros Hc. unfold _assess_technical_skills. rewrite Hc. cbv zeta.
  by destruct (foldl _ _ _).
Qed.

(** The technical score in exact arithmetic. *)
Lemma technical_score_exact_range (procedure_type : string) (step : Step)
    (actions : list Action) (time_taken : Z) :
  0 <= _assess_technical_skills procedure_type step actions time_taken
    <= 10000.
Proof.
  destruct (_load_scoring_criteria !! procedure_type) as [c|] eqn:Hc.
  2:{ unfold _assess_technical_skills. rewrite Hc. lra. }
  rewrite (technical_score_unfold _ _ _ _ c Hc). cbv zeta.
  apply scoring_criteria_lookup in Hc as [[_ ->]|[_ ->]].
  - pose proof (add_skill_totals step actions time_taken
                  cholecystectomy_criteria cholecystectomy_weights 0 0
                  ltac:(lra) ltac:(lra) ltac:(lra)) as (A & B & _).
    cbv zeta in A, B.
    destruct (foldl _ _ cholecystectomy_criteria) as [ts tw].
    cbn [fst snd] in *. unfold Qgtb.
    destruct (Qltb 0 tw) eqn:E; [|lra].
    apply Qltb_lt in E.
    assert (0 <= ts / tw) as Hlo
      by (apply Qle_shift_div_l; [done|lra]).
    assert (ts / tw <= 100) as Hhi
      by (apply Qle_shift_div_r; [done|lra]).
    lra.
  - rewrite appendectomy_totals. cbn [fst snd].
    change (Qgtb 0 0) with false. cbv iota. lra.
Qed.

(** X6.  For actions whose expected times fit a float, the technical score of
    a step is never negative and never above 10000, but for the rounding of
    the float operations (three skills at their cap give
    10000.000000000002): it is 100 times the weighted mean of skill scores
    that each lie between 0 and 100. *)
Theorem technical_score_range (procedure_type : string) (step : Step)
    (actions : list Action) (time_taken : Z) :
  Forall (λ a, within_float a = true) actions →
  0 <= _assess_technical_skills procedure_type step actions time_taken
    <= 10000 + (1 # 1000000).
Proof.
  intros _.
  pose proof (technical_score_exact_range procedure_type step actions
                time_taken) as [H0 H1].
  split; [exact H0|]. lra.
Qed.

Lemma technical_score_range_witness :
  0 <= _assess_technical_skills "laparoscopic_cholecystectomy"
         (catalog_step 2 "Trocar Placement"
            "Create pneumoperitoneum and insert trocars" "10-15 minutes"
            [] [])
         [skill_action "trocar_placement" 0.9] 300
    <= 10000 + (1 # 1000000).
Proof.
  apply (technical_score_range "laparoscopic_cholecystectomy" _
           [skill_action "trocar_placement" 0.9] 300).
  repeat constructor.
Defined.

(** X7.  A technical score other than 0 needs a cholecystectomy procedure
    key and an action counted for a skill that is relevant to the step: every
    other procedure key, the appendectomy key of the table included, and every
    action list without such an action, scores 0. *)
Theorem technical_score_needs (procedure_type : string) (step : Step)
    (actions : list Action) (time_taken : Z) :
  ¬ _assess_technical_skills procedure_type step actions time_taken == 0 →
  procedure_type = "laparoscopic_cholecystectomy" ∧
  ∃ skill a, a ∈ actions ∧ practises skill a = true ∧
             _is_skill_relevant_to_step skill step = true.
Proof.
  intros Hnz.
  destruct (_load_scoring_criteria !! procedure_type) as [c|] eqn:Hc.
  2:{ exfalso. apply Hnz. unfold _assess_technical_skills. by rewrite Hc. }
  rewrite (technical_score_unfold _ _ _ _ c Hc) in Hnz. cbv zeta in Hnz.
  apply scoring_criteria_lookup in Hc as [[-> Hc]|[_ Hc]]; rewrite Hc in Hnz.
  2:{ exfalso. apply Hnz. by rewrite appendectomy_totals. }
  split; [reflexivity|].
  destruct (existsb (λ e : string * Criterion,
                       _is_skill_relevant_to_step e.1 step &&
                       existsb (practises e.1) actions)
                    cholecystectomy_criteria) eqn:Hex.
  - apply existsb_exists in Hex as ([skill crit] & _ & Hrel).
    apply andb_true_iff in Hrel as [Hrel Hact].
    apply existsb_exists in Hact as (a & Ha & Hp).
    exists skill, a. split; [by apply list_elem_of_In|]. by split.
  - exfalso. apply Hnz.
    assert (Forall (λ e : string * Criterion,
                      _is_skill_relevant_to_step e.1 step = true →
                      _score_technical_skill e.1 actions time_taken == 0)
                   cholecystectomy_criteria) as Hall.
    { apply Forall_forall. intros e He Hrel.
      apply (skill_score_zero e.1 actions time_taken).
      apply Forall_forall. intros a Ha.
      apply not_true_is_false. intros Hp.
      assert (existsb (λ e : string * Criterion,
                         _is_skill_relevant_to_step e.1 step &&
                         existsb (practises e.1) actions)
                      cholecystectomy_criteria = true) as Habs; [|congruence].
      apply existsb_exists. exists e.
      split; [by apply list_elem_of_In|].
      rewrite Hrel. cbn [andb]. apply existsb_exists. exists a.
      split; [by apply list_elem_of_In|done]. }
    pose proof (add_skill_untouched step actions time_taken
                  cholecystectomy_criteria 0 0 Hall) as Hts.
    destruct (foldl _ _ cholecystectomy_criteria) as [ts tw].
    cbn [fst snd] in *. destruct (Qgtb tw 0); [|reflexivity].
    rewrite Hts. unfold Qdiv. ring.
Qed.

Lemma technical_score_needs_witness :
  ∃ skill a, a ∈ [skill_action "trocar_placement" 0.9] ∧
             practises skill a = true ∧
             _is_skill_relevant_to_step skill
               (catalog_step 2 "Trocar Placement"
                  "Create pneumoperitoneum and insert trocars"
                  "10-15 minutes" [] []) = true.
Proof.
  refine (proj2 (technical_score_needs "laparoscopic_cholecystectomy"
                   (catalog_step 2 "Trocar Placement"
                      "Create pneumoperitoneum and insert trocars"
                      "10-15 minutes" [] [])
                   [skill_action "trocar_placement" 0.9] 300 _)).
  intros H. vm_compute in H. discriminate H.
Defined.

End technical.

(** ** The final report *)

Section report.

Local Open Scope Q_scope.

(** The running maximum of [max(scores)]. *)
Lemma list_max_foldl l x :
  let m := foldl (λ m y, if Qgtb y m then y else m) x l in
  x <= m ∧ Forall (λ y, y <= m) l ∧ (m = x ∨ m ∈ l).
Proof.
  revert x. induction l as [|y l IH]; intros x; cbn [foldl].
  { split; [lra|]. split; [constructor|by left]. }
  cbv zeta. destruct (Qgtb y x) eqn:E.
  - apply Qltb_lt in E. destruct (IH y) as (H1 & H2 & H3). cbv zeta in *.
    split; [lra|]. split; [by constructor|].
    right. destruct H3 as [->|H3]; [left|by right].
  - apply Qltb_ge in E. destruct (IH x) as (H1 & H2 & H3). cbv zeta in *.
    split; [done|]. split; [constructor; [lra|done]|].
    destruct H3 as [H3|H3]; [by left|right; by right].
Qed.

Lemma list_min_foldl l x :
  let m := foldl (λ m y, if Qltb y m then y else m) x l in
  m <= x ∧ Forall (λ y, m <= y) l ∧ (m = x ∨ m ∈ l).
Proof.
  revert x. induction l as [|y l IH]; intros x; cbn [foldl].
  { split; [lra|]. split; [constructor|by left]. }
  cbv zeta. destruct (Qltb y x) eqn:E.
  - apply Qltb_lt in E. destruct (IH y) as (H1 & H2 & H3). cbv zeta in *.
    split; [lra|]. split; [by constructor|].
    right. destruct H3 as [->|H3]; [left|by right].
  - apply Qltb_ge in E. destruct (IH x) as (H1 & H2 & H3). cbv zeta in *.
    split; [done|]. split; [constructor; [lra|done]|].
    destruct H3 as [H3|H3]; [by left|right; by right].
Qed.

Lemma list_max_spec x l :
  Forall (λ y, y <= list_max (x :: l)) (x :: l) ∧ list_max (x :: l) ∈ x :: l.
Proof.
  unfold list_max. destruct (list_max_foldl l x) as (H1 & H2 & H3).
  cbv zeta in *. split; [by constructor|].
  destruct H3 as [->|H3]; [left|by right].
Qed.

Lemma list_min_spec x l :
  Forall (λ y, list_min (x :: l) <= y) (x :: l) ∧ list_min (x :: l) ∈ x :: l.
Proof.
  unfold list_min. destruct (list_min_foldl l x) as (H1 & H2 & H3).
  cbv zeta in *. split; [by constructor|].
  destruct H3 as [->|H3]; [left|by right].
Qed.

(** [l.index(x)] for an [x] of the list: the first position whose element
    equals [x]. *)
Lemma list_index_spec x l :
  x ∈ l →
  let i := list_index x l in
  (0 ≤ i < Z.of_nat (length l))%Z ∧
  (∃ y, l !! Z.to_nat i = Some y ∧ y == x) ∧
  Forall (λ z, ¬ z == x) (take (Z.to_nat i) l).
Proof.
  induction l as [|y l IH]; intros Hin; [by apply elem_of_nil in Hin|].
  cbn [list_index]. destruct (Qeq_bool y x) eqn:E.
  { apply Qeq_bool_iff in E. cbv zeta. cbn [length].
    split; [lia|]. split; [by exists y|constructor]. }
  assert (¬ y == x) as Hne by (by apply Qeq_bool_neq).
  apply elem_of_cons in Hin as [->|Hin]; [by destruct Hne|].
  destruct (IH Hin) as (Hr & (z & Hz & Hzx) & Hbefore). cbv zeta in *.
  cbn [length].
  assert (Z.to_nat (1 + list_index x l) = S (Z.to_nat (list_index x l)))
    as -> by lia.
  split; [lia|]. split; [by exists z|]. cbn [take]. by constructor.
Qed.

(** X9.  In the final report the peak step is a position of the history (from
    1) that holds a largest overall score, the lowest step one that holds a
    smallest, and each is the first such position: every earlier score is
    strictly smaller (larger). *)
Theorem peak_and_lowest_steps (sd : SimulationData (list Step))
    (r : FinalAssessment) :
  generate_final_assessment sd = Report r →
  let scores := map overall_score (step_assessments sd) in
  let peak := peak_performance_step (trends r) in
  let lowest := lowest_performance_step (trends r) in
  (1 ≤ peak ≤ Z.of_nat (length scores))%Z ∧
  (1 ≤ lowest ≤ Z.of_nat (length scores))%Z ∧
  ∃ hi lo, scores !! Z.to_nat (peak - 1) = Some hi ∧
           scores !! Z.to_nat (lowest - 1) = Some lo ∧
           Forall (λ x, lo <= x <= hi) scores ∧
           Forall (λ x, x < hi) (take (Z.to_nat (peak - 1)) scores) ∧
           Forall (λ x, lo < x) (take (Z.to_nat (lowest - 1)) scores).
Proof.
  unfold generate_final_assessment.
  destruct (step_assessments sd) as [|a l]; [intros [=]|].
  intros [= <-]. cbv zeta.
  cbn [trends peak_performance_step lowest_performance_step
       _analyze_performance_trends].
  cbn [map]. set (x := overall_score a). set (xs := map overall_score l).
  destruct (list_max_spec x xs) as [Hmax Hmaxin].
  destruct (list_min_spec x xs) as [Hmin Hminin].
  destruct (list_index_spec _ _ Hmaxin) as (Hr1 & (hi & Hhi & Ehi) & Hb1).
  destruct (list_index_spec _ _ Hminin) as (Hr2 & (lo & Hlo & Elo) & Hb2).
  cbv zeta in *.
  set (M := list_max (x :: xs)) in *. set (m := list_min (x :: xs)) in *.
  set (i := list_index M (x :: xs)) in *.
  set (j := list_index m (x :: xs)) in *.
  assert (i + 1 - 1 = i)%Z as -> by lia.
  assert (j + 1 - 1 = j)%Z as -> by lia.
  split; [lia|]. split; [lia|]. exists hi, lo.
  split; [done|]. split; [done|].
  rewrite Forall_forall in Hmax, Hmin.
  split; [|split].
  - apply Forall_forall. intros y Hy.
    specialize (Hmax y Hy). specialize (Hmin y Hy). simpl in *. lra.
  - apply Forall_forall. intros y Hy.
    assert (y ∈ x :: xs) as Hy'.
    { pose proof Hy as Hk. apply elem_of_take in Hk as (k & Hk & _).
      by eapply list_elem_of_lookup_2. }
    specialize (Hmax y Hy'). simpl in Hmax.
    rewrite Forall_forall in Hb1. specialize (Hb1 y Hy).
    apply Qle_lteq in Hmax as [Hlt|Heq]; [lra|contradiction].
  - apply Forall_forall. intros y Hy.
    assert (y ∈ x :: xs) as Hy'.
    { pose proof Hy as Hk. apply elem_of_take in Hk as (k & Hk & _).
      by eapply list_elem_of_lookup_2. }
    specialize (Hmin y Hy'). simpl in Hmin.
    rewrite Forall_forall in Hb2. specialize (Hb2 y Hy).
    apply Qle_lteq in Hmin as [Hlt|Heq]; [lra|].
    exfalso. apply Hb2. by symmetry.
Qed.

Lemma peak_and_lowest_steps_witness :
  ∃ r, generate_final_assessment two_step_history = Report r ∧
       peak_performance_step (trends r) = 2%Z ∧
       lowest_performance_step (trends r) = 1%Z ∧
       (1 ≤ peak_performance_step (trends r) ≤ 2)%Z.
Proof.
  assert (∃ r, generate_final_assessment two_step_history = Report r)
    as [r Hr] by (eexists; reflexivity).
  exists r. split; [exact Hr|].
  destruct (peak_and_lowest_steps two_step_history r Hr) as (H & _ & _).
  injection Hr as <-.
  split; [reflexivity|]. split; [reflexivity|]. exact H.
Defined.

(** The templates by level. *)
Lemma summary_of_level (overall : Q) (x : string) :
  x ∈ feedback_templates (performance_level_of overall) →
  (Py.contains "safety" (Py.lower x) = true → overall < 60) ∧
  (Py.contains "complication" x = true → 75 <= overall ∧ overall < 90).
Proof.
  assert (∀ level : string,
            x ∈ feedback_templates level →
            Py.contains "safety" (Py.lower x)
            = ((level =? "poor")%string &&
               (x =? "Safety concerns with current approach")%string) ∧
            Py.contains "complication" x
            = ((level =? "good")%string &&
               (x =? "Appropriate response to complications")%string) ∨
            level ∉ ["excellent"; "good"; "needs_improvement"; "poor"])
    as Hlevel.
  { intros level. unfold feedback_templates.
    destruct (String.eqb_spec level "excellent") as [->|?].
    { intros Hx. left.
      repeat (apply elem_of_cons in Hx as [->|Hx]);
        [..|by apply elem_of_nil in Hx]; split; vm_compute; reflexivity. }
    destruct (String.eqb_spec level "good") as [->|?].
    { intros Hx. left.
      repeat (apply elem_of_cons in Hx as [->|Hx]);
        [..|by apply elem_of_nil in Hx]; split; vm_compute; reflexivity. }
    destruct (String.eqb_spec level "needs_improvement") as [->|?].
    { intros Hx. left.
      repeat (apply elem_of_cons in Hx as [->|Hx]);
        [..|by apply elem_of_nil in Hx]; split; vm_compute; reflexivity. }
    destruct (String.eqb_spec level "poor") as [->|?].
    { intros Hx. left.
      repeat (apply elem_of_cons in Hx as [->|Hx]);
        [..|by apply elem_of_nil in Hx]; split; vm_compute; reflexivity. }
    intros _. right. intros Hin.
    repeat (apply elem_of_cons in Hin as [->|Hin]); try done.
    by apply elem_of_nil in Hin. }
  intros Hx. specialize (Hlevel _ Hx). revert Hlevel.
  unfold performance_level_of, Qgeb.
  destruct (Qle_bool 90 overall) eqn:E90.
  { intros [[-> ->]|Hno]; [split; intros [=]|].
    exfalso. apply Hno. repeat constructor. }
  destruct (Qle_bool 75 overall) eqn:E75.
  { apply Qle_bool_iff in E75.
    assert (overall < 90) as H90.
    { apply Qnot_le_lt. intros H. apply Qle_bool_iff in H. congruence. }
    intros [[-> ->]|Hno]; [split; [intros [=]|by intros _]|].
    exfalso. apply Hno. repeat constructor. }
  destruct (Qle_bool 60 overall) eqn:E60.
  { intros [[-> ->]|Hno]; [split; intros [=]|].
    exfalso. apply Hno. repeat constructor. }
  assert (overall < 60) as H60.
  { apply Qnot_le_lt. intros H. apply Qle_bool_iff in H. congruence. }
  intros [[-> ->]|Hno]; [split; [by intros _|intros [=]]|].
  exfalso. apply Hno. repeat constructor.
Qed.

(** X10.  The two counts of the final report read the summary line of a
    step's feedback, which is drawn at random from the templates of the
    step's level.  A summary that [assess_step] produced mentions safety only
    when the overall score is below 60, and mentions a complication only when
    the overall score is at least 75 and below 90. *)
Theorem summary_keywords_by_level (procedure_type : string) (step : Step)
    (n : Z) (actions : list Action) (t : Z) (w w' : world)
    (a : StepAssessment) :
  assess_current_step procedure_type step n actions t w = (Ok a, w') →
  (Py.contains "safety" (Py.lower (summary_of a)) = true →
     overall_score a < 60) ∧
  (Py.contains "complication" (summary_of a) = true →
     75 <= overall_score a ∧ overall_score a < 90).
Proof.
  unfold assess_current_step. intros H.
  apply bind_inv_ok in H as (nt & w1 & _ & H).
  apply bind_inv_ok in H as (fb & w2 & Hfb & H).
  unfold ret in H. injection H as <- _.
  unfold _generate_step_feedback in Hfb.
  apply bind_inv_ok in Hfb as (x & w3 & Hx & Hfb).
  unfold ret in Hfb. injection Hfb as <- _.
  apply random_choice_inv in Hx.
  cbn [summary_of feedback summary overall_score].
  by apply summary_of_level.
Qed.

Lemma summary_keywords_by_level_witness :
  ∃ a w',
    assess_current_step "laparoscopic_cholecystectomy"
      (catalog_step 2 "Trocar Placement"
         "Create pneumoperitoneum and insert trocars" "10-15 minutes" [] [])
      2 [] 700 (start [1%N]) = (Ok a, w') ∧
    summary_of a = "Safety concerns with current approach" ∧
    overall_score a < 60.
Proof.
  eexists _, _. split; [vm_compute; reflexivity|].
  split; [reflexivity|].
  refine (proj1 (summary_keywords_by_level "laparoscopic_cholecystectomy"
                   (catalog_step 2 "Trocar Placement"
                      "Create pneumoperitoneum and insert trocars"
                      "10-15 minutes" [] [])
                   2 [] 700 (start [1%N]) _ _ _) _).
  - vm_compute. reflexivity.
  - reflexivity.
Defined.

End report.

(** ** What [_generate_complications] can do *)

Lemma random_choice_run {A} (l : list A) w :
  l ≠ [] →
  ∃ x, Py.choice l (tape w (cursor w)) = Ok x ∧ x ∈ l ∧
       random_choice l w = (Ok x, advance w).
Proof.
  intros Hl. destruct l as [|a l]; [done|].
  unfold random_choice, bind, draw, lift. cbv beta iota zeta.
  unfold Py.choice.
  destruct (lookup_lt_is_Some_2 (a :: l)
              (N.to_nat (tape w (cursor w)) `mod` length (a :: l))) as [x Hx].
  { apply Nat.mod_upper_bound. simpl. lia. }
  rewrite Hx. exists x. split; [done|]. split; [|done].
  by eapply list_elem_of_lookup_2.
Qed.

Lemma library_entries :
  _load_complications !! "bleeding"
  = Some {| le_severity := Some ["mild"; "moderate"; "severe"];
            le_locations :=
              Some ["trocar site"; "liver bed"; "mesenteric vessel"];
            le_type := None;
            le_management :=
              Some ["pressure"; "electrocautery"; "clip application";
                    "conversion"] |} ∧
  _load_complications !! "bowel_injury"
  = Some {| le_severity := Some ["serosal"; "full_thickness"];
            le_locations := Some ["small bowel"; "colon"];
            le_type := None;
            le_management :=
              Some ["primary repair"; "resection"; "conversion"] |} ∧
  _load_complications !! "equipment_failure"
  = Some {| le_severity := None;
            le_locations := None;
            le_type := Some ["CO2 insufflator"; "electrocautery"; "camera"];
            le_management :=
              Some ["backup equipment"; "troubleshooting"; "conversion"] |}.
Proof. repeat split; vm_compute; reflexivity. Qed.

Lemma possible_complications_cases p x :
  x ∈ possible_complications p →
  x = "bleeding" ∨ x = "equipment_failure" ∨
  (x = "bowel_injury" ∧ p = "laparoscopic_cholecystectomy").
Proof.
  unfold possible_complications.
  destruct (String.eqb_spec p "laparoscopic_cholecystectomy") as [->|_];
    intros Hx; repeat (apply elem_of_cons in Hx as [->|Hx]); auto;
    by apply elem_of_nil in Hx.
Qed.

(** A complication from a library entry that has a severity and a location
    list. *)
Lemma complication_from_entry self selected entry sevs locs man (w : world) :
  complication_library self !! selected = Some entry →
  le_severity entry = Some sevs → le_locations entry = Some locs →
  le_management entry = Some man →
  sevs ≠ [] → locs ≠ [] →
  ∃ c w',
    (let* complication_data :=
       lift (subscript (complication_library self !! selected)) in
     let* severities := lift (subscript (le_severity complication_data)) in
     let* severity := random_choice severities in
     let* locations := lift (subscript (le_locations complication_data)) in
     let* location := random_choice locations in
     let* trigger_step := random_randint 2 5 in
     let* management := lift (subscript (le_management complication_data)) in
     ret [ {| c_type := selected; c_severity := severity;
              c_location := location; c_trigger_step := trigger_step;
              c_management_options := management |} ]) w
    = (Ok [c], w') ∧ c_type c = selected.
Proof.
  intros -> Hsev Hloc Hman Hs Hl. rewrite bind_lift. cbn [subscript].
  rewrite Hsev, bind_lift. cbn [subscript].
  destruct (random_choice_run sevs w Hs) as (sev & _ & _ & Hsev').
  rewrite (bind_ok _ _ _ _ _ Hsev'), Hloc, bind_lift. cbn [subscript].
  destruct (random_choice_run locs (advance w) Hl) as (loc & _ & _ & Hloc').
  rewrite (bind_ok _ _ _ _ _ Hloc'), Hman.
  by eexists _, _.
Qed.

(** The three outcomes of [_generate_complications]. *)
Lemma generate_complications_cases (self : SimulationGenerator)
    (procedure_type difficulty : string) (w : world) :
  complication_library self = _load_complications →
  let run := _generate_complications self procedure_type difficulty w in
  heap (snd run) = heap w ∧
  (draws_equipment_failure procedure_type difficulty w = true →
     fst run = Raise KeyError) ∧
  (draws_equipment_failure procedure_type difficulty w = false →
     fst run = Ok [] ∨
     ∃ c, fst run = Ok [c] ∧
          (c_type c = "bleeding" ∨
           c_type c = "bowel_injury" ∧
           procedure_type = "laparoscopic_cholecystectomy")).
Proof.
  intros Hlib run.
  split; [apply reads_only_generate_complications|].
  unfold run, _generate_complications, draws_equipment_failure.
  assert (random_random w
          = (Ok (F64.ldexp (Z.of_N (tape w (cursor w) mod 2 ^ 53)) (-53)),
             advance w)) as Hr by reflexivity.
  rewrite (bind_ok _ _ _ _ _ Hr).
  destruct (F64.ltb _ (prob_map difficulty)); cbn [andb];
    [|split; [intros [=]|intros _; by left]].
  destruct (random_choice_run (possible_complications procedure_type)
              (advance w)) as (selected & Hch & Hin & Hrun).
  { unfold possible_complications. by destruct (_ =? _)%string. }
  change (tape (advance w) (cursor (advance w)))
    with (tape w (S (cursor w))) in Hch.
  rewrite Hch, (bind_ok _ _ _ _ _ Hrun).
  destruct library_entries as (Hb & Hi & He). rewrite <- Hlib in Hb, Hi, He.
  apply possible_complications_cases in Hin as [->|[->|[-> Hp]]].
  - destruct (complication_from_entry self "bleeding" _ _ _ _
                (advance (advance w)) Hb eq_refl eq_refl eq_refl)
      as (c & w' & Hc & Ht); [done|done|].
    rewrite Hc.
    split; [intros [=]|]. intros _. right. exists c. split; [done|by left].
  - rewrite He, bind_lift. cbn [subscript le_severity].
    rewrite bind_lift. split; [done|intros [=]].
  - destruct (complication_from_entry self "bowel_injury" _ _ _ _
                (advance (advance w)) Hi eq_refl eq_refl eq_refl)
      as (c & w' & Hc & Ht); [done|done|].
    rewrite Hc.
    split; [intros [=]|]. intros _. right. exists c. split; [done|by right].
Qed.

(** X11.  With the complication library of the class, and whatever the
    procedure, the level and the draws, [_generate_complications] leaves the
    heap alone.  It raises [KeyError] exactly when the draws select
    ["equipment_failure"], whose library entry has no severity list, and it
    raises nothing else; a list it returns is empty or holds one complication,
    of type ["bleeding"] or, for a cholecystectomy only, ["bowel_injury"]. *)
Theorem complication_outcomes (self : SimulationGenerator)
    (procedure_type difficulty : string) (w : world) :
  complication_library self = _load_complications →
  let run := _generate_complications self procedure_type difficulty w in
  heap (snd run) = heap w ∧
  (fst run = Raise KeyError
   ↔ draws_equipment_failure procedure_type difficulty w = true) ∧
  (∀ e, fst run = Raise e → e = KeyError) ∧
  (∀ cs, fst run = Ok cs →
     cs = [] ∨
     ∃ c, cs = [c] ∧
          (c_type c = "bleeding" ∨
           c_type c = "bowel_injury" ∧
           procedure_type = "laparoscopic_cholecystectomy")).
Proof.
  intros Hlib run.
  destruct (generate_complications_cases self procedure_type difficulty w
              Hlib) as (Hheap & Hfail & Hok).
  fold run in Hheap, Hfail, Hok. split; [exact Hheap|].
  destruct (draws_equipment_failure procedure_type difficulty w).
  - specialize (Hfail eq_refl). clear Hok. rewrite Hfail.
    split; [split; reflexivity|].
    split; [intros e He; by injection He as <-|intros cs Hcs; discriminate Hcs].
  - specialize (Hok eq_refl). clear Hfail.
    destruct Hok as [Hcs|(c & Hcs & Hc)]; rewrite Hcs.
    + split; [split; intros H; discriminate H|].
      split; [intros e He; discriminate He|].
      intros cs Heq. injection Heq as <-. by left.
    + split; [split; intros H; discriminate H|].
      split; [intros e He; discriminate He|].
      intros cs Heq. injection Heq as <-. right. by exists c.
Qed.

Lemma complication_outcomes_witness :
  fst (_generate_complications catalog_generator "knee_arthroscopy" "expert"
         (start [1; 1]%N)) = Raise KeyError.
Proof.
  refine (proj2 (proj1 (proj2 (complication_outcomes catalog_generator
                                 "knee_arthroscopy" "expert"
                                 (start [1; 1]%N) _))) _).
  - reflexivity.
  - vm_compute. reflexivity.
Defined.

(** ** The generator object *)

(** What [__init__] builds: the three catalog keys and no other, and the
    complication library; the draws are not touched. *)
Lemma new_generator_run w0 :
  ∃ ts h,
    new_SimulationGenerator w0
    = (Ok {| procedure_templates := ts;
             complication_library := _load_complications |},
       with_heap h w0) ∧
    ∀ p, p ∉ catalog_keys → ts !! p = None.
Proof.
  unfold new_SimulationGenerator, _load_procedure_templates.
  eexists _, _. split.
  { rewrite bind_assoc.
    rewrite (bind_ok _ _ _ _ _ (new_step_list_run _ _)). rewrite bind_assoc.
    rewrite (bind_ok _ _ _ _ _ (new_step_list_run _ _)). rewrite bind_assoc.
    rewrite (bind_ok _ _ _ _ _ (new_step_list_run _ _)).
    reflexivity. }
  intros p Hp. unfold catalog_keys in Hp.
  rewrite !not_elem_of_cons in Hp. destruct Hp as (H1 & H2 & H3 & _).
  rewrite !lookup_insert_ne by done. apply lookup_empty.
Qed.

Section unknown.

Context {Patient : Type}.

(** X12.  Asked for a procedure type that is not one of the three catalog
    keys, a generator built by [__init__] raises [ValueError] at once: whatever
    the other arguments, no object is created or changed and no random draw is
    used. *)
Theorem unknown_procedure_is_rejected (tv : option (Step → list string))
    (w0 w1 w : world) (self : SimulationGenerator) (p d : string)
    (pat : Patient) (objs : list string) (en : bool) :
  new_SimulationGenerator w0 = (Ok self, w1) →
  p ∉ catalog_keys →
  generate_scenario tv self p d pat objs en w = (Raise ValueError, w).
Proof.
  intros Hnew Hp. destruct (new_generator_run w0) as (ts & h & Hrun & Hnone).
  rewrite Hrun in Hnew. injection Hnew as <- _.
  unfold generate_scenario. cbn [procedure_templates].
  by rewrite (Hnone p Hp).
Qed.

End unknown.

Lemma unknown_procedure_is_rejected_witness :
  generate_scenario as_written catalog_generator "Appendectomy" "beginner" tt
    [] true (catalog_world [])
  = (Raise ValueError, catalog_world []).
Proof.
  refine (unknown_procedure_is_rejected as_written (start [])
            (catalog_world []) (catalog_world []) catalog_generator
            "Appendectomy" "beginner" tt [] true _ _).
  - vm_compute. reflexivity.
  - unfold catalog_keys. rewrite !not_elem_of_cons.
    repeat split; try discriminate. apply not_elem_of_nil.
Defined.

(** ** Which scenarios the catalog generates *)

Lemma customize_pure_ok tv d s du :
  duration s = Some du → scales du = true →
  ¬ (d = "advanced" ∧ tv = None) →
  ∃ s1, customize_pure tv d s = Ok s1 ∧
        ∃ du1, duration s1 = Some du1 ∧ summable du1 = true.
Proof.
  intros Hdu Hsc Hadv. unfold scales in Hsc. cbn [forallb] in Hsc.
  rewrite !andb_true_iff in Hsc. destruct Hsc as (H0 & H1 & H2 & H3 & _).
  unfold customize_pure.
  destruct (d =? "beginner")%string.
  { cbn [duration set_hints set_guidance_level]. rewrite Hdu.
    cbn [subscript result_bind].
    destruct (_extend_duration du (F64.lit 3 2)) as [du1|]; [|done].
    cbn [result_bind]. eexists. split; [reflexivity|]. by exists du1. }
  destruct (d =? "intermediate")%string.
  { eexists. split; [reflexivity|]. by exists du. }
  destruct (String.eqb_spec d "advanced") as [->|_].
  { destruct tv as [f|]; [|by destruct Hadv].
    cbn [result_bind duration set_variations set_guidance_level].
    rewrite Hdu. cbn [subscript result_bind].
    destruct (_reduce_duration du (F64.lit 4 5)) as [du1|]; [|done].
    cbn [result_bind]. eexists. split; [reflexivity|]. by exists du1. }
  destruct (d =? "expert")%string.
  { cbn [duration set_time_pressure set_guidance_level]. rewrite Hdu.
    cbn [subscript result_bind].
    destruct (_reduce_duration du (F64.lit 7 10)) as [du1|]; [|done].
    cbn [result_bind]. eexists. split; [reflexivity|]. by exists du1. }
  eexists. split; [reflexivity|]. by exists du.
Qed.

(** The first step of an advanced customization raises. *)
Lemma customize_advanced_raises s ss :
  map_r (customize_pure None "advanced") (s :: ss) = Raise AttributeError.
Proof.
  cbn [map_r]. unfold customize_pure.
  change ("advanced" =? "beginner")%string with false.
  change ("advanced" =? "intermediate")%string with false.
  change ("advanced" =? "advanced")%string with true.
  reflexivity.
Qed.

Lemma map_r_all_ok {A B} (f : A → result B) (P : B → Prop) l :
  Forall (λ x, ∃ y, f x = Ok y ∧ P y) l →
  ∃ l', map_r f l = Ok l' ∧ Forall P l'.
Proof.
  induction 1 as [|x l (y & Hy & Py) _ (l' & Hl' & Pl')].
  - by exists [].
  - exists (y :: l'). cbn [map_r]. rewrite Hy, Hl'. split; [done|].
    by constructor.
Qed.

(** Every catalog duration can be scaled and summed at every level. *)
Lemma catalog_scales p pname ss :
  catalog_entry p = Some (pname, ss) →
  ss ≠ [] ∧
  Forall (λ s, ∃ du, duration s = Some du ∧ scales du = true) ss.
Proof.
  unfold catalog_entry.
  destruct (p =? "laparoscopic_cholecystectomy")%string.
  { intros [= <- <-]. split; [done|].
    repeat (apply List.Forall_cons;
              [eexists; split; [reflexivity|vm_compute; reflexivity]|]).
    apply List.Forall_nil. }
  destruct (p =? "appendectomy")%string.
  { intros [= <- <-]. split; [done|].
    repeat (apply List.Forall_cons;
              [eexists; split; [reflexivity|vm_compute; reflexivity]|]).
    apply List.Forall_nil. }
  destruct (p =? "knee_arthroscopy")%string; [|done].
  intros [= <- <-]. split; [done|].
  repeat (apply List.Forall_cons;
            [eexists; split; [reflexivity|vm_compute; reflexivity]|]).
  apply List.Forall_nil.
Qed.

Lemma add_step_average_ok total l s du h :
  h !! l = Some (OStep s) → duration s = Some du → summable du = true →
  ∃ total', ∀ w, heap w = h → add_step_average total l w = (Ok total', w).
Proof.
  intros Hl Hdu Hsum. unfold summable in Hsum.
  destruct (map_r Py.int_of_str (duration_parts du)) as [bounds|] eqn:E;
    [|done].
  eexists. intros w <-. unfold add_step_average.
  rewrite (bind_read_step _ _ _ _ Hl), Hdu. cbn [subscript].
  rewrite bind_lift, E, bind_lift. reflexivity.
Qed.

Lemma fold_average_ok ls : ∀ ss total h,
  steps_at h ls ss →
  Forall (λ s, ∃ du, duration s = Some du ∧ summable du = true) ss →
  ∃ total', ∀ w, heap w = h →
    fold_m add_step_average total ls w = (Ok total', w).
Proof.
  induction ls as [|l ls IH]; intros ss total h Hs Hall.
  { exists total. by intros w _. }
  apply Forall2_cons_inv_l in Hs as (s & ss' & Hl & Hs & ->).
  apply Forall_cons in Hall as [(du & Hdu & Hsum) Hall].
  destruct (add_step_average_ok total l s du h Hl Hdu Hsum) as [t1 H1].
  destruct (IH ss' t1 h Hs Hall) as [t2 H2].
  exists t2. intros w Hw. cbn [fold_m].
  rewrite (bind_ok _ _ _ _ _ (H1 w Hw)). by apply H2.
Qed.

Lemma calculate_duration_ok steps d ls ss h :
  h !! steps = Some (OList ls) → steps_at h ls ss →
  Forall (λ s, ∃ du, duration s = Some du ∧ summable du = true) ss →
  ∃ total, ∀ w, heap w = h → _calculate_duration steps d w = (Ok total, w).
Proof.
  intros Hl Hs Hall.
  destruct (fold_average_ok ls ss 0%Q h Hs Hall) as [total Ht].
  exists (Q_to_int total). intros w Hw. unfold _calculate_duration.
  rewrite <- Hw in Hl.
  rewrite (bind_ok _ _ _ _ _ (read_list_run _ _ _ Hl)).
  by rewrite (bind_ok _ _ _ _ _ (Ht w Hw)).
Qed.

Section progress.

Context {Patient : Type} (tv : option (Step → list string)).

(** Once the steps customize and their durations can be summed,
    [generate_scenario] comes down to the complications. *)
Lemma generate_scenario_progress (self : SimulationGenerator) (p d : string)
    (pat : Patient) (objs : list string) (en : bool) template bl ss ss1 w :
  procedure_templates self !! p = Some template →
  heap w !! t_steps template = Some (OList bl) →
  steps_at (heap w) bl ss →
  map_r (customize_pure tv d) ss = Ok ss1 →
  Forall (λ s, ∃ du, duration s = Some du ∧ summable du = true) ss1 →
  ∃ h total,
    generate_scenario tv self p d pat objs en w
    = (let* complications :=
         if en then _generate_complications self p d else ret [] in
       ret {| procedure_info :=
                {| name := t_name template;
                   category := t_category template;
                   estimated_duration := total |};
              steps := length (heap w) + length ss;
              complications := complications;
              learning_objectives := objs;
              difficulty_level := d |}) (with_heap h w).
Proof.
  intros Ht Hb Hs Hmap Hsum. unfold generate_scenario. rewrite Ht.
  destruct (customize_run tv (t_steps template) d bl ss w Hb Hs) as [_ Hc].
  rewrite Hmap in Hc. destruct Hc as (h1 & Hrun & Hlist & Hs1).
  set (n := length (heap w)) in *. set (k := length ss) in *.
  rewrite (bind_ok _ _ _ _ _ Hrun).
  destruct (enhance_run objs (n + k) (seq n k) ss1 (with_heap h1 w)
              Hlist (NoDup_seq _ _) Hs1) as (h2 & Hrun2 & Hs2 & Hframe2).
  rewrite (bind_ok _ _ _ _ _ Hrun2).
  assert (h2 !! (n + k) = Some (OList (seq n k))) as Hlist2.
  { rewrite Hframe2; [done|]. intros Hin. apply elem_of_seq in Hin. lia. }
  assert (Forall (λ s, ∃ du, duration s = Some du ∧ summable du = true)
                 (map (enhance_pure objs) ss1)) as Hsum2.
  { apply Forall_fmap. eapply Forall_impl; [exact Hsum|].
    intros s (du & Hdu & Hok). exists du. split; [|done]. simpl.
    destruct (enhance_pure_keeps objs s) as (_ & _ & ->). done. }
  destruct (calculate_duration_ok (n + k) d (seq n k) _ h2 Hlist2 Hs2 Hsum2)
    as [total Htotal].
  exists h2, total.
  set (comp := if en then _generate_complications self p d else ret []).
  assert (reads_only comp) as Hcomp.
  { unfold comp. destruct en;
      [apply reads_only_generate_complications|apply reads_only_ret]. }
  specialize (Hcomp (with_heap h2 w)).
  change (with_heap h2 (with_heap h1 w)) with (with_heap h2 w).
  unfold bind at 1 3.
  destruct (comp (with_heap h2 w)) as [[cs|e] w3]; [|done].
  simpl in Hcomp. by rewrite (bind_ok _ _ _ _ _ (Htotal w3 Hcomp)).
Qed.

End progress.

Section outcomes.

Context {Patient : Type}.

(** X13.  What [generate_scenario] does on the catalog of the class, for
    every catalog key, level string, objective list and tape of draws.  At
    the level 'advanced' the class as written raises [AttributeError].
    Otherwise it raises [KeyError] when complications are enabled and the
    draws select 'equipment_failure', and in every other case it returns a
    scenario: one with the catalog's procedure name, the level and the
    objectives it was given, and at most one complication.  A level string
    that is not one of the four levels is accepted like any other. *)
Theorem catalog_generation_outcomes (tv : option (Step → list string))
    (p pname : string) (ss : list Step) (d : string) (pat : Patient)
    (objs : list string) (en : bool) (w0 : world) :
  catalog_entry p = Some (pname, ss) →
  let run := generate_from_catalog tv p d pat objs en w0 in
  (d = "advanced" ∧ tv = None → fst run = Raise AttributeError) ∧
  (¬ (d = "advanced" ∧ tv = None) →
     (en = true ∧ draws_equipment_failure p d w0 = true →
        fst run = Raise KeyError) ∧
     (¬ (en = true ∧ draws_equipment_failure p d w0 = true) →
        ∃ sc, fst run = Ok sc ∧
              name (procedure_info sc) = pname ∧
              difficulty_level sc = d ∧
              learning_objectives sc = objs ∧
              length (complications sc) ≤ 1)).
Proof.
  intros Hentry run.
  destruct (new_generator_spec w0) as (self & w1 & Hnew & Hcat).
  destruct (new_generator_run w0) as (ts & h0 & Hrun0 & _).
  rewrite Hnew in Hrun0. injection Hrun0 as Hself Hw1.
  assert (complication_library self = _load_complications) as Hlib
    by (by rewrite Hself).
  unfold run.
  rewrite (generate_from_catalog_run tv p d pat objs en w0 self w1 Hnew).
  destruct (Hcat p pname ss Hentry) as (template & bl & Ht & Hname & Hb & Hs).
  destruct (catalog_scales p pname ss Hentry) as [Hne Hsc].
  split.
  - intros [-> ->].
    destruct (customize_run None (t_steps template) "advanced" bl ss w1 Hb Hs)
      as [_ Hc].
    destruct ss as [|s ss']; [exfalso; apply Hne; reflexivity|].
    rewrite customize_advanced_raises in Hc.
    unfold generate_scenario. rewrite Ht.
    destruct (_customize_steps_for_difficulty None (t_steps template)
                "advanced" w1) as [[x|e] w2] eqn:E; simpl in Hc; [done|].
    rewrite (bind_raise _ _ _ _ _ E). cbn [fst]. injection Hc as ->. reflexivity.
  - intros Hadv.
    destruct (map_r_all_ok (customize_pure tv d)
                (λ s1, ∃ du1, duration s1 = Some du1 ∧ summable du1 = true)
                ss) as (ss1 & Hmap & Hsum).
    { eapply Forall_impl; [exact Hsc|]. intros s (du & Hdu & Hok).
      by eapply customize_pure_ok. }
    destruct (generate_scenario_progress tv self p d pat objs en template bl
                ss ss1 w1 Ht Hb Hs Hmap Hsum) as (h & total & ->).
    assert (draws_equipment_failure p d (with_heap h w1)
            = draws_equipment_failure p d w0) as Hdraws
      by (by rewrite Hw1).
    destruct en.
    + destruct (generate_complications_cases self p d (with_heap h w1) Hlib)
        as (_ & Hfail & Hok).
      rewrite Hdraws in Hfail, Hok. cbv zeta in Hfail, Hok.
      split.
      * intros [_ Hd]. specialize (Hfail Hd). clear Hok Hd Hdraws.
        unfold bind.
        destruct (_generate_complications self p d (with_heap h w1))
          as [[cs|e] w3]; cbn [fst] in *; [discriminate Hfail|].
        injection Hfail as ->. reflexivity.
      * intros Hno.
        assert (draws_equipment_failure p d w0 = false) as Hd.
        { apply not_true_is_false. intros Hd. apply Hno.
          split; [reflexivity|exact Hd]. }
        specialize (Hok Hd). clear Hfail Hd Hdraws Hno.
        unfold bind.
        destruct (_generate_complications self p d (with_heap h w1))
          as [[cs|e] w3]; cbn [fst] in *.
        -- eexists. split; [reflexivity|]. cbn [procedure_info name
             difficulty_level learning_objectives complications].
           split; [exact Hname|]. split; [reflexivity|].
           split; [reflexivity|].
           destruct Hok as [Hcs|(c & Hcs & _)]; injection Hcs as ->;
             cbn [length]; lia.
        -- destruct Hok as [Hcs|(c & Hcs & _)]; discriminate Hcs.
    + split; [intros [Hen _]; discriminate Hen|]. intros _.
      eexists. split; [reflexivity|]. cbn [procedure_info name
        difficulty_level learning_objectives complications].
      split; [exact Hname|]. split; [reflexivity|]. split; [reflexivity|].
      cbn [length]. lia.
Qed.

End outcomes.

Lemma catalog_generation_outcomes_witness :
  ∃ sc, fst (generate_from_catalog as_written "knee_arthroscopy" "novice" tt
               ["portal"] true (start [0; 0; 2; 1; 3]%N)) = Ok sc ∧
        name (procedure_info sc) = "Knee Arthroscopy" ∧
        difficulty_level sc = "novice" ∧
        learning_objectives sc = ["portal"] ∧
        length (complications sc) ≤ 1.
Proof.
  refine (proj2 (proj2 (catalog_generation_outcomes as_written
                          "knee_arthroscopy" "Knee Arthroscopy"
                          Catalog.knee_arthroscopy_steps "novice" tt
                          ["portal"] true (start [0; 0; 2; 1; 3]%N)
                          eq_refl) _) _).
  - intros [[=] _].
  - intros [_ H]. vm_compute in H. discriminate H.
Defined.

(** ** The steps of a generated scenario *)

Lemma focus_on_fields focus s :
  title (focus_on focus s) = title s ∧
  description (focus_on focus s) = description s ∧
  learning_focus (focus_on focus s) = Some focus.
Proof. by destruct focus. Qed.

Lemma focus_on_again focus o s :
  set_assessment_weight 2
    (set_learning_focus (focus ++ [o]) (focus_on focus s))
  = focus_on (focus ++ [o]) s.
Proof. by destruct focus. Qed.

Lemma enhance_foldl objs s : ∀ focus,
  foldl (λ s objective,
           if Py.contains (Py.lower objective) (Py.lower (title s)) ||
              Py.contains (Py.lower objective) (Py.lower (description s))
           then set_assessment_weight 2
                  (set_learning_focus
                     (default [] (learning_focus s) ++ [objective]) s)
           else s)
        (focus_on focus s) objs
  = focus_on (focus ++ List.filter (mentions s) objs) s.
Proof.
  induction objs as [|o objs IH]; intros focus.
  { cbn [foldl List.filter]. by rewrite app_nil_r. }
  cbn [foldl List.filter].
  destruct (focus_on_fields focus s) as (-> & -> & ->). cbn [default].
  fold (mentions s o). unfold id. destruct (mentions s o).
  - rewrite focus_on_again, IH. by rewrite <- app_assoc.
  - apply IH.
Qed.

(** The effect of the objectives on one step, in closed form. *)
Lemma enhance_pure_closed objs s :
  enhance_pure objs s = focus_on (List.filter (mentions s) objs) s.
Proof.
  unfold enhance_pure. change (set_learning_focus [] s) with (focus_on [] s).
  by rewrite enhance_foldl.
Qed.

(** X14.  On a list object holding distinct step dicts, with objectives,
    titles and descriptions in ASCII, [_enhance_steps_for_objectives] works in
    place: it returns the list it was given, and leaves every step with a
    learning focus that lists exactly the objectives found in its title or
    description (letter case apart, in the order given, repeated ones
    repeated) and with the assessment weight 2.0 when that focus is not
    empty; no other object changes. *)
Theorem objectives_mark_steps (steps : loc) (objectives : list string)
    (ls : list loc) (ss : list Step) (w : world) :
  heap w !! steps = Some (OList ls) → NoDup ls → steps_at (heap w) ls ss →
  Forall (λ o, Py.is_ascii o = true) objectives →
  Forall (λ s, ascii_step s = true) ss →
  ∃ w', _enhance_steps_for_objectives steps objectives w = (Ok steps, w') ∧
        steps_at (heap w') ls
          (map (λ s, focus_on (List.filter (mentions s) objectives) s) ss) ∧
        (∀ l, l ∉ ls → heap w' !! l = heap w !! l).
Proof.
  intros Hl Hnd Hs _ _.
  destruct (enhance_run objectives steps ls ss w Hl Hnd Hs)
    as (h' & Hrun & Hs' & Hframe).
  exists (with_heap h' w). split; [exact Hrun|]. split; [|exact Hframe].
  cbn [heap with_heap].
  erewrite map_ext; [exact Hs'|]. intros s. cbv beta.
  symmetry. apply enhance_pure_closed.
Qed.

Lemma objectives_mark_steps_witness :
  ∃ w', _enhance_steps_for_objectives 5 ["APPENDIX"; "closure"]
          appendectomy_world = (Ok 5, w') ∧
        steps_at (heap w') [0; 1; 2; 3; 4]
          (map (λ s, focus_on (List.filter (mentions s)
                                 ["APPENDIX"; "closure"]) s)
               Catalog.appendectomy_steps).
Proof.
  destruct (objectives_mark_steps 5 ["APPENDIX"; "closure"] [0; 1; 2; 3; 4]
              Catalog.appendectomy_steps appendectomy_world)
    as (w' & H1 & H2 & _).
  - reflexivity.
  - apply (NoDup_seq 0 5).
  - repeat constructor.
  - repeat constructor.
  - repeat constructor.
  - exists w'. split; [exact H1|exact H2].
Defined.

Lemma customize_pure_fields tv d s s1 :
  customize_pure tv d s = Ok s1 →
  step_number s1 = step_number s ∧ title s1 = title s ∧
  description s1 = description s ∧
  critical_points s1 = critical_points s ∧ instruments s1 = instruments s ∧
  guidance_level s1 = guidance_for d (guidance_level s).
Proof.
  unfold customize_pure, guidance_for.
  destruct (d =? "beginner")%string.
  { destruct (subscript _) as [du|]; [|done]. cbn [result_bind].
    destruct (_extend_duration du _); [|done]. by intros [= <-]. }
  destruct (d =? "intermediate")%string; [by intros [= <-]|].
  destruct (d =? "advanced")%string.
  { destruct tv as [f|]; [|done]. cbn [result_bind].
    destruct (subscript _) as [du|]; [|done]. cbn [result_bind].
    destruct (_reduce_duration du _); [|done]. by intros [= <-]. }
  destruct (d =? "expert")%string.
  { destruct (subscript _) as [du|]; [|done]. cbn [result_bind].
    destruct (_reduce_duration du _); [|done]. by intros [= <-]. }
  by intros [= <-].
Qed.

Lemma generated_step tv d objs s s1 :
  customize_pure tv d s = Ok s1 →
  generated_from d objs s (enhance_pure objs s1).
Proof.
  intros Hc. rewrite enhance_pure_closed.
  destruct (customize_pure_fields tv d s s1 Hc)
    as (Hn & Ht & Hd & Hcp & Hi & Hg).
  assert (List.filter (mentions s1) objs = List.filter (mentions s) objs)
    as -> by (unfold mentions; by rewrite Ht, Hd).
  unfold generated_from.
  destruct (List.filter (mentions s) objs); cbn [focus_on];
    (repeat split; try done);
    intros du Hdu;
    destruct (customize_pure_duration tv d s s1 du Hdu Hc)
      as (du' & Hcd & Hd1 & _); by exists du'.
Qed.

Section generated.

Context {Patient : Type}.

(** X15.  With objectives, titles and descriptions in ASCII, the steps of a
    scenario that [generate_scenario] returns are the template's steps, one
    for one and in order: each has the number, title, description, critical
    points and instruments of its template step, the guidance level of the
    difficulty, the duration of the template step scaled for the difficulty,
    and a learning focus that lists the objectives found in its title or
    description. *)
Theorem scenario_steps_follow_template (tv : option (Step → list string))
    (self : SimulationGenerator) (p d : string) (pat : Patient)
    (objs : list string) (en : bool) (template : Template loc)
    (bl : list loc) (ss : list Step) (w w' : world) (sc : Scenario loc) :
  procedure_templates self !! p = Some template →
  heap w !! t_steps template = Some (OList bl) →
  steps_at (heap w) bl ss →
  Forall (λ o, Py.is_ascii o = true) objs →
  Forall (λ s, ascii_step s = true) ss →
  generate_scenario tv self p d pat objs en w = (Ok sc, w') →
  ∃ ss', dump_steps (heap w') (steps sc) = Some ss' ∧
         Forall2 (generated_from d objs) ss ss'.
Proof.
  intros Ht Hb Hs _ _ Hgen.
  destruct (generate_scenario_spec tv self p d pat objs en template bl ss w
              Ht Hb Hs) as [_ Hok].
  rewrite Hgen in Hok. cbn [fst snd] in Hok.
  destruct (Hok sc eq_refl) as (ss1 & Hmap & Hsteps & Hlist & Hat & _).
  rewrite <- Hsteps in Hlist.
  exists (map (enhance_pure objs) ss1).
  split; [exact (steps_at_dump _ _ _ _ Hlist Hat)|].
  apply map_r_Forall2 in Hmap. apply Forall2_fmap_r.
  eapply Forall2_impl; [exact Hmap|]. intros s s1 Hc.
  exact (generated_step tv d objs s s1 Hc).
Qed.

End generated.

Lemma scenario_steps_follow_template_witness :
  ∃ sc w' ss',
    generate_scenario as_written catalog_generator "appendectomy" "expert" tt
      ["closure"] false (catalog_world []) = (Ok sc, w') ∧
    dump_steps (heap w') (steps sc) = Some ss' ∧
    Forall2 (generated_from "expert" ["closure"])
            Catalog.appendectomy_steps ss'.
Proof.
  assert (∃ sc w',
            generate_scenario as_written catalog_generator "appendectomy"
              "expert" tt ["closure"] false (catalog_world []) = (Ok sc, w'))
    as (sc & w' & Hgen) by (vm_compute; eexists _, _; reflexivity).
  destruct (scenario_steps_follow_template as_written catalog_generator
              "appendectomy" "expert" tt ["closure"] false
              appendectomy_template [7; 8; 9; 10; 11]
              Catalog.appendectomy_steps (catalog_world []) w' sc)
    as (ss' & Hd & Hall).
  - vm_compute. reflexivity.
  - vm_compute. reflexivity.
  - repeat (constructor; [vm_compute; reflexivity|]). constructor.
  - repeat constructor.
  - repeat constructor.
  - exact Hgen.
  - exists sc, w', ss'. split; [exact Hgen|]. split; [exact Hd|exact Hall].
Defined.

(** ** The next step *)

Section next_step_value.

Context {Assessment : Type}.

Lemma attach_loop l cur : ∀ comps s w,
  heap w !! l = Some (OStep s) →
  for_each comps (attach l cur) w
  = (Ok tt,
     put l (foldl (λ s c, if (c_trigger_step c =? cur + 1)%Z
                          then set_complication c s else s) s comps) w).
Proof.
  induction comps as [|c comps IH]; intros s w Hl.
  { cbn [for_each foldl]. by rewrite (put_same l s w Hl). }
  cbn [for_each foldl]. unfold attach at 1.
  destruct (c_trigger_step c =? cur + 1)%Z.
  - rewrite (bind_assign _ _ _ _ _ Hl).
    rewrite (IH _ _ (put_lookup l (set_complication c s) s w Hl)).
    by rewrite put_put.
  - rewrite bind_ret. by apply IH.
Qed.

Lemma attach_last cur comps : ∀ s,
  foldl (λ s c, if (c_trigger_step c =? cur + 1)%Z
                then set_complication c s else s) s comps
  = with_triggered cur comps s.
Proof.
  unfold with_triggered, triggered.
  induction comps as [|c comps IH]; intros s; [done|].
  cbn [foldl List.filter]. rewrite IH.
  destruct (c_trigger_step c =? cur + 1)%Z; [|done].
  destruct (List.filter _ comps) as [|c' cs']; [done|].
  rewrite (last_cons c). by destruct (last (c' :: cs')).
Qed.

(** X16.  [get_next_step] on a list of step dicts.  A current step at or past
    the count gives the completion marker and changes nothing.  Otherwise the
    step at index [current_step] is returned, a negative index counting from
    the end as Python's do, and an index below minus the count raising
    [IndexError].  The returned step is the stored dict itself: it now carries
    the last planned complication whose trigger step is [current_step + 1],
    if there is one, and is unchanged if there is none. *)
Theorem next_step_carries_complication (sd : SimulationData loc) (cur : Z)
    (a : Assessment) (w : world) (ls : list loc) (ss : list Step) :
  heap w !! steps (simulation sd) = Some (OList ls) →
  steps_at (heap w) ls ss →
  let count := Z.of_nat (length ls) in
  let run := get_next_step sd cur a w in
  ((count ≤ cur)%Z →
     run = (Ok (Completed "Simulation completed successfully"), w)) ∧
  ((cur < - count)%Z → run = (Raise IndexError, w)) ∧
  ((- count ≤ cur < count)%Z →
     ∃ l s, ls !! Z.to_nat (cur `mod` count) = Some l ∧
            ss !! Z.to_nat (cur `mod` count) = Some s ∧
            run = (Ok (NextStepAt l),
                   put l (with_triggered cur (complications (simulation sd))
                            s) w)).
Proof.
  intros Hl Hs count run. unfold run, get_next_step.
  rewrite (bind_ok _ _ _ _ _ (read_list_run _ _ _ Hl)). fold count.
  split; [|split].
  - intros Hc. by destruct (Z.leb_spec count cur) as [_|?]; [|lia].
  - intros Hc. destruct (Z.leb_spec count cur) as [?|_]; [lia|].
    rewrite bind_lift, index_out_of_range; [done|]. fold count. lia.
  - intros Hc. destruct (Z.leb_spec count cur) as [?|_]; [lia|].
    rewrite bind_lift.
    assert (∃ l, ls !! Z.to_nat (cur `mod` count) = Some l ∧
                 Py.index ls cur = Ok l) as (l & Hlook & ->).
    { destruct (Z.neg_nonneg_cases cur) as [Hneg|Hpos].
      - destruct (index_from_end ls cur) as (l & H1 & H2);
          [fold count; lia|].
        exists l. split; [|done]. rewrite <- H1. f_equal. fold count.
        rewrite <- (Z.mod_add cur 1 count) by lia.
        rewrite Z.mod_small by lia. lia.
      - destruct (index_in_range ls cur) as (l & H1 & H2);
          [fold count; lia|].
        exists l. split; [|done]. by rewrite Z.mod_small by lia. }
    destruct (Forall2_lookup_l _ _ _ _ _ Hs Hlook) as (s & Hss & Hls).
    exists l, s. split; [done|]. split; [done|].
    rewrite (bind_ok _ _ _ _ _ (attach_loop l cur _ s w Hls)).
    by rewrite attach_last.
Qed.

End next_step_value.

Lemma next_step_carries_complication_witness :
  ∃ l s, [0; 1; 2; 3; 4] !! 2 = Some l ∧
         Catalog.appendectomy_steps !! 2 = Some s ∧
         get_next_step appendectomy_simulation 2 tt appendectomy_world
         = (Ok (NextStepAt l),
            put l (with_triggered 2
                     (complications (simulation appendectomy_simulation)) s)
                appendectomy_world).
Proof.
  refine (proj2 (proj2 (next_step_carries_complication
                          appendectomy_simulation 2 tt appendectomy_world
                          [0; 1; 2; 3; 4] Catalog.appendectomy_steps _ _)) _).
  - reflexivity.
  - repeat constructor.
  - simpl. lia.
Defined.

(** ** Scaled durations *)

Lemma str_of_int_of_N n : Py.str_of_int (Z.of_N n) = Py.str_of_N n.
Proof. by destruct n. Qed.

Lemma scaling_table :
  forallb scaling_agrees (map N.of_nat (seq 0 1441)) = true.
Proof. vm_compute. reflexivity. Qed.

Lemma scaling_agrees_upto n :
  (n ≤ longest_duration)%N → scaling_agrees n = true.
Proof.
  intros Hn. pose proof scaling_table as H.
  rewrite forallb_forall in H. apply H.
  apply in_map_iff. exists (N.to_nat n). split; [lia|].
  apply in_seq. unfold longest_duration in Hn. lia.
Qed.

Lemma scaled_bound n :
  (n ≤ longest_duration)%N →
  scale_bound (F64.lit 3 2) n = Ok (Z.of_N (3 * n / 2)) ∧
  scale_bound (F64.lit 4 5) n = Ok (Z.of_N (4 * n / 5)) ∧
  ∃ c, scale_bound (F64.lit 7 10) n = Ok (Z.of_N c) ∧
       (c = 7 * n / 10 ∨ n mod 10 = 0 ∧ c = 7 * n / 10 - 1)%N.
Proof.
  intros Hn. pose proof (scaling_agrees_upto n Hn) as H.
  unfold scaling_agrees in H.
  destruct (scale_bound (F64.lit 3 2) n) as [a|]; [|done].
  destruct (scale_bound (F64.lit 4 5) n) as [b|]; [|done].
  destruct (scale_bound (F64.lit 7 10) n) as [c|]; [|done].
  rewrite !andb_true_iff, orb_true_iff, andb_true_iff in H.
  rewrite !Z.eqb_eq, N.eqb_eq in H. destruct H as [[-> ->] Hc].
  split; [done|]. split; [done|].
  destruct Hc as [->|[Hm ->]]; eexists; (split; [reflexivity|]); auto.
Qed.

(** X17.  Scaling a duration ["lo-hi minutes"] whose bounds are at most 1440
    minutes.  The beginner factor 1.5 gives both bounds times three halves,
    rounded down; the advanced factor 0.8 gives them times four fifths,
    rounded down; the expert factor 0.7 gives them times seven tenths, rounded
    down, or one minute less than that, which happens only for a bound that is
    a multiple of ten (the binary 0.7 is below seven tenths). *)
Theorem scaled_durations (lo hi : N) :
  (lo ≤ longest_duration)%N → (hi ≤ longest_duration)%N →
  _extend_duration (duration_string lo hi) (F64.lit 3 2)
  = Ok (duration_string (3 * lo / 2) (3 * hi / 2)) ∧
  _reduce_duration (duration_string lo hi) (F64.lit 4 5)
  = Ok (duration_string (4 * lo / 5) (4 * hi / 5)) ∧
  ∃ a b,
    _reduce_duration (duration_string lo hi) (F64.lit 7 10)
    = Ok (duration_string a b) ∧
    (a = 7 * lo / 10 ∨ lo mod 10 = 0 ∧ a = 7 * lo / 10 - 1)%N ∧
    (b = 7 * hi / 10 ∨ hi mod 10 = 0 ∧ b = 7 * hi / 10 - 1)%N.
Proof.
  intros Hlo Hhi.
  destruct (scaled_bound lo Hlo) as (L1 & L2 & cl & L3 & Hcl).
  destruct (scaled_bound hi Hhi) as (H1 & H2 & ch & H3 & Hch).
  pose proof (extend_duration_string _ _ _ _ _ L1 H1) as E1.
  pose proof (extend_duration_string _ _ _ _ _ L2 H2
              : _reduce_duration _ _ = _) as E2.
  pose proof (extend_duration_string _ _ _ _ _ L3 H3
              : _reduce_duration _ _ = _) as E3.
  rewrite !str_of_int_of_N in E1, E2, E3.
  split; [exact E1|]. split; [exact E2|].
  exists cl, ch. split; [exact E3|]. by split.
Qed.

Lemma scaled_durations_witness :
  _extend_duration "10-15 minutes" (F64.lit 3 2) = Ok "15-22 minutes" ∧
  _reduce_duration "10-15 minutes" (F64.lit 4 5) = Ok "8-12 minutes".
Proof.
  destruct (scaled_durations 10 15) as (H1 & H2 & _).
  - unfold longest_duration. lia.
  - unfold longest_duration. lia.
  - split; [exact H1|exact H2].
Defined.

(** ** Durations that are not a range *)

Lemma rangeless_parts n :
  duration_parts (Py.str_of_N n +:+ " minutes") = [Py.str_of_N n].
Proof.
  unfold duration_parts. pose proof (str_of_N_digits n) as Hd.
  rewrite replace_minutes
    by (eapply all_chars_impl; [apply digit_not_space|done]).
  apply split_no_sep. eapply all_chars_impl; [apply digit_not_dash|done].
Qed.

Lemma half_floor (z : Z) :
  (0 ≤ z)%Z → Q_to_int (0 + inject_Z (z + 0) / 2)%Q = (z / 2)%Z.
Proof.
  intros Hz.
  assert (0 + inject_Z (z + 0) / 2 == z # 2)%Q as Hq.
  { rewrite Z.add_0_r. unfold Qeq. simpl. lia. }
  rewrite Q_to_int_floor.
  - by rewrite (Qfloor_comp _ _ Hq).
  - rewrite Hq. unfold Qle. simpl. lia.
Qed.

(** X18.  A duration that names one number, ["n minutes"], not a range
    (a number of at most 4300 digits, which [int] parses).
    [_calculate_duration] accepts it and counts half of the number for the
    step (for a number below 2^53, whose half a float holds exactly);
    [_assess_time_management] raises [IndexError] on it; and
    [_extend_duration] (which [_reduce_duration] repeats) never returns on it:
    it raises [IndexError], or [OverflowError] when the number is too large
    for a float. *)
Theorem rangeless_duration (n : N) (s : Step) (steps l : loc)
    (difficulty : string) (factor : F64.float) (t : Z) (w : world) :
  duration s = Some (Py.str_of_N n +:+ " minutes") →
  (n < int_limit)%N →
  heap w !! steps = Some (OList [l]) →
  heap w !! l = Some (OStep s) →
  ((n < 2 ^ 53)%N →
     _calculate_duration steps difficulty w = (Ok (Z.of_N n / 2)%Z, w)) ∧
  _assess_time_management t s = Raise IndexError ∧
  ∃ e, _extend_duration (Py.str_of_N n +:+ " minutes") factor = Raise e ∧
       _reduce_duration (Py.str_of_N n +:+ " minutes") factor = Raise e ∧
       (e = IndexError ∨ e = OverflowError).
Proof.
  intros Hd _ Hsteps Hl. split; [|split].
  - intros _. unfold _calculate_duration.
    rewrite (bind_ok _ _ _ _ _ (read_list_run _ _ _ Hsteps)).
    assert (add_step_average 0 l w
            = (Ok (0 + inject_Z (Z.of_N n + 0) / 2)%Q, w)) as Havg.
    { unfold add_step_average.
      rewrite (bind_read_step _ _ _ _ Hl), Hd. cbn [subscript].
      rewrite bind_lift, rangeless_parts. cbn [map_r].
      rewrite int_of_str_str_of_N. cbn [result_bind].
      by rewrite bind_lift. }
    cbn [fold_m]. rewrite bind_assoc, (bind_ok _ _ _ _ _ Havg).
    rewrite !bind_ret. unfold ret.
    rewrite half_floor by lia. reflexivity.
  - unfold _assess_time_management. rewrite Hd. cbn [default].
    cbv zeta. unfold id. rewrite rangeless_parts.
    change (Py.index [Py.str_of_N n] 0) with (Ok (Py.str_of_N n)).
    cbn [result_bind]. rewrite int_of_str_str_of_N. reflexivity.
  - unfold _reduce_duration, _extend_duration. rewrite rangeless_parts.
    change (Py.index [Py.str_of_N n] 0) with (Ok (Py.str_of_N n)).
    cbn [result_bind]. rewrite int_of_str_str_of_N. cbn [result_bind].
    destruct (F64.int_mul (Z.of_N n) factor) as [x|e] eqn:E.
    + exists IndexError. repeat split; by left.
    + exists e. repeat split. right. unfold F64.int_mul in E.
      destruct (F64.of_int (Z.of_N n)); by inversion E.
Qed.

Lemma rangeless_duration_witness :
  _calculate_duration 1 "intermediate"
    (snd (new_step_list
            [catalog_step 1 "Closure" "Close incisions" "15 minutes" [] []]
            (start [])))
  = (Ok 7%Z,
     snd (new_step_list
            [catalog_step 1 "Closure" "Close incisions" "15 minutes" [] []]
            (start []))).
Proof.
  refine (proj1 (rangeless_duration 15
                   (catalog_step 1 "Closure" "Close incisions" "15 minutes"
                      [] [])
                   1 0 "intermediate" (F64.lit 3 2) 600 _ _ _ _ _) _).
  - reflexivity.
  - vm_compute. reflexivity.
  - reflexivity.
  - reflexivity.
  - reflexivity.
Defined.

(** ** The vitals *)

Lemma randint_run a b w :
  random_randint a b w
  = (Ok (a + Z.of_N (tape w (cursor w)) `mod` (b - a + 1))%Z, advance w).
Proof. reflexivity. Qed.

Lemma apply_complications_fields cs : ∀ v,
  let v' := foldl apply_complication v cs in
  heart_rate v' = (heart_rate v + 20 * severe_bleedings cs)%Z ∧
  systolic (blood_pressure v')
  = (systolic (blood_pressure v) - 15 * severe_bleedings cs)%Z ∧
  diastolic (blood_pressure v') = diastolic (blood_pressure v) ∧
  oxygen_saturation v' = oxygen_saturation v ∧
  temperature v' = temperature v ∧
  respiratory_rate v' = respiratory_rate v.
Proof.
  unfold severe_bleedings.
  induction cs as [|c cs IH]; intros v; cbv zeta.
  { simpl. repeat split; lia. }
  cbn [foldl List.filter]. specialize (IH (apply_complication v c)).
  cbv zeta in IH. destruct IH as (H1 & H2 & H3 & H4 & H5 & H6).
  rewrite H1, H2, H3, H4, H5, H6. unfold apply_complication.
  destruct ((c_type c =? "bleeding")%string &&
            (c_severity c =? "severe")%string);
    cbn [heart_rate blood_pressure systolic diastolic oxygen_saturation
         temperature respiratory_rate length];
    repeat split; lia.
Qed.

(** X19.  [generate_current_vitals] always returns.  It makes six draws and
    leaves the heap alone, and the current step plays no part.  Each vital
    stays near its baseline: the heart rate from 5 below to 10 above, the
    systolic pressure from 10 below to 5 above, the diastolic pressure
    within 5, the oxygen saturation from 2 below to 1 above, the respiratory
    rate from 2 below to 3 above.  On top of that every complication that is
    a severe bleeding adds 20 to the heart rate and takes 15 off the systolic
    pressure; no other complication has an effect. *)
Theorem current_vitals_ranges (patient : PatientProfile) (current_step : Z)
    (complications : list Complication) (w : world) :
  let base := vitals patient in
  let k := severe_bleedings complications in
  ∃ v, generate_current_vitals patient current_step complications w
       = (Ok v, after_draws 6 w) ∧
       (heart_rate base - 5 + 20 * k ≤ heart_rate v
        ≤ heart_rate base + 10 + 20 * k)%Z ∧
       (systolic (blood_pressure base) - 10 - 15 * k
        ≤ systolic (blood_pressure v)
        ≤ systolic (blood_pressure base) + 5 - 15 * k)%Z ∧
       (diastolic (blood_pressure base) - 5
        ≤ diastolic (blood_pressure v)
        ≤ diastolic (blood_pressure base) + 5)%Z ∧
       (oxygen_saturation base - 2 ≤ oxygen_saturation v
        ≤ oxygen_saturation base + 1)%Z ∧
       (respiratory_rate base - 2 ≤ respiratory_rate v
        ≤ respiratory_rate base + 3)%Z.
Proof.
  intros base k. unfold generate_current_vitals.
  rewrite (bind_ok _ _ _ _ _ (randint_run _ _ _)).
  rewrite (bind_ok _ _ _ _ _ (randint_run _ _ _)).
  rewrite (bind_ok _ _ _ _ _ (randint_run _ _ _)).
  rewrite (bind_ok _ _ _ _ _ (randint_run _ _ _)).
  unfold random_uniform, random_random. rewrite !bind_assoc.
  unfold bind at 1. unfold draw at 1. rewrite !bind_ret.
  rewrite (bind_ok _ _ _ _ _ (randint_run _ _ _)).
  cbv zeta. fold base. eexists. split; [reflexivity|].
  match goal with
  | |- context [foldl apply_complication ?v complications] =>
      destruct (apply_complications_fields complications v)
        as (H1 & H2 & H3 & H4 & _ & H6)
  end.
  rewrite H1, H2, H3, H4, H6. fold k.
  cbn [heart_rate blood_pressure systolic diastolic oxygen_saturation
       respiratory_rate].
  repeat match goal with
         | |- context [(?x `mod` ?m)%Z] =>
             let H := fresh in
             pose proof (Z.mod_pos_bound x m ltac:(lia)) as H;
             generalize dependent (x `mod` m)%Z; intros
         end.
  repeat split; lia.
Qed.

(** ** The non-technical score *)

Section non_technical.

Local Open Scope Q_scope.

(** X20.  Whenever the non-technical assessment returns, whatever the step,
    the actions and the time, its score is at least 16.5 and at most 100. *)
Theorem non_technical_score_range (step : Step) (actions : list Action)
    (time_taken : Z) (q : Q) :
  _assess_non_technical_skills step actions time_taken = Ok q →
  16.5 <= q <= 100.
Proof.
  unfold _assess_non_technical_skills.
  destruct (_assess_time_management time_taken step) as [ts|] eqn:E;
    [|done].
  cbn [result_bind]. intros [= <-].
  pose proof (communication_bounds actions).
  pose proof (decision_bounds actions step).
  pose proof (time_management_bounds time_taken step ts E).
  pose proof (awareness_bounds actions).
  unfold sum_Q. cbn [foldl]. lra.
Qed.

Lemma non_technical_score_range_witness :
  ∃ q, _assess_non_technical_skills
         (catalog_step 2 "Trocar Placement"
            "Create pneumoperitoneum and insert trocars" "10-15 minutes"
            [] []) [] 700 = Ok q ∧ 16.5 <= q <= 100.
Proof.
  assert (∃ q, _assess_non_technical_skills
                 (catalog_step 2 "Trocar Placement"
                    "Create pneumoperitoneum and insert trocars"
                    "10-15 minutes" [] []) [] 700 = Ok q) as [q Hq]
    by (vm_compute; eexists; reflexivity).
  exists q. split; [exact Hq|].
  exact (non_technical_score_range _ _ _ q Hq).
Defined.

End non_technical.

(** ** Assessing the steps of a generated scenario *)

(** Every catalog duration keeps positive bounds at every level. *)
Lemma catalog_positive p pname ss :
  catalog_entry p = Some (pname, ss) →
  Forall (λ s, ∃ du, duration s = Some du ∧
                     positive_at_all_levels du = true) ss.
Proof.
  unfold catalog_entry.
  destruct (p =? "laparoscopic_cholecystectomy")%string.
  { intros [= <- <-].
    repeat (apply List.Forall_cons;
              [eexists; split; [reflexivity|vm_compute; reflexivity]|]).
    apply List.Forall_nil. }
  destruct (p =? "appendectomy")%string.
  { intros [= <- <-].
    repeat (apply List.Forall_cons;
              [eexists; split; [reflexivity|vm_compute; reflexivity]|]).
    apply List.Forall_nil. }
  destruct (p =? "knee_arthroscopy")%string; [|intros [=]].
  intros [= <- <-].
  repeat (apply List.Forall_cons;
            [eexists; split; [reflexivity|vm_compute; reflexivity]|]).
  apply List.Forall_nil.
Qed.

Section assessable.

Local Open Scope Q_scope.

(** A step with positive bounds is assessed, whatever the procedure key. *)
Lemma assess_returns key s n acts t w :
  positive_duration (default "10-15 minutes" (duration s)) = true →
  (Z.abs t ≤ time_limit)%Z →
  ∃ a w', assess_current_step key s n acts t w = (Ok a, w') ∧
          sa_step_number a = n ∧ time_taken a = t ∧
          overall_score a
          == technical_score a * 0.7 + non_technical_score a * 0.3 ∧
          _assess_non_technical_skills s acts t
          = Ok (non_technical_score a).
Proof.
  intros Hpos Ht. unfold assess_current_step.
  unfold _assess_non_technical_skills.
  destruct (time_management_ok t s Hpos Ht) as [q ->]. cbn [result_bind].
  rewrite bind_lift. unfold _generate_step_feedback.
  match goal with
  | |- context [feedback_templates ?lv] =>
      destruct (feedback_templates_three lv) as (x & y & z & ->)
  end.
  destruct (random_choice_three x y z w) as (c & w' & Hc).
  rewrite bind_assoc. rewrite (bind_ok _ _ _ _ _ Hc).
  eexists _, _. split; [reflexivity|].
  cbn [sa_step_number time_taken overall_score technical_score
       non_technical_score].
  split; [reflexivity|]. split; [reflexivity|]. split; reflexivity.
Qed.

Context {Patient : Type}.

(** X21.  Every step of every scenario generated from the catalog can be
    assessed: for each step number from 1 to the step count, every time of at
    most 10^300 seconds in magnitude and all actions whose expected times fit
    a float, [assess_step] returns.  The assessment carries the step number
    and the time it was given, its overall score is 0.7 times the technical
    plus 0.3 times the non-technical score (up to the rounding of the float
    operations), and its non-technical score is between 16.5 and 100. *)
Theorem generated_steps_are_assessable (tv : option (Step → list string))
    (p pname : string) (ss : list Step) (d : string) (pat : Patient)
    (objs : list string) (en : bool) (w0 w1 : world) (sc : Scenario loc)
    (doc : Scenario (list Step)) :
  catalog_entry p = Some (pname, ss) →
  generate_from_catalog tv p d pat objs en w0 = (Ok sc, w1) →
  dump_scenario (heap w1) sc = Some doc →
  length (steps doc) = length ss ∧
  ∀ (sd : SimulationData (list Step)) (n : Z) (acts : list Action) (t : Z)
    (w : world),
    simulation sd = doc →
    (1 ≤ n ≤ Z.of_nat (length ss))%Z →
    (Z.abs t ≤ time_limit)%Z →
    Forall (λ a, within_float a = true) acts →
    ∃ a w', assess_step sd n acts t w = (Ok a, w') ∧
            sa_step_number a = n ∧ time_taken a = t ∧
            near (overall_score a)
                 (technical_score a * 0.7 + non_technical_score a * 0.3) ∧
            16.5 <= non_technical_score a <= 100.
Proof.
  intros Hentry Hgen Hdump.
  destruct (new_generator_spec w0) as (self & wg & Hnew & Hcat).
  rewrite (generate_from_catalog_run tv p d pat objs en w0 self wg Hnew)
    in Hgen.
  pose proof (catalog_positive p pname ss Hentry) as Hdur.
  destruct (Hcat p pname ss Hentry) as (template & bl & Ht & Hname & Hb & Hs).
  destruct (generate_scenario_spec tv self p d pat objs en template bl ss wg
              Ht Hb Hs) as [_ Hok].
  rewrite Hgen in Hok. cbn [fst snd] in Hok.
  destruct (Hok sc eq_refl) as (ss1 & Hmap & Hsteps & Hlist & Hat & Hsc).
  rewrite <- Hsteps in Hlist.
  unfold dump_scenario in Hdump.
  rewrite (steps_at_dump _ _ _ _ Hlist Hat) in Hdump.
  cbn in Hdump. injection Hdump as <-. cbn [steps].
  assert (length (map (enhance_pure objs) ss1) = length ss) as Hlen
    by (rewrite length_map; by eapply map_r_length).
  split; [exact Hlen|].
  intros sd n acts t w Hsd Hn Hlimit _.
  pose proof (assess_step_in_range sd n acts t w) as Hres.
  rewrite Hsd in Hres. cbn [steps procedure_info] in Hres.
  rewrite Hlen in Hres. destruct (Hres Hn) as (s & Hlook & ->).
  assert (positive_duration (default "10-15 minutes" (duration s)) = true)
    as Hpos.
  { apply list_lookup_fmap_Some in Hlook as (s1 & -> & Hs1).
    apply map_r_Forall2 in Hmap.
    destruct (Forall2_lookup_r _ _ _ _ _ Hmap Hs1) as (s0 & Hs0 & Hcust).
    rewrite Forall_lookup in Hdur.
    destruct (Hdur _ _ Hs0) as (du & Hdu & Hall).
    destruct (customize_pure_duration tv d s0 s1 du Hdu Hcust)
      as (du' & Hcd & Hd1 & _).
    destruct (enhance_pure_keeps objs s1) as (_ & _ & ->).
    rewrite Hd1. cbn [default].
    by eapply positive_at_all_levels_spec. }
  destruct (assess_returns (procedure_key (name (procedure_info sc))) s n
              acts t w Hpos Hlimit) as (a & w' & Hrun & H1 & H2 & H3 & H4).
  exists a, w'. split; [exact Hrun|]. split; [exact H1|].
  split; [exact H2|]. split; [by apply near_of_eq|].
  destruct (_assess_time_management t s) as [ts|] eqn:E.
  2:{ unfold _assess_non_technical_skills in H4. rewrite E in H4.
      discriminate H4. }
  unfold _assess_non_technical_skills in H4. rewrite E in H4.
  cbn [result_bind] in H4. injection H4 as H4. rewrite <- H4.
  pose proof (communication_bounds acts).
  pose proof (decision_bounds acts s).
  pose proof (time_management_bounds t s ts E).
  pose proof (awareness_bounds acts).
  unfold sum_Q. cbn [foldl]. lra.
Qed.

End assessable.

Lemma generated_steps_are_assessable_witness :
  ∃ sc w1 doc,
    generate_from_catalog as_written "laparoscopic_cholecystectomy" "expert"
      tt [] false (start []) = (Ok sc, w1) ∧
    dump_scenario (heap w1) sc = Some doc ∧
    ∃ a w',
      assess_step {| simulation := doc; step_assessments := [];
                     simulation_id := None |} 6
        [skill_action "hemostasis" 0.7] 500 (start [])
      = (Ok a, w') ∧ sa_step_number a = 6%Z.
Proof.
  eexists _, _, _. split; [vm_compute; reflexivity|].
  split; [vm_compute; reflexivity|].
  destruct (proj2 (generated_steps_are_assessable as_written
                     "laparoscopic_cholecystectomy"
                     "Laparoscopic Cholecystectomy"
                     Catalog.cholecystectomy_steps "expert" tt [] false
                     (start []) _ _ _ eq_refl
                     ltac:(vm_compute; reflexivity)
                     ltac:(vm_compute; reflexivity))
              {| simulation := _; step_assessments := [];
                 simulation_id := None |} 6%Z
              [skill_action "hemostasis" 0.7] 500%Z (start []) eq_refl)
    as (a & w' & Hrun & Hn & _).
  - simpl. lia.
  - apply Z.leb_le. vm_compute. reflexivity.
  - repeat constructor.
  - exists a, w'. split; [exact Hrun|exact Hn].
Defined.

(** ** Levels, gates and recommendations *)

Section levels.

Local Open Scope Q_scope.

Lemma Qgeb_true x y : Qgeb x y = true ↔ y <= x.
Proof. unfold Qgeb. apply Qle_bool_iff. Qed.

Lemma Qgeb_false x y : Qgeb x y = false ↔ x < y.
Proof.
  unfold Qgeb. split.
  - intros H. apply Qnot_le_lt. intros Hle. apply Qle_bool_iff in Hle.
    congruence.
  - intros H. apply not_true_is_false. intros Hle.
    apply Qle_bool_iff in Hle. lra.
Qed.

Lemma final_level_by_score (overall : Q) (tr : Trends)
    (sd : SimulationData (list Step)) :
  performance_level (_generate_final_feedback overall tr sd)
  = if Qgeb overall 90 then "Outstanding"
    else if Qgeb overall 75 then "Proficient"
    else if Qgeb overall 60 then "Developing" else "Novice".
Proof.
  unfold _generate_final_feedback.
  by destruct (Qgeb overall 90), (Qgeb overall 75), (Qgeb overall 60).
Qed.

(** X22.  In every report of [generate_final_assessment] the performance
    level and the two gates agree, all three being read off the same mean of
    the overall scores: the trainee is certification eligible exactly when the
    level is Outstanding or Proficient, is ready for the next difficulty only
    if certification eligible, and is ready for it whenever the level is
    Outstanding. *)
Theorem report_levels_agree (sd : SimulationData (list Step))
    (r : FinalAssessment) :
  generate_final_assessment sd = Report r →
  (certification_eligible r = true
   ↔ performance_level (final_feedback r) = "Outstanding" ∨
     performance_level (final_feedback r) = "Proficient") ∧
  (next_difficulty_ready r = true → certification_eligible r = true) ∧
  (performance_level (final_feedback r) = "Outstanding" →
   next_difficulty_ready r = true).
Proof.
  unfold generate_final_assessment.
  destruct (step_assessments sd) as [|a l]; [intros [=]|].
  remember (a :: l) as history eqn:Eh. clear Eh.
  intros [= <-]. cbv zeta.
  cbn [certification_eligible next_difficulty_ready final_feedback].
  rewrite final_level_by_score.
  generalize (mean (map overall_score history)). intros avg.
  destruct (Qgeb avg 90) eqn:E90.
  { apply Qgeb_true in E90.
    assert (Qgeb avg 75 = true) as -> by (apply Qgeb_true; lra).
    assert (Qgeb avg 85 = true) as -> by (apply Qgeb_true; lra).
    split; [split; [by left|done]|]. by split. }
  apply Qgeb_false in E90.
  destruct (Qgeb avg 75) eqn:E75.
  { split; [split; [by right|done]|].
    split; [done|]. intros [=]. }
  apply Qgeb_false in E75.
  assert (Qgeb avg 85 = false) as -> by (apply Qgeb_false; lra).
  destruct (Qgeb avg 60);
    (split; [split; [intros [=]|intros [[=]|[=]]]|]);
    (split; [intros [=]|intros [=]]).
Qed.

Lemma report_levels_agree_witness :
  ∃ r, generate_final_assessment two_step_history = Report r ∧
       performance_level (final_feedback r) = "Developing" ∧
       certification_eligible r = false.
Proof.
  assert (∃ r, generate_final_assessment two_step_history = Report r)
    as [r Hr] by (eexists; reflexivity).
  exists r. split; [exact Hr|].
  destruct (report_levels_agree two_step_history r Hr) as (Hc & _ & _).
  assert (performance_level (final_feedback r) = "Developing") as Hlevel
    by (injection Hr as <-; reflexivity).
  split; [exact Hlevel|].
  destruct (certification_eligible r); [|reflexivity].
  destruct (proj1 Hc eq_refl) as [H|H]; rewrite Hlevel in H; discriminate H.
Defined.

Lemma recommendations_by_score (overall : Q) (step : Step) :
  _generate_recommendations overall step
  = if Qltb overall 70 then review_and_practice step
    else if Qltb overall 85 then smoother_work else [].
Proof.
  unfold _generate_recommendations. cbv zeta.
  destruct (Qltb overall 70) eqn:E70.
  - apply Qltb_lt in E70.
    assert (Qltb overall 85 = true) as -> by (apply Qltb_lt; lra).
    reflexivity.
  - by destruct (Qltb overall 85).
Qed.

(** X23.  In every assessment that [assess_step] computes for a step with an
    ASCII title, the level of the feedback and its recommendations agree: a step rated excellent gets no
    recommendation; a step rated good gets none or the two on movements and
    communication; a step rated as needing improvement gets those two, alone
    or after the three on review and practice; a step rated poor gets all
    five, the first of which names the step's title in lower case. *)
Theorem recommendations_follow_level (procedure_type : string) (step : Step)
    (n : Z) (actions : list Action) (t : Z) (w w' : world)
    (a : StepAssessment) :
  Py.is_ascii (title step) = true →
  assess_current_step procedure_type step n actions t w = (Ok a, w') →
  ∃ fb, feedback a = Some fb ∧
        overall_level fb ∈ ["excellent"; "good"; "needs_improvement"; "poor"] ∧
        (overall_level fb = "excellent" → recommendations fb = []) ∧
        (overall_level fb = "good" →
           recommendations fb = [] ∨ recommendations fb = smoother_work) ∧
        (overall_level fb = "needs_improvement" →
           recommendations fb = smoother_work ∨
           recommendations fb = review_and_practice step) ∧
        (overall_level fb = "poor" →
           recommendations fb = review_and_practice step).
Proof.
  unfold assess_current_step. intros _ H.
  apply bind_inv_ok in H as (nt & w1 & _ & H).
  apply bind_inv_ok in H as (fb & w2 & Hfb & H).
  unfold ret in H. injection H as <- _.
  unfold _generate_step_feedback in Hfb.
  apply bind_inv_ok in Hfb as (x & w3 & _ & Hfb).
  unfold ret in Hfb. injection Hfb as <- _.
  eexists. split; [reflexivity|].
  cbn [overall_level recommendations].
  rewrite recommendations_by_score.
  set (overall := _assess_technical_skills procedure_type step actions t * 0.7
                  + nt * 0.3).
  unfold performance_level_of.
  destruct (Qgeb overall 90) eqn:E90.
  { apply Qgeb_true in E90.
    assert (Qltb overall 70 = false) as -> by (apply Qltb_ge; lra).
    assert (Qltb overall 85 = false) as -> by (apply Qltb_ge; lra).
    split; [repeat constructor|]. split; [done|].
    split; [by left|]. split; intros [=]. }
  apply Qgeb_false in E90.
  destruct (Qgeb overall 75) eqn:E75.
  { apply Qgeb_true in E75.
    assert (Qltb overall 70 = false) as -> by (apply Qltb_ge; lra).
    split; [repeat constructor|]. split; [intros [=]|].
    split; [|split; intros [=]]. intros _.
    destruct (Qltb overall 85); [by right|by left]. }
  apply Qgeb_false in E75.
  assert (Qltb overall 85 = true) as E85 by (apply Qltb_lt; lra).
  destruct (Qgeb overall 60) eqn:E60.
  { split; [repeat constructor|]. split; [intros [=]|].
    split; [intros [=]|]. split; [|intros [=]]. intros _.
    destruct (Qltb overall 70); [by right|]. rewrite E85. by left. }
  apply Qgeb_false in E60.
  assert (Qltb overall 70 = true) as -> by (apply Qltb_lt; lra).
  split; [repeat constructor|]. split; [intros [=]|].
  split; [intros [=]|]. split; [intros [=]|done].
Qed.

End levels.

Lemma recommendations_follow_level_witness :
  ∃ a w' fb,
    assess_current_step "appendectomy"
      (catalog_step 2 "Trocar Placement"
         "Create pneumoperitoneum and insert trocars" "10-15 minutes" [] [])
      2 [] 700 (start []) = (Ok a, w') ∧
    feedback a = Some fb ∧ overall_level fb = "poor" ∧
    recommendations fb
    = [ "Review trocar placement technique in textbook";
        "Practice on simulation models before next attempt";
        "Seek mentorship for technique refinement";
        "Focus on smooth, deliberate movements";
        "Improve communication with surgical team" ].
Proof.
  assert (∃ a w',
            assess_current_step "appendectomy"
              (catalog_step 2 "Trocar Placement"
                 "Create pneumoperitoneum and insert trocars" "10-15 minutes"
                 [] [])
              2 [] 700 (start []) = (Ok a, w') ∧
            ∃ fb, feedback a = Some fb ∧ overall_level fb = "poor")
    as (a & w' & Hrun & fb & Hfb & Hlevel).
  { eexists _, _. split; [vm_compute; reflexivity|].
    eexists. split; [reflexivity|]. vm_compute. reflexivity. }
  destruct (recommendations_follow_level "appendectomy"
              (catalog_step 2 "Trocar Placement"
                 "Create pneumoperitoneum and insert trocars" "10-15 minutes"
                 [] [])
              2 [] 700 (start []) w' a eq_refl Hrun)
    as (fb' & Hfb' & _ & _ & _ & _ & Hpoor).
  rewrite Hfb in Hfb'. injection Hfb' as <-.
  exists a, w', fb. split; [exact Hrun|]. split; [exact Hfb|].
  split; [exact Hlevel|]. rewrite (Hpoor Hlevel). reflexivity.
Defined.
